(** * Quality analysis of drizzled products: a shallow embedding

    This development embeds the residual extraction engine of
    [drizzlepac/hlautils/quality_analysis.py] and the catalog comparison
    routines of [drizzlepac/hlautils/svm_quality_analysis.py], and states
    the properties of their specification against the embedded code.

    Python values are modelled as the code uses them: a dict as a finite
    map, a numpy array as a list with numpy's indexing rules written out,
    an exception as the [Raise] branch of a result type.  Floating-point
    numbers and the routines of external libraries (sigma clipping, WCS
    transforms, the cross-matcher) are parameters of the sections below. *)

From Stdlib Require Import ZArith QArith String Ascii List Lia Bool.
From stdpp Require Import base gmap strings list pretty.
Import ListNotations.
Local Open Scope string_scope.
Local Open Scope list_scope.
Local Open Scope Z_scope.

(** ** Python results and exceptions *)

Module Py.

Inductive exn : Type :=
| KeyError (key : string)
| IndexError
| TypeError
| ValueError
| ZeroDivisionError
| UnboundLocalError (var : string)
| FileNotFoundError (path : string).

Inductive res (A : Type) : Type :=
| Ok (a : A)
| Raise (e : exn).
Arguments Ok {A} a.
Arguments Raise {A} e.

Definition bind {A B : Type} (m : res A) (k : A -> res B) : res B :=
  match m with
  | Ok a => k a
  | Raise e => Raise e
  end.

(** [d[key]] on a dict entry that may be absent. *)
Definition getitem {A : Type} (key : string) (o : option A) : res A :=
  match o with
  | Some a => Ok a
  | None => Raise (KeyError key)
  end.

(** A dict key is an integer or a string; the two never compare equal. *)
Definition pykey : Type := (Z + string)%type.
Definition KInt (z : Z) : pykey := inl z.
Definition KStr (s : string) : pykey := inr s.

End Py.
Export Py.

#[global] Instance res_bind : MBind res := fun A B k m => Py.bind m k.
#[global] Instance res_ret : MRet res := @Py.Ok.

(** ** numpy indexing *)

Module Np.

Section Indexing.
Context {A : Type}.

(** [a[i]] for one integer index: negative indices count from the end,
    anything outside [-n, n) raises IndexError. *)
Definition item (a : list A) (i : Z) : res A :=
  let n := Z.of_nat (length a) in
  let j := if i <? 0 then i + n else i in
  if (0 <=? j) && (j <? n)
  then match a !! Z.to_nat j with
       | Some v => Ok v
       | None => Raise IndexError
       end
  else Raise IndexError.

(** [a[idx]] for an integer index array. *)
Fixpoint take (a : list A) (idx : list Z) : res (list A) :=
  match idx with
  | [] => Ok []
  | i :: rest =>
      v ← item a i;
      vs ← take a rest;
      Ok (v :: vs)
  end.

Fixpoint compress (mask : list bool) (a : list A) : list A :=
  match mask, a with
  | m :: ms, v :: vs => if m then v :: compress ms vs else compress ms vs
  | _, _ => []
  end.

(** [a[mask]] for a boolean mask: the lengths must agree. *)
Definition bool_index (a : list A) (mask : list bool) : res (list A) :=
  if Nat.eqb (length a) (length mask)
  then Ok (compress mask a)
  else Raise IndexError.
End Indexing.

(** [np.where(cond)[0]]: the positions at which [cond] holds. *)
Fixpoint where_from (pos : Z) (cond : Z -> bool) (a : list Z) : list Z :=
  match a with
  | [] => []
  | v :: vs =>
      if cond v then pos :: where_from (pos + 1) cond vs
      else where_from (pos + 1) cond vs
  end.
Definition where_ (cond : Z -> bool) (a : list Z) : list Z :=
  where_from 0 cond a.

End Np.

(** ** quality_analysis.py *)

Module QualityAnalysis.

(** The [type] entry of a group record. *)
Inductive role : Type := REFERENCE | IMAGE.

Section Engine.
(** Floating-point numbers, their subtraction, and
    [astropy.stats.sigma_clipped_stats(a)[-1]] with the library's default
    clipping parameters. *)
Variable num : Type.
Variable sub : num -> num -> num.
Variable sigma_clipped_std : list num -> num.

(** [chip.meta['fit_info']]: only [status] is present for every chip;
    the other entries exist when the fit routine filled them in. *)
Record fit_info : Type := {
  status : string;
  fitmask : option (list bool);
  matched_ref_idx : option (list Z);
  matched_input_idx : option (list Z);
  fit_RA : option (list num);
  fit_DEC : option (list num);
  shift : option (num * num);
  fit_rot : option num;       (* '<rot>' *)
  fit_scale : option num;     (* '<scale>' *)
  fit_nmatches : option Z;    (* 'nmatches' *)
  fit_skew : option num       (* 'skew' *)
}.

(** One entry of [imglist]: the chip's meta data and its WCS methods,
    which act point by point. *)
Record chip : Type := {
  meta_group_id : Z;
  meta_filename : string;
  meta_fit_info : fit_info;
  meta_catalog : list (num * num);          (* rows (x, y) *)
  det_to_world : num -> num -> num * num;
  world_to_tanp : num -> num -> num * num
}.

(** The entries added by [update] for an IMAGE chip. *)
Record fit_params : Type := {
  xsh : num; ysh : num; rot : num; scale : num; nmatches : Z; skew : num
}.

(** One value of [group_dict]. *)
Record group_rec : Type := {
  group_id : Z;
  type : option role;
  x : list num;
  y : list num;
  ref_x : list num;
  ref_y : list num;
  rms_x : option num;
  rms_y : option num;
  params : option fit_params
}.

Definition new_record (gid : Z) : group_rec :=
  {| group_id := gid; type := None;
     x := []; y := []; ref_x := []; ref_y := [];
     rms_x := None; rms_y := None; params := None |}.

(** [ref_ra] and [ref_dec] start as the Python list [[]] and become
    numpy arrays at the first [np.concatenate]. *)
Inductive refbuf : Type :=
| PyList
| NdArray (a : list num).

Definition np_concatenate (b : refbuf) (a : list num) : refbuf :=
  match b with
  | PyList => NdArray a
  | NdArray l => NdArray (l ++ a)
  end.

(** [b[idx]] with an index array: a Python list rejects it (numpy
    versions that convert a one-element index array to an integer find it
    out of range for the empty list). *)
Definition refbuf_take (b : refbuf) (idx : list Z) : res (list num) :=
  match b with
  | PyList => Raise TypeError
  | NdArray l => Np.take l idx
  end.

(** The local variables of [extract_residuals] that live across
    iterations of its loop. *)
Record locals : Type := {
  group_dict : gmap pykey group_rec;
  ref_ra : refbuf;
  ref_dec : refbuf;
  cum_indx : option Z          (* None: not yet bound *)
}.

Definition initial : locals :=
  {| group_dict := ∅; ref_ra := PyList; ref_dec := PyList; cum_indx := None |}.

(** Apply a chip's point transform to two coordinate arrays. *)
Definition transform (f : num -> num -> num * num) (a b : list num)
  : list num * list num :=
  List.split (List.map (fun p => f (fst p) (snd p)) (List.combine a b)).

Definition get_tangent_positions (c : chip) (indices : list Z) (start_indx : Z)
  : res (list num * list num * Z * list Z) :=
  let fitinfo := meta_fit_info c in
  img_ra ← getitem "fit_RA" (fit_RA fitinfo);
  img_dec ← getitem "fit_DEC" (fit_DEC fitinfo);
  let max_indx := Z.of_nat (length (meta_catalog c)) in
  let chip_indx :=
    Np.where_ (fun i => (start_indx <=? i) && (i <? max_indx + start_indx)) indices in
  ras ← Np.take img_ra chip_indx;
  decs ← Np.take img_dec chip_indx;
  let '(chip_x, chip_y) := transform (world_to_tanp c) ras decs in
  Ok ([] ++ chip_x, [] ++ chip_y, max_indx, chip_indx).

(** [group_dict[group_name][...] = ...]: the record must exist. *)
Definition modify (group_name : string) (f : group_rec -> group_rec)
    (d : gmap pykey group_rec) : res (gmap pykey group_rec) :=
  match d !! KStr group_name with
  | Some r => Ok (<[KStr group_name := f r]> d)
  | None => Raise (KeyError group_name)
  end.

Definition set_type (t : role) (r : group_rec) : group_rec :=
  {| group_id := group_id r; type := Some t;
     x := x r; y := y r; ref_x := ref_x r; ref_y := ref_y r;
     rms_x := rms_x r; rms_y := rms_y r; params := params r |}.

(** The statements of the IMAGE branch that write into the record. *)
Definition store_image (p : fit_params) (img_x img_y rx ry : list num)
    (r : group_rec) : group_rec :=
  {| group_id := group_id r; type := Some IMAGE;
     x := x r ++ img_x; y := y r ++ img_y;
     ref_x := ref_x r ++ rx; ref_y := ref_y r ++ ry;
     rms_x := Some (sigma_clipped_std (zip_with sub img_x rx));
     rms_y := Some (sigma_clipped_std (zip_with sub img_y ry));
     params := Some p |}.

(** The positions one IMAGE chip contributes, and the advance of the
    running offset: lines 144-152. *)
Definition chip_positions (st : locals) (c : chip)
  : res (list num * list num * list num * list num * Z) :=
  let fitinfo := meta_fit_info c in
  img_mask ← getitem "fitmask" (fitmask fitinfo);
  mref ← getitem "matched_ref_idx" (matched_ref_idx fitinfo);
  ref_indx ← Np.bool_index mref img_mask;
  minp ← getitem "matched_input_idx" (matched_input_idx fitinfo);
  img_indx ← Np.bool_index minp img_mask;
  start ← match cum_indx st with
          | Some v => Ok v
          | None => Raise (UnboundLocalError "cum_indx")
          end;
  '(img_x, img_y, max_indx, chip_mask) ← get_tangent_positions c img_indx start;
  ras0 ← refbuf_take (ref_ra st) ref_indx;
  ras ← Np.take ras0 chip_mask;
  decs0 ← refbuf_take (ref_dec st) ref_indx;
  decs ← Np.take decs0 chip_mask;
  let '(rx, ry) := transform (world_to_tanp c) ras decs in
  Ok (img_x, img_y, rx, ry, start + max_indx).

Definition read_params (fitinfo : fit_info) : res fit_params :=
  sh ← getitem "shift" (shift fitinfo);
  r ← getitem "<rot>" (fit_rot fitinfo);
  s ← getitem "<scale>" (fit_scale fitinfo);
  n ← getitem "nmatches" (fit_nmatches fitinfo);
  k ← getitem "skew" (fit_skew fitinfo);
  Ok {| xsh := fst sh; ysh := snd sh; rot := r; scale := s;
        nmatches := n; skew := k |}.

(** Lines 129-134: the guarded creation of the group's record. *)
Definition init_group (st : locals) (c : chip) : locals :=
  let group_id := meta_group_id c in
  let group_name := meta_filename c in
  match group_dict st !! KInt group_id with
  | None =>       (* group_id not in group_dict *)
      {| group_dict := <[KStr group_name := new_record group_id]> (group_dict st);
         ref_ra := ref_ra st; ref_dec := ref_dec st;
         cum_indx := Some 0 |}
  | Some _ => st
  end.

(** The body of the loop over [imglist]. *)
Definition loop_body (st : locals) (c : chip) : res locals :=
  let group_name := meta_filename c in
  let fitinfo := meta_fit_info c in
  let st := init_group st c in
  if String.eqb (status fitinfo) "REFERENCE" then
    gd ← modify group_name (set_type REFERENCE) (group_dict st);
    let '(rra, rdec) := transform (det_to_world c)
                          (List.map fst (meta_catalog c))
                          (List.map snd (meta_catalog c)) in
    Ok {| group_dict := gd;
          ref_ra := np_concatenate (ref_ra st) rra;
          ref_dec := np_concatenate (ref_dec st) rdec;
          cum_indx := cum_indx st |}
  else
    '(img_x, img_y, rx, ry, cum) ← chip_positions st c;
    gd ← modify group_name (set_type IMAGE) (group_dict st);
    p ← read_params fitinfo;
    gd ← modify group_name (store_image p img_x img_y rx ry) gd;
    Ok {| group_dict := gd; ref_ra := ref_ra st; ref_dec := ref_dec st;
          cum_indx := Some cum |}.

Fixpoint run (st : locals) (imglist : list chip) : res locals :=
  match imglist with
  | [] => Ok st
  | c :: rest => st' ← loop_body st c; run st' rest
  end.

Definition extract_residuals (imglist : list chip) : res (gmap pykey group_rec) :=
  st ← run initial imglist; Ok (group_dict st).

(** *** determine_alignment_residuals *)

(** The collaborators of the caller: source extraction per chip of a
    file, the catalog builder, and the fit routine, which updates the
    chips' meta data in place or raises. *)
Variable extract_point_sources : string -> list (list (num * num)).
Variable build_wcscat : string -> Z -> list (list (num * num)) -> list chip.
Variable align_wcs : list chip -> res (list chip).

Inductive event : Type :=
| AlignWcs (imglist : list chip)
| JsonDump (path : string) (resids : gmap pykey group_rec).

(** Python's [max] of a list. *)
Definition py_max (l : list Z) : res Z :=
  match l with
  | [] => Raise ValueError
  | v :: vs => Ok (fold_left Z.max vs v)
  end.

(** [nums]: the sources of one file, summed over its chips. *)
Definition count_sources (img_cats : list (list (num * num))) : Z :=
  fold_left (fun nums cat => nums + Z.of_nat (length cat)) img_cats 0.

Fixpoint build_imglist (i : Z) (files : list string)
    (src_cats : list (list (list (num * num)))) : list chip :=
  match files, src_cats with
  | f :: fs, cat :: cats => build_wcscat f i cat ++ build_imglist (i + 1) fs cats
  | _, _ => []
  end.

Definition is_success (c : chip) : bool :=
  String.eqb (status (meta_fit_info c)) "SUCCESS".

(** The function returns the name of the JSON file or None; the events
    record the calls to the fit routine and the file written. *)
Definition determine_alignment_residuals (input : string) (files : list string)
  : list event * res (option string) :=
  let src_cats := List.map extract_point_sources files in
  let num_srcs := List.map count_sources src_cats in
  match py_max num_srcs with
  | Raise e => ([], Raise e)
  | Ok m =>
      if m <=? 3 then ([], Ok None)
      else
        let imglist := build_imglist 0 files src_cats in
        match align_wcs imglist with
        | Raise _ => ([AlignWcs imglist], Ok None)
        | Ok imglist' =>
            if existsb is_success imglist' then
              match extract_residuals imglist' with
              | Raise e => ([AlignWcs imglist], Raise e)
              | Ok resids =>
                  let resids_file :=
                    (String.substring 0 9 input ++ "_astrometry_resids.json")%string in
                  ([AlignWcs imglist; JsonDump resids_file resids],
                   Ok (Some resids_file))
              end
            else ([AlignWcs imglist], Ok None)
        end
  end.

(** The number of sources detected over all input files. *)
Definition total_sources (files : list string) : Z :=
  fold_right Z.add 0 (List.map count_sources (List.map extract_point_sources files)).

Definition matching_attempted (tr : list event) : bool :=
  existsb (fun e => match e with AlignWcs _ => true | _ => false end) tr.

End Engine.

Arguments status {num} f.
Arguments fitmask {num} f.
Arguments matched_ref_idx {num} f.
Arguments matched_input_idx {num} f.
Arguments fit_RA {num} f.
Arguments fit_DEC {num} f.
Arguments shift {num} f.
Arguments fit_rot {num} f.
Arguments fit_scale {num} f.
Arguments fit_nmatches {num} f.
Arguments fit_skew {num} f.
Arguments meta_group_id {num} c.
Arguments meta_filename {num} c.
Arguments meta_fit_info {num} c.
Arguments meta_catalog {num} c.
Arguments det_to_world {num} c.
Arguments world_to_tanp {num} c.
Arguments xsh {num} f.
Arguments ysh {num} f.
Arguments rot {num} f.
Arguments scale {num} f.
Arguments nmatches {num} f.
Arguments skew {num} f.
Arguments group_id {num} g.
Arguments type {num} g.
Arguments x {num} g.
Arguments y {num} g.
Arguments ref_x {num} g.
Arguments ref_y {num} g.
Arguments rms_x {num} g.
Arguments rms_y {num} g.
Arguments params {num} g.
Arguments new_record {num} gid.
Arguments PyList {num}.
Arguments NdArray {num} a.
Arguments np_concatenate {num} b a.
Arguments refbuf_take {num} b idx.
Arguments group_dict {num} l.
Arguments ref_ra {num} l.
Arguments ref_dec {num} l.
Arguments cum_indx {num} l.
Arguments initial {num}.
Arguments transform {num} f a b.
Arguments get_tangent_positions {num} c indices start_indx.
Arguments modify {num} group_name f d.
Arguments set_type {num} t r.
Arguments store_image {num} sub sigma_clipped_std p img_x img_y rx ry r.
Arguments chip_positions {num} st c.
Arguments read_params {num} fitinfo.
Arguments init_group {num} st c.
Arguments loop_body {num} sub sigma_clipped_std st c.
Arguments run {num} sub sigma_clipped_std st imglist.
Arguments extract_residuals {num} sub sigma_clipped_std imglist.
Arguments AlignWcs {num} imglist.
Arguments JsonDump {num} path resids.
Arguments count_sources {num} img_cats.
Arguments build_imglist {num} build_wcscat i files src_cats.
Arguments is_success {num} c.
Arguments determine_alignment_residuals {num} sub sigma_clipped_std
  extract_point_sources build_wcscat align_wcs input files.
Arguments total_sources {num} extract_point_sources files.
Arguments matching_attempted {num} tr.

End QualityAnalysis.

(** ** The properties of the residual extraction engine, as predicates *)

Module EngineSpec.

Import QualityAnalysis.

Section Predicates.
Variable num : Type.
Variable sub : num -> num -> num.
Variable sigma_clipped_std : list num -> num.

(** Every key of the dict is a file name. *)
Definition string_keys (st : locals num) : Prop :=
  forall z : Z, group_dict st !! KInt z = None.

Definition is_reference (c : chip num) : bool :=
  String.eqb (status (meta_fit_info c)) "REFERENCE".

(** The matched positions that the IMAGE chips named [name] have
    contributed while [imglist] was processed from [st]: the four
    sequences x, y, ref_x, ref_y, chip after chip. *)
Fixpoint accumulated (st : locals num) (imglist : list (chip num)) (name : string)
  : list num * list num * list num * list num :=
  match imglist with
  | [] => ([], [], [], [])
  | c :: rest =>
      match loop_body sub sigma_clipped_std st c with
      | Raise _ => ([], [], [], [])
      | Ok st' =>
          let '(ax, ay, arx, ary) := accumulated st' rest name in
          if String.eqb (meta_filename c) name && negb (is_reference c) then
            match chip_positions (init_group st c) c with
            | Ok (img_x, img_y, rx, ry, _) =>
                (img_x ++ ax, img_y ++ ay, rx ++ arx, ry ++ ary)
            | Raise _ => (ax, ay, arx, ary)
            end
          else (ax, ay, arx, ary)
      end
  end.

(** The statement on the RMS in the words of the specification: after
    the run, the RMS of every IMAGE group is the sigma-clipped deviation
    of the residuals over all positions its chips contributed. *)
Definition rms_over_accumulation (imglist : list (chip num)) : Prop :=
  forall d name r,
    extract_residuals sub sigma_clipped_std imglist = Ok d ->
    d !! KStr name = Some r ->
    type r = Some IMAGE ->
    let '(ax, ay, arx, ary) := accumulated initial imglist name in
    rms_x r = Some (sigma_clipped_std (zip_with sub ax arx))
    /\ rms_y r = Some (sigma_clipped_std (zip_with sub ay ary)).

(** The documented values of the fit status. *)
Definition documented_status (s : string) : bool :=
  String.eqb s "SUCCESS" || String.eqb s "REFERENCE" || String.prefix "FAILED" s.

Definition with_status (s : string) (c : chip num) : chip num :=
  let f := meta_fit_info c in
  {| meta_group_id := meta_group_id c; meta_filename := meta_filename c;
     meta_fit_info :=
       {| status := s; fitmask := fitmask f;
          matched_ref_idx := matched_ref_idx f;
          matched_input_idx := matched_input_idx f;
          fit_RA := fit_RA f; fit_DEC := fit_DEC f; shift := shift f;
          fit_rot := fit_rot f; fit_scale := fit_scale f;
          fit_nmatches := fit_nmatches f; fit_skew := fit_skew f |};
     meta_catalog := meta_catalog c; det_to_world := det_to_world c;
     world_to_tanp := world_to_tanp c |}.

(** A fit record with every entry the IMAGE branch reads, the mask as
    long as the two index arrays. *)
Definition fit_complete (f : fit_info num) : Prop :=
  exists mask mref minp ra dec sh r s n k,
    fitmask f = Some mask /\ matched_ref_idx f = Some mref
    /\ matched_input_idx f = Some minp
    /\ length mref = length mask /\ length minp = length mask
    /\ fit_RA f = Some ra /\ fit_DEC f = Some dec /\ shift f = Some sh
    /\ fit_rot f = Some r /\ fit_scale f = Some s
    /\ fit_nmatches f = Some n /\ fit_skew f = Some k.

(** No matched index passes the fit's validity mask. *)
Definition none_survives (f : fit_info num) : Prop :=
  exists mask, fitmask f = Some mask /\ forallb negb mask = true.

Definition is_array (b : refbuf num) : Prop :=
  match b with NdArray _ => True | PyList => False end.

Definition empty_positions (r : group_rec num) : Prop :=
  x r = [] /\ y r = [] /\ ref_x r = [] /\ ref_y r = [].

(** Every record of type REFERENCE has empty position sequences. *)
Definition references_empty (d : gmap pykey (group_rec num)) : Prop :=
  forall k r, d !! k = Some r -> type r = Some REFERENCE -> empty_positions r.

End Predicates.

Arguments string_keys {num} st.
Arguments is_reference {num} c.
Arguments accumulated {num} sub sigma_clipped_std st imglist name.
Arguments rms_over_accumulation {num} sub sigma_clipped_std imglist.
Arguments with_status {num} s c.
Arguments fit_complete {num} f.
Arguments none_survives {num} f.
Arguments is_array {num} b.
Arguments empty_positions {num} r.
Arguments references_empty {num} d.

End EngineSpec.

(** ** Python string methods *)

Module PyStr.

(** [s.split(sep)] for a one-character separator: never empty. *)
Fixpoint split (sep : ascii) (s : string) : list string :=
  match s with
  | EmptyString => [EmptyString]
  | String c rest =>
      if Ascii.eqb c sep then EmptyString :: split sep rest
      else match split sep rest with
           | tok :: toks => String c tok :: toks
           | [] => [String c EmptyString]
           end
  end.

(** [sep.join(l)] *)
Definition join (sep : string) (l : list string) : string := String.concat sep l.

(** [s.find(sub)]: None stands for -1. *)
Definition find (sub s : string) : option nat := String.index 0 sub s.

(** [sub in s] *)
Definition contains (sub s : string) : bool :=
  match find sub s with Some _ => true | None => false end.

Definition startswith (p s : string) : bool := String.prefix p s.

(** The characters [str.strip()] removes from an ASCII string. *)
Definition isspace (c : ascii) : bool :=
  let n := nat_of_ascii c in
  ((9 <=? n) && (n <=? 13) || (28 <=? n) && (n <=? 32))%nat.

Fixpoint lstrip (s : string) : string :=
  match s with
  | String c rest => if isspace c then lstrip rest else s
  | EmptyString => EmptyString
  end.

Fixpoint rstrip (s : string) : string :=
  match s with
  | EmptyString => EmptyString
  | String c rest =>
      match rstrip rest with
      | EmptyString => if isspace c then EmptyString else String c EmptyString
      | r => String c r
      end
  end.

Definition strip (s : string) : string := rstrip (lstrip s).

(** [s[0:-1]] *)
Fixpoint drop_last (s : string) : string :=
  match s with
  | EmptyString => EmptyString
  | String c EmptyString => EmptyString
  | String c rest => String c (drop_last rest)
  end.

(** [s[:-n]] *)
Definition drop_end (n : nat) (s : string) : string :=
  String.substring 0 (String.length s - n) s.

(** [l[i]] for a Python list and a literal non-negative index. *)
Definition nth_item {A : Type} (l : list A) (i : nat) : res A :=
  match l !! i with
  | Some v => Ok v
  | None => Raise IndexError
  end.

End PyStr.

(** ** svm_quality_analysis.py *)

Module SvmQualityAnalysis.

Inductive level : Type := INFO | WARNING | ERROR.

(** A value substituted into a log message. *)
Inductive arg : Type :=
| AStr (s : string)
| AInt (z : Z)
| AList (l : list string)
| AFloat (q : Q).

Section Svm.
Variable num : Type.

Local Set Warnings "-register-all".

(** What ends up in a JSON artifact. *)
Inductive json : Type :=
| JNull
| JInt (z : Z)
| JNum (v : num)
| JStr (s : string)
| JArr (items : list json)
| JObj (fields : list (string * json)).

(** [d[k] = v] on an insertion-ordered dict. *)
Fixpoint dict_set (k : string) (v : json) (d : list (string * json))
  : list (string * json) :=
  match d with
  | [] => [(k, v)]
  | (k', v') :: rest =>
      if String.eqb k' k then (k, v) :: rest else (k', v') :: dict_set k v rest
  end.

(** [d.update(other)] *)
Definition dict_update (d other : list (string * json)) : list (string * json) :=
  fold_left (fun acc kv => dict_set (fst kv) (snd kv) acc) other d.

Fixpoint dict_get (k : string) (d : list (string * json)) : option json :=
  match d with
  | [] => None
  | (k', v) :: rest => if String.eqb k' k then Some v else dict_get k rest
  end.

(** The diagnostic object of [diagnostic_utils]: a header naming the
    product and the routine, and data items stored by title. *)
Record diagnostic : Type := {
  diag_source : string;
  diag_data_source : string;
  diag_description : string;
  diag_items : list (string * json)
}.

Definition instantiate (source data_source description : string) : diagnostic :=
  {| diag_source := source; diag_data_source := data_source;
     diag_description := description; diag_items := [] |}.

Definition add_data_item (dataset : json) (title : string) (d : diagnostic)
  : diagnostic :=
  {| diag_source := diag_source d; diag_data_source := diag_data_source d;
     diag_description := diag_description d;
     diag_items := dict_set title dataset (diag_items d) |}.

(** What a routine does to the outside: log records and files written. *)
Inductive effect : Type :=
| Log (lvl : level) (template : string) (args : list arg)
| WriteJson (path : string) (content : diagnostic).

(** A computation logs and writes, then returns or raises. *)
Definition io (A : Type) : Type := (list effect * res A)%type.

Definition io_ret {A : Type} (a : A) : io A := ([], Ok a).

Definition io_bind {A B : Type} (m : io A) (k : A -> io B) : io B :=
  match m with
  | (out, Ok a) => let '(out', r) := k a in (out ++ out', r)
  | (out, Raise e) => (out, Raise e)
  end.

Definition lift {A : Type} (r : res A) : io A := ([], r).
Definition log (lvl : level) (template : string) (args : list arg) : io unit :=
  ([Log lvl template args], Ok tt).
Definition write_json_file (path : string) (d : diagnostic) : io unit :=
  ([WriteJson path d], Ok tt).

(** [for item in l: body(item)] *)
Fixpoint for_each {A : Type} (body : A -> io unit) (l : list A) : io unit :=
  match l with
  | [] => io_ret tt
  | a :: rest => io_bind (body a) (fun _ => for_each body rest)
  end.

Definition written (out : list effect) : list (string * diagnostic) :=
  omap (fun e => match e with WriteJson p d => Some (p, d) | _ => None end) out.

Definition logged (out : list effect) : list (level * string) :=
  omap (fun e => match e with Log l t _ => Some (l, t) | _ => None end) out.

Fixpoint fold_io {A S : Type} (body : S -> A -> io S) (l : list A) (s : S) : io S :=
  match l with
  | [] => io_ret s
  | a :: rest => io_bind (body s a) (fun s' => fold_io body rest s')
  end.

#[global] Instance io_mbind : MBind io := fun A B k m => io_bind m k.
#[global] Instance io_mret : MRet io := @io_ret.

Definition pnt_suffix : string := "_point-cat.ecsv".
Definition seg_suffix : string := "_segment-cat.ecsv".
Definition taskname : string := "svm_quality_analysis".

(** [cat_names] of a drizzle file name split into [tokens]. *)
Definition cat_names_of (tokens : list string) : list string :=
  let prefix := PyStr.join "_" (removelast tokens) in
  [(prefix ++ pnt_suffix)%string; (prefix ++ seg_suffix)%string].

(** *** compare_num_sources *)

(** The text files of the working directory, as their lines, and the
    built-in [int] on strings. *)
Variable open_lines : string -> option (list string).
Variable py_int : string -> option Z.

Definition py_open (path : string) : res (list string) :=
  match open_lines path with
  | Some lines => Ok lines
  | None => Raise (FileNotFoundError path)
  end.

(** [any(catalog in x for x in catalog_list)] *)
Definition does_exist (catalog : string) (catalog_list : list string) : bool :=
  existsb (fun x => PyStr.contains catalog x) catalog_list.

(** The loop over the lines of a catalog; the result is [num_sources],
    the integer -1 or the text cut out of the comment line. *)
Fixpoint read_num_sources (catalog : string) (lines : list string)
  : io (Z + string) :=
  match lines with
  | [] => io_ret (inl (-1))
  | line :: rest =>
      let sline := PyStr.strip line in
      if negb (PyStr.startswith "#" sline) then
        _ ← log INFO "Number of sources not reported in Catalog: {}." [AStr catalog];
        io_ret (inl (-1))
      else if PyStr.contains "Number of sources" sline then
        let num_sources :=
          PyStr.drop_last (List.last (PyStr.split " " sline) EmptyString) in
        _ ← log INFO "Catalog: {} Number of sources: {}."
               [AStr catalog; AStr num_sources];
        io_ret (inr num_sources)
      else read_num_sources catalog rest
  end.

(** [int(num_sources)] *)
Definition to_int (num_sources : Z + string) : res Z :=
  match num_sources with
  | inl z => Ok z
  | inr s => match py_int s with
             | Some z => Ok z
             | None => Raise ValueError
             end
  end.

Definition cat_type_of (catalog : string) : string :=
  if PyStr.contains "point" catalog then "point" else "segment".

(** The body of the loop over [cat_names]. *)
Definition count_catalog (catalog_list : list string)
    (sources_dict : list (string * json)) (catalog : string)
  : io (list (string * json)) :=
  if does_exist catalog catalog_list then
    file ← lift (py_open catalog);
    num_sources ← read_num_sources catalog file;
    n ← lift (to_int num_sources);
    io_ret (dict_set (cat_type_of catalog) (JInt n) sources_dict)
  else io_ret sources_dict.

Definition num_sources_product (catalog_list : list string) (drizzle_file : string)
  : io unit :=
  let tokens := PyStr.split "_" drizzle_file in
  detector ← lift (PyStr.nth_item tokens 4);
  ipppss ← lift (PyStr.nth_item tokens 6);
  let sources_dict :=
    [("detector", JStr detector); ("point", JInt 0); ("segment", JInt 0)] in
  let json_filename := (ipppss ++ "_" ++ detector ++ "_svm_num_sources.json")%string in
  sources_dict ← fold_io (count_catalog catalog_list) (cat_names_of tokens) sources_dict;
  let diagnostic_obj :=
    add_data_item (JObj sources_dict) "number_of_sources"
      (instantiate drizzle_file (taskname ++ ".compare_num_sources")%string
         "Number of sources in Point and Segment catalogs") in
  _ ← write_json_file json_filename diagnostic_obj;
  log INFO "Generated quality statistics (number of sources) as {}." [AStr json_filename].

Definition compare_num_sources (catalog_list drizzle_list : list string) : io unit :=
  for_each (num_sources_product catalog_list) drizzle_list.

(** *** Catalog tables and the matched-line utilities *)

(** A catalog: columns by name, all of one length. *)
Definition table : Type := list (string * list num).

Definition colnames (t : table) : list string := List.map fst t.

(** [len(t)]: the number of rows. *)
Definition table_len (t : table) : Z :=
  match t with
  | [] => 0
  | (_, col) :: _ => Z.of_nat (length col)
  end.

(** [t[name]] *)
Fixpoint column (name : string) (t : table) : res (list num) :=
  match t with
  | [] => Raise (KeyError name)
  | (k, col) :: rest => if String.eqb k name then Ok col else column name rest
  end.

(** [t.rename_column(old, new)] *)
Fixpoint rename_column (old new : string) (t : table) : res table :=
  match t with
  | [] => Raise (KeyError old)
  | (k, col) :: rest =>
      if String.eqb k old then Ok ((new, col) :: rest)
      else rest' ← rename_column old new rest; Ok ((k, col) :: rest')
  end.

(** [list(set(a).intersection(set(b)))] *)
Definition common (a b : list string) : list string :=
  List.filter (fun c => existsb (String.eqb c) b) a.

(** The missing-value test on a cell and the integer held by a flag cell. *)
Variable is_missing : num -> bool.
Variable as_int : num -> Z.

(** Modelled from the spec: [extractMatchedLines] of the module
    [compare_sourcelists], which is not part of the sources at hand.
    It row-gathers the named column from each catalog at the given
    indices and optionally compresses both rows by one boolean mask; the
    result is a 2xN array, so the two rows must have one length. *)
Definition extractMatchedLines (name : string) (catA catB : table)
    (idxA idxB : list Z) (bitmask : option (list bool))
  : res (list num * list num) :=
  colA ← column name catA;
  rowA ← Np.take colA idxA;
  colB ← column name catB;
  rowB ← Np.take colB idxB;
  if negb (Nat.eqb (length rowA) (length rowB)) then Raise ValueError
  else match bitmask with
       | None => Ok (rowA, rowB)
       | Some m =>
           a ← Np.bool_index rowA m;
           b ← Np.bool_index rowB m;
           Ok (a, b)
       end.

(** Modelled from the spec: [mask_missing_values] of
    [compare_sourcelists]: true where none of the listed columns is
    missing, for either catalog, at that matched pair. *)
Fixpoint mask_missing_values (catA catB : table) (idxA idxB : list Z)
    (columns : list string) : res (list bool) :=
  match columns with
  | [] => Ok (List.repeat true (length idxA))
  | c :: cs =>
      '(rowA, rowB) ← extractMatchedLines c catA catB idxA idxB None;
      rest ← mask_missing_values catA catB idxA idxB cs;
      Ok (zip_with andb
            (zip_with (fun a b => negb (is_missing a) && negb (is_missing b)) rowA rowB)
            rest)
  end.

(** Modelled from the spec: [make_flag_mask] of [compare_sourcelists]:
    a pair is good when the bitwise AND of its two flag values equals
    the good-bits constant and the pair has no missing value. *)
Definition make_flag_mask (flag_pairs : list num * list num) (good_bits : Z)
    (missing_mask : list bool) : list bool :=
  zip_with andb
    (zip_with (fun a b => Z.land (as_int a) (as_int b) =? good_bits)
       (fst flag_pairs) (snd flag_pairs))
    missing_mask.

(** The external cross-matcher [getMatchedLists]: the matched row
    indices of the two catalogs. *)
Variable getMatchedLists :
  list string -> list string -> list Z -> res (list Z * list Z).

(** numpy's statistics. *)
Variable np_min np_max np_mean np_median np_std : list num -> num.
Variable sigma_clipped_stats : Z -> Z -> list num -> num * num * num.

(** [float(a) / float(b)] *)
Definition truediv (a b : Z) : res Q :=
  if b =? 0 then Raise ZeroDivisionError
  else Ok (Qmake a 1 / Qmake b 1)%Q.

Definition len {A : Type} (l : list A) : Z := Z.of_nat (length l).

(** *** compare_ra_dec_crossmatches *)

Record hap_product : Type := {
  point_cat_filename : string;
  segment_cat_filename : string;
  drizzle_filename : string
}.

(** Reading the two source lists, the RADESYS keyword of an image, and
    astropy's sky coordinates: conversion to ICRS and separation in
    arc-seconds. *)
Variable slFiles2dataTables : list string -> res (table * table).
Variable radesys : string -> string.
Variable icrs : string -> list num * list num -> list num * list num.
Variable separation_arcsec : list num * list num -> list num * list num -> list num.

Definition lower_ascii (c : ascii) : ascii :=
  let n := nat_of_ascii c in
  if ((65 <=? n) && (n <=? 90))%nat then ascii_of_nat (n + 32) else c.

Fixpoint lower (s : string) : string :=
  match s with
  | EmptyString => EmptyString
  | String c rest => String (lower_ascii c) (lower rest)
  end.

Definition jnums (l : list num) : json := JArr (List.map JNum l).

Definition out_cat (ra dec : list num) : json :=
  JObj [("Right ascension", jnums ra); ("Declination", jnums dec)].

Definition compare_ra_dec_crossmatches (hap_obj : hap_product) : io unit :=
  let slNames := [point_cat_filename hap_obj; segment_cat_filename hap_obj] in
  let imgNames := [drizzle_filename hap_obj; drizzle_filename hap_obj] in
  let good_flag_sum := 255 in
  let diag_obj :=
    instantiate (drizzle_filename hap_obj)
      (taskname ++ ".compare_ra_dec_crossmatches")%string
      "matched point and segment catalog RA and Dec values" in
  let json_results_dict :=
    [("point catalog filename", JStr (point_cat_filename hap_obj));
     ("segment catalog filename", JStr (segment_cat_filename hap_obj))] in
  '(point_data, seg_data) ← lift (slFiles2dataTables slNames);
  _ ← log INFO "Valid point data columns:   {}" [AList (colnames point_data)];
  _ ← log INFO "Valid segment data columns: {}" [AList (colnames seg_data)];
  _ ← log INFO "\n" [];
  _ ← log INFO "Data columns to be compared:" [];
  let columns_to_compare := common (colnames point_data) (colnames seg_data) in
  _ ← for_each (fun listItem => log INFO "{}" [AStr listItem]) columns_to_compare;
  _ ← log INFO "\n" [];
  point_ra ← lift (column "RA" point_data);
  seg_ra ← lift (column "RA" seg_data);
  let slLengths := [len point_ra; len seg_ra] in
  let json_results_dict :=
    dict_set "point catalog length" (JInt (len point_ra)) json_results_dict in
  let json_results_dict :=
    dict_set "segment catalog length" (JInt (len seg_ra)) json_results_dict in
  '(matching_lines_ref, matching_lines_img) ←
    lift (getMatchedLists slNames imgNames slLengths);
  let json_results_dict :=
    dict_set "number of cross-matches" (JInt (len matching_lines_ref))
      json_results_dict in
  _ ← log INFO "Cross-matching results" [];
  point_ratio ← lift (truediv (len matching_lines_ref) (len point_ra));
  _ ← log INFO "Point sourcelist:  {} of {} total sources cross-matched ({}%)"
        [AInt (len matching_lines_ref); AInt (len point_ra);
         AFloat (100 * point_ratio)%Q];
  seg_ratio ← lift (truediv (len matching_lines_img) (len seg_ra));
  _ ← log INFO "Segment sourcelist: {} of {} total sources cross-matched ({}%)"
        [AInt (len matching_lines_img); AInt (len seg_ra);
         AFloat (100 * seg_ratio)%Q];
  if (len matching_lines_ref =? 0) || (len matching_lines_img =? 0) then
    log ERROR "*** No matching sources were found. Comparisons cannot be computed. No json file will be produced.***" []
  else
    missing_mask ← lift (mask_missing_values point_data seg_data
                           matching_lines_ref matching_lines_img columns_to_compare);
    matched_values ← lift (extractMatchedLines "FLAGS" point_data seg_data
                             matching_lines_ref matching_lines_img None);
    let bitmask := make_flag_mask matched_values good_flag_sum missing_mask in
    matched_values_ra ← lift (extractMatchedLines "RA" point_data seg_data
                                matching_lines_ref matching_lines_img (Some bitmask));
    matched_values_dec ← lift (extractMatchedLines "DEC" point_data seg_data
                                 matching_lines_ref matching_lines_img (Some bitmask));
    if (0 <? len (fst matched_values_ra))
       && (len (fst matched_values_ra) =? len (fst matched_values_dec)) then
      let point_frame := lower (radesys (drizzle_filename hap_obj)) in
      let seg_frame := lower (radesys (drizzle_filename hap_obj)) in
      let json_results_dict :=
        dict_set "point frame" (JStr point_frame) json_results_dict in
      let json_results_dict :=
        dict_set "segment frame" (JStr seg_frame) json_results_dict in
      let matched_values_point := (fst matched_values_ra, fst matched_values_dec) in
      let matched_values_seg := (snd matched_values_ra, snd matched_values_dec) in
      let matched_values_point :=
        if negb (String.eqb point_frame "icrs")
        then icrs point_frame matched_values_point else matched_values_point in
      let matched_values_seg :=
        if negb (String.eqb seg_frame "icrs")
        then icrs seg_frame matched_values_seg else matched_values_seg in
      let sep := separation_arcsec matched_values_seg matched_values_point in
      let sigma := 3 in
      let maxiters := 3 in
      let clippedStats := sigma_clipped_stats sigma maxiters sep in
      let sep_stat_dict :=
        [("units", JStr "arcseconds");
         ("Non-clipped min", JNum (np_min sep));
         ("Non-clipped max", JNum (np_max sep));
         ("Non-clipped mean", JNum (np_mean sep));
         ("Non-clipped median", JNum (np_median sep));
         ("Non-clipped standard deviation", JNum (np_std sep));
         ("3x3 sigma-clipped mean", JNum (fst (fst clippedStats)));
         ("3x3 sigma-clipped median", JNum (snd (fst clippedStats)));
         ("3x3 sigma-clipped standard deviation", JNum (snd clippedStats))] in
      let out_cat_point := out_cat (fst matched_values_ra) (fst matched_values_dec) in
      let out_cat_seg := out_cat (snd matched_values_ra) (snd matched_values_dec) in
      let diag_obj := add_data_item (JObj json_results_dict) "Cross-match details" diag_obj in
      let diag_obj := add_data_item out_cat_point "Cross-matched point catalog" diag_obj in
      let diag_obj := add_data_item out_cat_seg "Cross-matched segment catalog" diag_obj in
      let diag_obj :=
        add_data_item (JObj sep_stat_dict)
          "Segment - point on-sky separation statistics" diag_obj in
      let json_filename :=
        (PyStr.drop_end 9 (drizzle_filename hap_obj)
           ++ "_svm_point_segment_crossmatch.json")%string in
      write_json_file json_filename diag_obj
    else
      log WARNING "Point vs. segment catalog cross match test could not be performed." [].

(** *** compare_photometry *)

(** Subtraction, and the scalar operations behind [np.sqrt], [np.add]
    and [np.square]. *)
Variable sub : num -> num -> num.
Variable fsqrt : num -> num.
Variable fadd : num -> num -> num.
Variable fsquare : num -> num.

(** The catalog files of the working directory ([os.path.isfile],
    [ascii.read]). *)
Variable catalogs : string -> option table.

Definition isfile (path : string) : bool :=
  match catalogs path with Some _ => true | None => false end.

Definition ascii_read (path : string) : res table :=
  match catalogs path with
  | Some t => Ok t
  | None => Raise (FileNotFoundError path)
  end.

Definition phot_column_names : list string := ["MagAp1"; "MagAp2"].
Definition error_column_names : list string := ["MagErrAp1"; "MagErrAp2"].

Definition photometry_title : string :=
  "High-level Photometry Statistics on differences of Point - Segment".

(** The values computed in one iteration of the loop over
    [phot_column_names]. *)
Record phot_values : Type := {
  delta_phot : list num;
  median_delta_phot : num;
  mean_delta_phot : num;
  std_delta_phot : num;
  result_error : list num;
  stat_dict : list (string * json)
}.

Definition phot_column (tab_point_measurements tab_seg_measurements : table)
    (matches_point_to_seg matches_seg_to_point : list Z)
    (flag_values_mask : list bool) (index : nat) (phot_column_name : string)
  : res phot_values :=
  matching_phot_rows ←
    extractMatchedLines phot_column_name tab_point_measurements tab_seg_measurements
      matches_point_to_seg matches_seg_to_point (Some flag_values_mask);
  let delta := zip_with sub (fst matching_phot_rows) (snd matching_phot_rows) in
  let median := np_median delta in
  let mean := np_mean delta in
  let std := np_std delta in
  error_column_name ← PyStr.nth_item error_column_names index;
  matching_error_rows ←
    extractMatchedLines error_column_name tab_point_measurements tab_seg_measurements
      matches_point_to_seg matches_seg_to_point (Some flag_values_mask);
  let err :=
    zip_with (fun a b => fsqrt (fadd (fsquare a) (fsquare b)))
      (fst matching_error_rows) (snd matching_error_rows) in
  let stat_key :=
    ("Stats for Delta_" ++ phot_column_name ++ " = Point_" ++ phot_column_name
       ++ " - Segment_" ++ phot_column_name)%string in
  Ok {| delta_phot := delta; median_delta_phot := median;
        mean_delta_phot := mean; std_delta_phot := std;
        result_error := err;
        stat_dict :=
          [(stat_key,
            JObj [("Mean Difference", JNum mean);
                  ("Standard Deviation", JNum std);
                  ("Median Difference", JNum median)])] |}.

(** [enumerate(l)] *)
Definition enumerate {A : Type} (l : list A) : list (nat * A) :=
  List.combine (List.seq 0 (length l)) l.

(** The body of the loop over [phot_column_names]; its state is
    [summary_dict] and the diagnostic object. *)
Definition phot_step (tab_point_measurements tab_seg_measurements : table)
    (matches_point_to_seg matches_seg_to_point : list Z)
    (flag_values_mask : list bool)
    (st : list (string * json) * diagnostic) (item : nat * string)
  : io (list (string * json) * diagnostic) :=
  v ← lift (phot_column tab_point_measurements tab_seg_measurements
              matches_point_to_seg matches_seg_to_point flag_values_mask
              (fst item) (snd item));
  let summary_dict := dict_update (fst st) (stat_dict v) in
  mret (summary_dict, add_data_item (JObj summary_dict) photometry_title (snd st)).

Definition photometry_product (drizzle_file : string) : io unit :=
  let tokens := PyStr.split "_" drizzle_file in
  detector ← lift (PyStr.nth_item tokens 4);
  filter_name ← lift (PyStr.nth_item tokens 5);
  ipppss ← lift (PyStr.nth_item tokens 6);
  let diagnostic_obj :=
    instantiate drizzle_file (taskname ++ ".compare_photometry")%string
      "Photometry differences in Point and Segment catalogs" in
  let summary_dict :=
    [("detector", JStr detector); ("filter_name", JStr filter_name)] in
  let json_filename :=
    PyStr.join "_" [ipppss; detector; "svm"; filter_name; "photometry.json"] in
  let cat_names := cat_names_of tokens in
  (* Check that both catalogs exist: the continue belongs to this loop *)
  _ ← for_each (fun catalog =>
         if negb (isfile catalog) then
           _ ← log WARNING "Catalog {} does not exist.  Both the Point and Segment catalogs must exist for comparison." [AStr catalog];
           log WARNING "Program skipping comparison of catalogs associated with {}.\n" [AStr drizzle_file]
         else mret tt) cat_names;
  point_name ← lift (PyStr.nth_item cat_names 0);
  seg_name ← lift (PyStr.nth_item cat_names 1);
  tab_point_measurements ← lift (ascii_read point_name);
  tab_seg_measurements ← lift (ascii_read seg_name);
  tab_point_measurements ← lift (rename_column "X-Center" "X" tab_point_measurements);
  tab_point_measurements ← lift (rename_column "Y-Center" "Y" tab_point_measurements);
  tab_seg_measurements ← lift (rename_column "X-Centroid" "X" tab_seg_measurements);
  tab_seg_measurements ← lift (rename_column "Y-Centroid" "Y" tab_seg_measurements);
  let cat_lengths := [table_len tab_point_measurements; table_len tab_seg_measurements] in
  let common_columns :=
    common (colnames tab_point_measurements) (colnames tab_seg_measurements) in
  '(matches_point_to_seg, matches_seg_to_point) ←
    lift (getMatchedLists cat_names [drizzle_file; drizzle_file] cat_lengths);
  if (len matches_point_to_seg =? 0) || (len matches_seg_to_point =? 0) then
    _ ← log WARNING "Catalog {} and Catalog {} had no matching sources."
          [AStr point_name; AStr seg_name];
    log WARNING "Program skipping comparison of catalogindexs associated with {}.\n"
      [AStr drizzle_file]
  else
    missing_values_mask ←
      lift (mask_missing_values tab_point_measurements tab_seg_measurements
              matches_point_to_seg matches_seg_to_point common_columns);
    flag_matching ←
      lift (extractMatchedLines "Flags" tab_point_measurements tab_seg_measurements
              matches_point_to_seg matches_seg_to_point None);
    let flag_values_mask := make_flag_mask flag_matching 255 missing_values_mask in
    '(summary_dict, diagnostic_obj) ←
      fold_io (phot_step tab_point_measurements tab_seg_measurements
                 matches_point_to_seg matches_seg_to_point flag_values_mask)
        (enumerate phot_column_names) (summary_dict, diagnostic_obj);
    _ ← write_json_file json_filename diagnostic_obj;
    log INFO "Generated photometry comparison for Point - Segment matches sources {}."
      [AStr json_filename].

Definition compare_photometry (drizzle_list : list string) : io unit :=
  for_each photometry_product drizzle_list.

End Svm.

Arguments JNull {num}.
Arguments JInt {num} z.
Arguments JNum {num} v.
Arguments JStr {num} s.
Arguments JArr {num} items.
Arguments JObj {num} fields.
Arguments dict_set {num} k v d.
Arguments dict_update {num} d other.
Arguments dict_get {num} k d.
Arguments diag_source {num} d.
Arguments diag_data_source {num} d.
Arguments diag_description {num} d.
Arguments diag_items {num} d.
Arguments instantiate {num} source data_source description.
Arguments add_data_item {num} dataset title d.
Arguments Log {num} lvl template args.
Arguments WriteJson {num} path content.
Arguments io_ret {num A} a.
Arguments io_bind {num A B} m k.
Arguments lift {num A} r.
Arguments log {num} lvl template args.
Arguments write_json_file {num} path d.
Arguments for_each {num A} body l.
Arguments fold_io {num A S} body l s.
Arguments written {num} out.
Arguments logged {num} out.
Arguments read_num_sources {num} catalog lines.
Arguments count_catalog {num} open_lines py_int catalog_list sources_dict catalog.
Arguments num_sources_product {num} open_lines py_int catalog_list drizzle_file.
Arguments compare_num_sources {num} open_lines py_int catalog_list drizzle_list.
Arguments colnames {num} t.
Arguments table_len {num} t.
Arguments column {num} name t.
Arguments rename_column {num} old new t.
Arguments extractMatchedLines {num} name catA catB idxA idxB bitmask.
Arguments mask_missing_values {num} is_missing catA catB idxA idxB columns.
Arguments make_flag_mask {num} as_int flag_pairs good_bits missing_mask.
Arguments delta_phot {num} p.
Arguments median_delta_phot {num} p.
Arguments mean_delta_phot {num} p.
Arguments std_delta_phot {num} p.
Arguments result_error {num} p.
Arguments stat_dict {num} p.
Arguments isfile {num} catalogs path.
Arguments ascii_read {num} catalogs path.

End SvmQualityAnalysis.

(** ** The properties of the catalog comparisons, as predicates *)

Module SvmSpec.

Import SvmQualityAnalysis.

Section Predicates.
Variable num : Type.
Variable open_lines : string -> option (list string).
Variable py_int : string -> option Z.

(** The comment lines at the start of a catalog file. *)
Fixpoint leading_comments (lines : list string) : list string :=
  match lines with
  | [] => []
  | line :: rest =>
      if PyStr.startswith "#" (PyStr.strip line)
      then line :: leading_comments rest else []
  end.

(** Some leading comment line has a 'Number of sources' entry. *)
Definition reports_number (lines : list string) : bool :=
  existsb (fun line => PyStr.contains "Number of sources" (PyStr.strip line))
    (leading_comments lines).

(** A listed catalog can be opened, and the number it reports, if any,
    is an integer literal. *)
Definition readable (catalog : string) : Prop :=
  exists lines out n z,
    open_lines catalog = Some lines
    /\ @read_num_sources num catalog lines = (out, Ok n)
    /\ to_int py_int n = Ok z.

(** A drizzle file name of the documented form
    hst_<id>_<visit>_<instrument>_<detector>_total_<ipppss>_drz.fits,
    whose listed catalogs are readable. *)
Definition product_ok (catalog_list : list string) (drizzle_file : string) : Prop :=
  let tokens := PyStr.split "_" drizzle_file in
  (7 <= length tokens)%nat
  /\ PyStr.contains "point"
       (PyStr.join "_" (removelast tokens) ++ seg_suffix)%string = false
  /\ forall catalog,
       In catalog (cat_names_of tokens) ->
       does_exist catalog catalog_list = true -> readable catalog.

(** The count recorded for one catalog type. *)
Definition count_ok (catalog_list : list string)
    (sources : list (string * json num)) (catalog cat_type : string) : Prop :=
  (does_exist catalog catalog_list = false ->
   dict_get cat_type sources = Some (JInt 0))
  /\ (does_exist catalog catalog_list = true ->
      forall lines, open_lines catalog = Some lines ->
                    reports_number lines = false ->
                    dict_get cat_type sources = Some (JInt (-1))).

(** The JSON artifact written for one product. *)
Definition artifact_ok (catalog_list : list string) (drizzle_file : string)
    (a : string * diagnostic num) : Prop :=
  exists point_name seg_name sources,
    cat_names_of (PyStr.split "_" drizzle_file) = [point_name; seg_name]
    /\ diag_source (snd a) = drizzle_file
    /\ dict_get "number_of_sources" (diag_items (snd a)) = Some (JObj sources)
    /\ count_ok catalog_list sources point_name "point"
    /\ count_ok catalog_list sources seg_name "segment".

(** The rows of column [name] of the point and the segment catalog of
    [drizzle_file], renamed as the routine renames them, at the matched
    pairs that survive the quality mask. *)
Variable is_missing : num -> bool.
Variable as_int : num -> Z.
Variable getMatchedLists :
  list string -> list string -> list Z -> res (list Z * list Z).
Variable catalogs : string -> option (table num).

Definition matched_rows (drizzle_file name : string)
    (rows : list num * list num) : Prop :=
  exists point_name seg_name tp0 tp1 tp ts0 ts1 ts mp ms missing flags,
    cat_names_of (PyStr.split "_" drizzle_file) = [point_name; seg_name]
    /\ catalogs point_name = Some tp0
    /\ catalogs seg_name = Some ts0
    /\ rename_column "X-Center" "X" tp0 = Ok tp1
    /\ rename_column "Y-Center" "Y" tp1 = Ok tp
    /\ rename_column "X-Centroid" "X" ts0 = Ok ts1
    /\ rename_column "Y-Centroid" "Y" ts1 = Ok ts
    /\ getMatchedLists [point_name; seg_name] [drizzle_file; drizzle_file]
         [table_len tp; table_len ts] = Ok (mp, ms)
    /\ mask_missing_values is_missing tp ts mp ms
         (common (colnames tp) (colnames ts)) = Ok missing
    /\ extractMatchedLines "Flags" tp ts mp ms None = Ok flags
    /\ extractMatchedLines name tp ts mp ms
         (Some (make_flag_mask as_int flags 255 missing)) = Ok rows.

(** The statistics of one magnitude column, as the record keeps them:
    built from the differences alone. *)
Variable np_mean np_median np_std : list num -> num.

(** The error of a difference: the square root of the sum of the
    squares of the two errors. *)
Variable fsqrt : num -> num.
Variable fadd : num -> num -> num.
Variable fsquare : num -> num.

Definition quadrature (a b : num) : num := fsqrt (fadd (fsquare a) (fsquare b)).

Definition stat_entry (phot_column_name : string) (delta : list num)
  : string * json num :=
  (("Stats for Delta_" ++ phot_column_name ++ " = Point_" ++ phot_column_name
      ++ " - Segment_" ++ phot_column_name)%string,
   JObj [("Mean Difference", JNum (np_mean delta));
         ("Standard Deviation", JNum (np_std delta));
         ("Median Difference", JNum (np_median delta))]).

End Predicates.

Arguments leading_comments lines : assert.
Arguments reports_number lines : assert.
Arguments readable num open_lines py_int catalog : assert.
Arguments product_ok num open_lines py_int catalog_list drizzle_file : assert.
Arguments count_ok {num} open_lines catalog_list sources catalog cat_type.
Arguments artifact_ok {num} open_lines catalog_list drizzle_file a.
Arguments matched_rows {num} is_missing as_int getMatchedLists catalogs
  drizzle_file name rows.
Arguments quadrature {num} fsqrt fadd fsquare a b.
Arguments stat_entry {num} np_mean np_median np_std phot_column_name delta.

(** The message logged when the cross-match finds nothing. *)
Definition no_match_message : string :=
  "*** No matching sources were found. Comparisons cannot be computed. No json file will be produced.***".

End SvmSpec.

(** ** A model of the numeric parameters in rational arithmetic

    The embedding is parametric in the floating-point type and in the
    library statistics.  To run it on concrete inputs, numbers are taken
    as rationals; a square root is taken to six decimals, and a statistic
    of an empty array, which numpy reports as nan, is 0. *)

Module RationalModel.

Local Open Scope Q_scope.

Definition qsub (a b : Q) : Q := Qred (a - b).
Definition qadd (a b : Q) : Q := Qred (a + b).
Definition qsquare (a : Q) : Q := Qred (a * a).

Definition qsqrt (q : Q) : Q :=
  Qred (Qmake (Z.sqrt (Qnum q * Zpos (Qden q) * 10 ^ 12)) (Qden q * 10 ^ 6)).

Definition qsum (l : list Q) : Q := fold_right Qplus 0 l.

Definition qlen (l : list Q) : Q := Qmake (Z.of_nat (length l)) 1.

Definition qmean (l : list Q) : Q := Qred (qsum l / qlen l).

Definition qvar (l : list Q) : Q :=
  let m := qmean l in
  Qred (qsum (List.map (fun v => (v - m) * (v - m)) l) / qlen l).

Definition qstd (l : list Q) : Q := qsqrt (qvar l).

Fixpoint qinsert (v : Q) (l : list Q) : list Q :=
  match l with
  | [] => [v]
  | h :: t => if Qle_bool v h then v :: l else h :: qinsert v t
  end.

Definition qsort (l : list Q) : list Q := fold_right qinsert [] l.

Definition qmedian (l : list Q) : Q :=
  let s := qsort l in
  let n := length s in
  if Nat.even n
  then Qred ((List.nth (n / 2 - 1) s 0 + List.nth (n / 2) s 0) / 2)
  else Qred (List.nth (n / 2) s 0).

Definition qmin (l : list Q) : Q := List.nth 0 (qsort l) 0.
Definition qmax (l : list Q) : Q := List.last (qsort l) 0.

(** One pass of sigma clipping about the median: keep the values within
    [sigma] standard deviations.  The test is made on the squares. *)
Definition clip_once (sigma : Z) (l : list Q) : list Q :=
  let c := qmedian l in
  let bound := (Qmake sigma 1 * Qmake sigma 1) * qvar l in
  List.filter (fun v => Qle_bool ((v - c) * (v - c)) bound) l.

Fixpoint sigma_clip (sigma : Z) (maxiters : nat) (l : list Q) : list Q :=
  match maxiters with
  | O => l
  | S k =>
      let l' := clip_once sigma l in
      if Nat.eqb (length l') (length l) then l else sigma_clip sigma k l'
  end.

(** [sigma_clipped_stats(a, sigma, maxiters)]: mean, median and standard
    deviation of the values that survive the clipping. *)
Definition sigma_clipped_stats (sigma maxiters : Z) (l : list Q) : Q * Q * Q :=
  let kept := sigma_clip sigma (Z.to_nat maxiters) l in
  (qmean kept, qmedian kept, qstd kept).

(** The library defaults are sigma = 3 and maxiters = 5. *)
Definition sigma_clipped_std (l : list Q) : Q := snd (sigma_clipped_stats 3 5 l).

(** A WCS whose transforms are the identity. *)
Definition plain (a b : Q) : Q * Q := (a, b).

End RationalModel.

(** ** Concrete inputs *)

Module Samples.

Import QualityAnalysis RationalModel.

Definition qfit := fit_info Q.
Definition qchip := chip Q.

(** A fit record of a successful fit. *)
Definition fit_of (st : string) (mask : list bool) (mref minp : list Z)
    (ra dec : list Q) : qfit :=
  {| status := st; fitmask := Some mask;
     matched_ref_idx := Some mref; matched_input_idx := Some minp;
     fit_RA := Some ra; fit_DEC := Some dec;
     shift := Some (Qmake 1 2, Qmake (-3) 10);
     fit_rot := Some (Qmake 0 1); fit_scale := Some (Qmake 1 1);
     fit_nmatches := Some (Z.of_nat (length minp));
     fit_skew := Some (Qmake 0 1) |}.

(** The fit record of a reference image carries its status only. *)
Definition reference_fit : qfit :=
  {| status := "REFERENCE"; fitmask := None;
     matched_ref_idx := None; matched_input_idx := None;
     fit_RA := None; fit_DEC := None; shift := None;
     fit_rot := None; fit_scale := None; fit_nmatches := None;
     fit_skew := None |}.

Definition chip_of (gid : Z) (name : string) (f : qfit) (cat : list (Q * Q)) : qchip :=
  {| meta_group_id := gid; meta_filename := name; meta_fit_info := f;
     meta_catalog := cat; det_to_world := plain; world_to_tanp := plain |}.

Definition origin : Q * Q := (Qmake 0 1, Qmake 0 1).

(** A reference image with four sources at the origin. *)
Definition ref_chip : qchip :=
  chip_of 0 "a_flt.fits" reference_fit [origin; origin; origin; origin].

(** One exposure of two chips: the fit is made for the group, so both
    chips carry the same fit record, whose indices run over the
    concatenated catalogs of the chips. *)
Definition group_fit : qfit :=
  fit_of "SUCCESS" [true; true; true; true] [0; 1; 2; 3]%Z [0; 1; 2; 3]%Z
    [Qmake 5 1; Qmake 6 1; Qmake 1 1; Qmake 2 1]
    [Qmake 5 1; Qmake 6 1; Qmake 1 1; Qmake 2 1].

Definition b_chip1 : qchip :=
  chip_of 1 "b_flt.fits" group_fit [origin; origin].
Definition b_chip2 : qchip :=
  chip_of 1 "b_flt.fits" group_fit [origin; origin].

Definition two_chip_exposure : list qchip := [ref_chip; b_chip1; b_chip2].

(** An exposure with two sources on its first chip and one on its
    second; the fit has three matches with the fitted positions 1, 3, 5. *)
Definition uneven_fit : qfit :=
  fit_of "SUCCESS" [true; true; true] [0; 1; 2]%Z [0; 1; 2]%Z
    [Qmake 1 1; Qmake 3 1; Qmake 5 1]
    [Qmake 1 1; Qmake 3 1; Qmake 5 1].

Definition c_chip1 : qchip :=
  chip_of 1 "c_flt.fits" uneven_fit [origin; origin].
Definition c_chip2 : qchip :=
  chip_of 1 "c_flt.fits" uneven_fit [origin].

Definition uneven_exposure : list qchip := [ref_chip; c_chip1; c_chip2].

(** An image none of whose matches passes the fit's mask. *)
Definition masked_chip : qchip :=
  chip_of 1 "d_flt.fits"
    (fit_of "SUCCESS" [false; false] [0; 1]%Z [0; 1]%Z
       [Qmake 5 1; Qmake 6 1] [Qmake 5 1; Qmake 6 1])
    [origin; origin].

(** An image whose fit status is no documented value. *)
Definition bogus_chip : qchip :=
  chip_of 1 "e_flt.fits"
    (fit_of "BOGUS" [true; true] [0; 1]%Z [0; 1]%Z
       [Qmake 5 1; Qmake 6 1] [Qmake 5 1; Qmake 6 1])
    [origin; origin].

(** The scenario of the specification: group A is the reference with
    world catalog [(10.0, 20.0), (10.001, 20.001)], group B an image. *)
Definition scenario_A : qchip :=
  chip_of 0 "A" reference_fit
    [(Qmake 10 1, Qmake 20 1); (Qmake 10001 1000, Qmake 20001 1000)].

Definition scenario_B : qchip :=
  chip_of 1 "B"
    (fit_of "SUCCESS" [true; true] [0; 1]%Z [0; 1]%Z
       [Qmake 10 1; Qmake 10001 1000] [Qmake 20 1; Qmake 20001 1000])
    [(Qmake 100 1, Qmake 200 1); (Qmake 300 1, Qmake 400 1)].

Definition extract := extract_residuals qsub sigma_clipped_std.
Definition run_from := run qsub sigma_clipped_std.
Definition start : locals Q := initial.

(** The local variables after a list of chips, and a group's record. *)
Definition after (imglist : list qchip) : locals Q :=
  match run_from start imglist with
  | Ok st => st
  | Raise _ => start
  end.

Definition record_after (imglist : list qchip) (name : string)
  : option (group_rec Q) :=
  match extract imglist with
  | Ok d => d !! KStr name
  | Raise _ => None
  end.

End Samples.

Module SvmSamples.

Import SvmQualityAnalysis RationalModel.

(** [int] on an optional sign followed by decimal digits. *)
Fixpoint digits (acc : Z) (s : string) : option Z :=
  match s with
  | EmptyString => Some acc
  | String c rest =>
      let n := nat_of_ascii c in
      if ((48 <=? n) && (n <=? 57))%nat
      then digits (10 * acc + Z.of_nat (n - 48)) rest
      else None
  end.

Definition parse_int (s : string) : option Z :=
  match s with
  | EmptyString => None
  | String "-" (String c rest) => Z.opp <$> digits 0 (String c rest)
  | _ => digits 0 s
  end.

(** A missing magnitude is the sentinel -9999; a flag cell holds an
    integer. *)
Definition sentinel (q : Q) : bool := Qeq_bool q (Qmake (-9999) 1).
Definition flag_of (q : Q) : Z := (Qnum q / Zpos (Qden q))%Z.

(** Two visits of one detector. *)
Definition total_product : string := "hst_11665_06_wfc3_ir_total_ib4606_drz.fits".
Definition f110w_product : string := "hst_11665_06_wfc3_ir_f110w_ib4606_drz.fits".
Definition f160w_product : string := "hst_11665_06_wfc3_ir_f160w_ib4606_drz.fits".

(** The working directory holds the segment catalog of the total
    product; its header does not report a number of sources. *)
Definition segment_lines : list string :=
  ["# %ECSV 0.9"; "# ---"; "X-Centroid Y-Centroid"; "1.0 2.0"].

Definition lines_of (path : string) : option (list string) :=
  if String.eqb path "hst_11665_06_wfc3_ir_total_ib4606_segment-cat.ecsv"
  then Some segment_lines else None.

Definition listed_catalogs : list string :=
  ["hst_11665_06_wfc3_ir_total_ib4606_segment-cat.ecsv"].

Definition num_sources := @compare_num_sources Q lines_of parse_int.

(** Point and segment catalogs of the F160W product: three sources, the
    last one with a flag that is not all good. *)
Definition q (n d : Z) : Q := Qmake n (Z.to_pos d).

Definition point_table : table Q :=
  [("X-Center", [q 10 1; q 20 1; q 30 1]);
   ("Y-Center", [q 11 1; q 21 1; q 31 1]);
   ("Flags", [q 255 1; q 255 1; q 254 1]);
   ("MagAp1", [q 215 10; q 220 10; q 230 10]);
   ("MagErrAp1", [q 3 100; q 4 100; q 1 100]);
   ("MagAp2", [q 210 10; q 216 10; q 228 10]);
   ("MagErrAp2", [q 3 100; q 4 100; q 1 100])].

Definition segment_table : table Q :=
  [("X-Centroid", [q 10 1; q 20 1; q 30 1]);
   ("Y-Centroid", [q 11 1; q 21 1; q 31 1]);
   ("Flags", [q 255 1; q 255 1; q 255 1]);
   ("MagAp1", [q 213 10; q 224 10; q 229 10]);
   ("MagErrAp1", [q 4 100; q 3 100; q 1 100]);
   ("MagAp2", [q 209 10; q 218 10; q 227 10]);
   ("MagErrAp2", [q 4 100; q 3 100; q 1 100])].

(** The working directory: the F160W product has both catalogs, the
    F110W product lacks its point catalog. *)
Definition catalog_files (path : string) : option (table Q) :=
  if String.eqb path "hst_11665_06_wfc3_ir_f160w_ib4606_point-cat.ecsv"
  then Some point_table
  else if String.eqb path "hst_11665_06_wfc3_ir_f160w_ib4606_segment-cat.ecsv"
  then Some segment_table
  else if String.eqb path "hst_11665_06_wfc3_ir_f110w_ib4606_segment-cat.ecsv"
  then Some segment_table
  else None.

(** A cross-matcher that pairs the rows of two catalogs in order. *)
Definition match_in_order (names images : list string) (lengths : list Z)
  : res (list Z * list Z) :=
  match lengths with
  | [a; b] =>
      let n := Z.to_nat (Z.min a b) in
      Ok (List.map Z.of_nat (List.seq 0 n), List.map Z.of_nat (List.seq 0 n))
  | _ => Raise ValueError
  end.

Definition photometry :=
  compare_photometry Q sentinel flag_of match_in_order
    qmean qmedian qstd qsub qsqrt qadd qsquare catalog_files.

Definition photometry_of :=
  photometry_product Q sentinel flag_of match_in_order
    qmean qmedian qstd qsub qsqrt qadd qsquare catalog_files.

(** The artifact written for the F160W product. *)
Definition f160w_artifact : string * diagnostic Q :=
  List.hd (EmptyString, instantiate EmptyString EmptyString EmptyString)
    (written (fst (photometry_of f160w_product))).

(** A filter product whose point catalog has no source. *)
Definition sparse_product : hap_product :=
  {| point_cat_filename := "hst_11665_06_wfc3_ir_f110w_ib4606_point-cat.ecsv";
     segment_cat_filename := "hst_11665_06_wfc3_ir_f110w_ib4606_segment-cat.ecsv";
     drizzle_filename := f110w_product |}.

Definition empty_table : table Q :=
  [("RA", []); ("DEC", []); ("FLAGS", [])].

Definition sky_table : table Q :=
  [("RA", [q 10 1; q 10001 1000]); ("DEC", [q 20 1; q 20001 1000]);
   ("FLAGS", [q 255 1; q 255 1])].

Definition read_sparse (names : list string) : res (table Q * table Q) :=
  Ok (empty_table, sky_table).

Definition flat_separation (a b : list Q * list Q) : list Q :=
  zip_with (fun u v => qsqrt (qadd (qsquare (qsub (fst u) (fst v)))
                                   (qsquare (qsub (snd u) (snd v)))))
    (List.combine (fst a) (snd a)) (List.combine (fst b) (snd b)).

Definition crossmatches (read : list string -> res (table Q * table Q)) :=
  compare_ra_dec_crossmatches Q sentinel flag_of match_in_order
    qmin qmax qmean qmedian qstd RationalModel.sigma_clipped_stats
    read (fun _ => "ICRS") (fun _ c => c) flat_separation.

End SvmSamples.

(** ** Further predicates on the residual extraction engine *)

Module EngineMore.

Import QualityAnalysis EngineSpec.

Section Predicates.
Variable num : Type.

(** The world positions of the catalogs of the REFERENCE chips of
    [imglist], in the order of the list. *)
Fixpoint reference_world (imglist : list (chip num)) : list (num * num) :=
  match imglist with
  | [] => []
  | c :: rest =>
      if is_reference c
      then List.map (fun p => det_to_world c (fst p) (snd p)) (meta_catalog c)
             ++ reference_world rest
      else reference_world rest
  end.

(** A buffer that holds the array [a]. *)
Definition holds (b : refbuf num) (a : list num) : Prop := b = NdArray a.

(** The four position sequences of a record have one length. *)
Definition aligned (r : group_rec num) : Prop :=
  length (y r) = length (x r)
  /\ length (ref_x r) = length (x r)
  /\ length (ref_y r) = length (x r).

(** A record is complete for its type: a REFERENCE record has neither
    fit parameters nor RMS values, an IMAGE record has all of them. *)
Definition typed (r : group_rec num) : Prop :=
  (type r = Some REFERENCE /\ params r = None
   /\ rms_x r = None /\ rms_y r = None)
  \/ (type r = Some IMAGE /\ is_Some (params r)
      /\ is_Some (rms_x r) /\ is_Some (rms_y r)).

(** The file names of the chips, as dict keys. *)
Definition well_formed (d : gmap pykey (group_rec num)) : Prop :=
  forall k r, d !! k = Some r -> typed r /\ aligned r.

Definition names_of (imglist : list (chip num)) : gset pykey :=
  list_to_set (List.map (fun c => KStr (meta_filename c)) imglist).

End Predicates.

Arguments reference_world {num} imglist.
Arguments holds {num} b a.
Arguments aligned {num} r.
Arguments typed {num} r.
Arguments well_formed {num} d.
Arguments names_of {num} imglist.

End EngineMore.

Module MoreSamples.

Import QualityAnalysis RationalModel Samples.

(** The fit of an image that could not be aligned: the fit routine
    records the failure and no match. *)
Definition failed_fit : qfit :=
  {| status := "FAILED"; fitmask := None;
     matched_ref_idx := None; matched_input_idx := None;
     fit_RA := None; fit_DEC := None; shift := None;
     fit_rot := None; fit_scale := None; fit_nmatches := None;
     fit_skew := None |}.

Definition failed_chip : qchip :=
  chip_of 2 "f_flt.fits" failed_fit [origin; origin].

(** An association of three exposures of one chip each, with four
    detected sources per chip; the fit takes the first exposure as the
    reference, aligns the second and fails on the third. *)
Definition four_sources (f : string) : list (list (Q * Q)) :=
  [[origin; origin; origin; origin]].

Definition one_chip_per_file (f : string) (i : Z) (cats : list (list (Q * Q)))
  : list qchip :=
  List.map (chip_of i f reference_fit) cats.

Definition fit_second_fails (imglist : list qchip) : res (list qchip) :=
  Ok [ref_chip; b_chip1; failed_chip].

End MoreSamples.

(** ** quality_analysis.py: generate_plots *)

Module Plots.

Import QualityAnalysis.

(** [s.replace(old, new)] for a one-character [old]. *)
Fixpoint replace (old : ascii) (new s : string) : string :=
  match s with
  | EmptyString => EmptyString
  | String c rest =>
      if Ascii.eqb c old then (new ++ replace old new rest)%string
      else String c (replace old new rest)
  end.

Fixpoint spaces (n : nat) : string :=
  match n with
  | O => EmptyString
  | S k => String " " (spaces k)
  end.

(** The format specification [{:6d}]: the decimal digits of an integer,
    right-justified in a field of at least six characters. *)
Definition format_6d (n : Z) : string :=
  let digits := pretty n in
  (spaces (6 - String.length digits) ++ digits)%string.

Section Plots.
Variable num : Type.

(** The arguments of one call of [tweakutils.make_vector_plot]; the
    coordinate file, the first positional argument, is always None. *)
Record plot_call : Type := {
  data : list (list num);
  figure_id : Z;
  title : string;
  vector : bool;
  ylimit : option Q;
  plotname : string
}.

(** The plotting routine of the package and [json.load] on a file name. *)
Variable make_vector_plot : plot_call -> res unit.
Variable json_load : string -> res (list (string * group_rec num)).

Definition title_str (fname : string) (n : Z) : string :=
  ("Residuals\ for\ " ++ replace "_" "\_" fname ++ "\ using\ "
     ++ format_6d n ++ "\ sources")%string.

(** The body of the loop for one entry; the result is the next value of
    [fig_id]. *)
Definition plot_entry (fig_id : Z) (fname : string) (d : group_rec num)
  : list plot_call * res Z :=
  match type d with
  | Some REFERENCE => ([], Ok fig_id)
  | _ =>
      match PyStr.nth_item (PyStr.split "_" fname) 0 with
      | Raise e => ([], Raise e)
      | Ok rootname =>
          let coldata := [x d; y d; ref_x d; ref_y d] in
          match params d with
          | None => ([], Raise (KeyError "nmatches"))
          | Some p =>
              let t := title_str fname (nmatches p) in
              let vector_name := (rootname ++ "_vector_quality.png")%string in
              let resids_name := (rootname ++ "_resids_quality.png")%string in
              let first :=
                {| data := coldata; figure_id := fig_id; title := t;
                   vector := true; ylimit := None; plotname := vector_name |} in
              match make_vector_plot first with
              | Raise e => ([first], Raise e)
              | Ok _ =>
                  let second :=
                    {| data := coldata; figure_id := fig_id + 1; title := t;
                       vector := false; ylimit := Some (Qmake 1 2);
                       plotname := resids_name |} in
                  match make_vector_plot second with
                  | Raise e => ([first; second], Raise e)
                  | Ok _ => ([first; second], Ok (fig_id + 1 + 1))
                  end
              end
          end
      end
  end.

Fixpoint plot_loop (fig_id : Z) (json_data : list (string * group_rec num))
  : list plot_call * res unit :=
  match json_data with
  | [] => ([], Ok tt)
  | (fname, d) :: rest =>
      match plot_entry fig_id fname d with
      | (calls, Raise e) => (calls, Raise e)
      | (calls, Ok fig_id') =>
          let (calls', r) := plot_loop fig_id' rest in (calls ++ calls', r)
      end
  end.

(** [json_data] is the name of a JSON file or the dict itself, whose
    entries are visited in the order of the dict. *)
Definition generate_plots (json_data : string + list (string * group_rec num))
  : list plot_call * res unit :=
  match json_data with
  | inl path =>
      match json_load path with
      | Raise e => ([], Raise e)
      | Ok d => plot_loop 0 d
      end
  | inr d => plot_loop 0 d
  end.

(** The calls of a run number the figures from [fig_id] on, the vector
    plots on the even offsets. *)
Definition numbered (fig_id : Z) (calls : list plot_call) : Prop :=
  List.map figure_id calls = seqZ fig_id (Z.of_nat (length calls))
  /\ Forall (fun c => vector c = Z.even (figure_id c - fig_id)) calls.

(** The entries that are plotted. *)
Definition plotted (d : group_rec num) : bool :=
  match type d with Some REFERENCE => false | _ => true end.

(** An ordered view of a dict of the engine. *)
Definition view_of (d : gmap pykey (group_rec num))
    (items : list (string * group_rec num)) : Prop :=
  Forall (fun kv => d !! KStr (fst kv) = Some (snd kv)) items.

End Plots.

Arguments data {num} p.
Arguments figure_id {num} p.
Arguments title {num} p.
Arguments vector {num} p.
Arguments ylimit {num} p.
Arguments plotname {num} p.
Arguments plot_entry {num} make_vector_plot fig_id fname d.
Arguments plot_loop {num} make_vector_plot fig_id json_data.
Arguments generate_plots {num} make_vector_plot json_load json_data.
Arguments numbered {num} fig_id calls.
Arguments plotted {num} d.
Arguments view_of {num} d items.

End Plots.

Module PlotSamples.

Import QualityAnalysis RationalModel Samples Plots.

(** A plotting routine that returns, and a directory without JSON file. *)
Definition always_plots (c : plot_call Q) : res unit := Ok tt.
Definition no_file (path : string) : res (list (string * group_rec Q)) :=
  Raise (FileNotFoundError path).

(** The result of the engine for the two-chip exposure, in the order of
    insertion. *)
Definition two_chip_items : list (string * group_rec Q) :=
  [("a_flt.fits", default (new_record 0) (record_after two_chip_exposure "a_flt.fits"));
   ("b_flt.fits", default (new_record 0) (record_after two_chip_exposure "b_flt.fits"))].

End PlotSamples.

(** ** Further predicates on the catalog comparisons *)

Module SvmMore.

Import SvmQualityAnalysis.

(** [s.count(c)] for a character. *)
Fixpoint count (c : ascii) (s : string) : nat :=
  match s with
  | EmptyString => 0%nat
  | String a rest => ((if Ascii.eqb a c then 1 else 0) + count c rest)%nat
  end.

(** The directory and stem of a drizzle file name: all of the name
    before its last underscore. *)
Definition prefix_of_name (drizzle_file : string) : string :=
  PyStr.join "_" (removelast (PyStr.split "_" drizzle_file)).

Section Predicates.
Variable num : Type.

(** The products named by the artifacts of a run, in the order in which
    the artifacts were written. *)
Definition artifact_sources (out : list (effect num)) : list string :=
  List.map (fun a => diag_source (snd a)) (written out).

(** A computation that writes no artifact. *)
Definition silent {A : Type} (m : io num A) : Prop := written (fst m) = [].

(** A computation that ends normally having written the one artifact of
    product [f]. *)
Definition writes_once {A : Type} (f : string) (m : io num A) : Prop :=
  artifact_sources (fst m) = [f] /\ exists a, snd m = Ok a.

(** The counts recorded in an artifact of compare_num_sources. *)
Definition recorded (d : diagnostic num) (cat_type : string) : option (json num) :=
  match dict_get "number_of_sources" (diag_items d) with
  | Some (JObj sources) => dict_get cat_type sources
  | _ => None
  end.

(** A computation that writes nothing, or ends normally having written
    one artifact, of product [f], into the file [path]. *)
Definition writes_at_most {A : Type} (path f : string) (m : io num A) : Prop :=
  written (fst m) = []
  \/ exists d, written (fst m) = [(path, d)] /\ diag_source d = f
                /\ exists a, snd m = Ok a.

(** A computation that raises. *)
Definition raises {A : Type} (m : io num A) : Prop := exists e, snd m = Raise e.

End Predicates.

Arguments artifact_sources {num} out.
Arguments silent {num A} m.
Arguments writes_once {num A} f m.
Arguments raises {num A} m.
Arguments writes_at_most {num A} path f m.
Arguments recorded {num} d cat_type.

End SvmMore.

Module SvmMoreSamples.

Import SvmQualityAnalysis RationalModel SvmSamples.

(** A cross-matcher that finds no pair. *)
Definition match_nothing (names images : list string) (lengths : list Z)
  : res (list Z * list Z) := Ok ([], []).

Definition unmatched_photometry :=
  compare_photometry Q sentinel flag_of match_nothing
    qmean qmedian qstd qsub qsqrt qadd qsquare catalog_files.

Definition unmatched_photometry_of :=
  photometry_product Q sentinel flag_of match_nothing
    qmean qmedian qstd qsub qsqrt qadd qsquare catalog_files.

(** A total product kept in a directory whose name holds 'point'; of
    its two catalogs only the segment catalog was produced, and its header
    reports 25 sources. *)
Definition pointing_product : string :=
  "./pointA/hst_11665_06_wfc3_ir_total_ib4606_drz.fits".

Definition pointing_point_catalog : string :=
  "./pointA/hst_11665_06_wfc3_ir_total_ib4606_point-cat.ecsv".

Definition pointing_segment_catalog : string :=
  "./pointA/hst_11665_06_wfc3_ir_total_ib4606_segment-cat.ecsv".

Definition pointing_lines (path : string) : option (list string) :=
  if String.eqb path pointing_segment_catalog
  then Some ["# %ECSV 0.9"; "# Number of sources: 25."; "X-Centroid Y-Centroid"]
  else None.

Definition pointing_catalogs : list string := [pointing_segment_catalog].

Definition pointing_num_sources := @compare_num_sources Q pointing_lines parse_int.

End SvmMoreSamples.

(** ** svm_quality_analysis.py: the GAIA routines *)

Module Gaia.

Import SvmQualityAnalysis.

(** [logutil.logging.DEBUG] *)
Definition DEBUG : Z := 10.

(** [np.array([x, y])] for two one-dimensional arrays, as its flat
    buffer in row order. *)
Definition np_array2 {A : Type} (x y : list A) : res (list A) :=
  if Nat.eqb (length x) (length y) then Ok (x ++ y) else Raise ValueError.

(** The rows of a buffer in row order. *)
Fixpoint rows_of {A : Type} (rows cols : nat) (flat : list A) : list (list A) :=
  match rows with
  | O => []
  | S r => firstn cols flat :: rows_of r cols (skipn cols flat)
  end.

(** [a.reshape(rows, cols)] on a flat buffer: the sizes must agree. *)
Definition reshape {A : Type} (rows cols : nat) (flat : list A)
  : res (list (list A)) :=
  if Nat.eqb (rows * cols) (length flat) then Ok (rows_of rows cols flat)
  else Raise ValueError.

(** [xys = np.array([x, y]); xys = xys.reshape(len(x), 2)] *)
Definition xys_of {A : Type} (x y : list A) : res (list (list A)) :=
  flat ← np_array2 x y; reshape (length x) 2 flat.

(** The name of an input image cut out of the info string of a
    product. *)
Definition imgname_of (info : string) : res string :=
  let parse_info := PyStr.split "_" info in
  a ← PyStr.nth_item parse_info 4;
  b ← PyStr.nth_item parse_info 5;
  Ok (a ++ "_" ++ b)%string.

Section Gaia.
Variable num : Type.

(** The attributes of a product object the routines read; [edp_list]
    holds the info strings of the exposure products, and is None for an
    object without that attribute. *)
Record product : Type := {
  edp_list : option (list string);
  info : string;
  drizzle_filename : string
}.

(** A value substituted into a log message. *)
Inductive value : Type :=
| VStr (s : string)
| VInt (z : Z)
| VNum (v : num).

Inductive event : Type :=
| LogDebug (template : string) (args : list value)
| LogInfo (template : string) (args : list value)
| LogWarning (template : string) (args : list value)
| TableWrite (path : string) (t : table num)
| JsonWrite (path : string) (d : diagnostic num).

Definition act (A : Type) : Type := (list event * res A)%type.

Definition act_ret {A : Type} (a : A) : act A := ([], Ok a).

Definition act_bind {A B : Type} (m : act A) (k : A -> act B) : act B :=
  match m with
  | (out, Ok a) => let '(out', r) := k a in (out ++ out', r)
  | (out, Raise e) => (out, Raise e)
  end.

Definition emit (e : event) : act unit := ([e], Ok tt).
Definition try {A : Type} (r : res A) : act A := ([], r).

#[global] Instance act_mbind : MBind act := fun A B k m => act_bind m k.
#[global] Instance act_mret : MRet act := @act_ret.

Definition json_writes (out : list event) : list (string * diagnostic num) :=
  omap (fun e => match e with JsonWrite p d => Some (p, d) | _ => None end) out.

Definition warnings (out : list event) : list string :=
  omap (fun e => match e with LogWarning t _ => Some t | _ => None end) out.

(** The catalog service, the WCS of an image (given with its extension
    as an argument or as a suffix of the name), the weight image of a
    drizzle file, and the footprint test. *)
Variable wcs image : Type.
Variable create_astrometric_catalog : list string -> res (table num).
Variable hstwcs_ext : string -> Z -> res wcs.
Variable hstwcs : string -> res wcs.
Variable all_world2pix : wcs -> list num -> list num -> res (list num * list num).
Variable crpix : wcs -> nat -> num.
Variable weight_image : string -> res image.
Variable within_footprint : image -> wcs -> list num -> list num -> list bool.

(** [t.remove_columns(names)] *)
Fixpoint remove_column (name : string) (t : table num) : res (table num) :=
  match t with
  | [] => Raise (KeyError name)
  | (k, col) :: rest =>
      if String.eqb k name then Ok rest
      else rest' ← remove_column name rest; Ok ((k, col) :: rest')
  end.

Fixpoint remove_columns (names : list string) (t : table num) : res (table num) :=
  match names with
  | [] => Ok t
  | name :: rest => t' ← remove_column name t; remove_columns rest t'
  end.

(** [t[mask]]: the rows of a table at which a boolean mask holds. *)
Fixpoint select_rows (t : table num) (mask : list bool) : res (table num) :=
  match t with
  | [] => Ok []
  | (k, col) :: rest =>
      col' ← Np.bool_index col mask;
      rest' ← select_rows rest mask;
      Ok ((k, col') :: rest')
  end.

(** The loop over the info strings. *)
Fixpoint gather (infos : list string) (img_list : list string) : act (list string) :=
  match infos with
  | [] => mret img_list
  | i :: rest =>
      imgname ← try (imgname_of i);
      _ ← emit (LogDebug imgname []);
      gather rest (img_list ++ [imgname])
  end.

Definition generate_gaia_catalog (hap_obj : product)
    (columns_to_remove : option (list string)) : act (table num) :=
  _ ← emit (LogDebug "GAIA catalog will be created using the following input images:" []);
  img_list ← match edp_list hap_obj with
             | Some infos => gather infos []
             | None => gather [info hap_obj] []
             end;
  gaia_table ← try (create_astrometric_catalog img_list);
  gaia_table ← try (match columns_to_remove with
                    | Some (name :: names) => remove_columns (name :: names) gaia_table
                    | _ => Ok gaia_table
                    end);
  outwcs ← try (hstwcs_ext (drizzle_filename hap_obj) 1);
  ra ← try (column "RA" gaia_table);
  dec ← try (column "DEC" gaia_table);
  '(x, y) ← try (all_world2pix outwcs ra dec);
  in_img_data ← try (weight_image (drizzle_filename hap_obj));
  let mask := within_footprint in_img_data outwcs x y in
  gaia_table ← try (select_rows gaia_table mask);
  _ ← (if table_len gaia_table =? 0 then
         emit (LogWarning "No GAIA sources were found!" [])
       else if table_len gaia_table =? 1 then
         emit (LogInfo "1 GAIA source was found." [])
       else emit (LogInfo "{} GAIA sources were found." [VInt (table_len gaia_table)]));
  mret gaia_table.

Definition table_json (t : table num) : json num :=
  JObj (List.map (fun kc => (fst kc, JArr (List.map JNum (snd kc)))) t).

(** The header of the artifact is taken from the product object; of the
    header, the name of the drizzle file is kept. *)
Definition find_gaia_sources (hap_obj : product) : act unit :=
  gaia_table ← generate_gaia_catalog hap_obj (Some ["objID"; "GaiaID"]);
  let diag_obj :=
    instantiate (drizzle_filename hap_obj) (taskname ++ ".find_gaia_sources")%string
      "A table of GAIA sources in image footprint" in
  let diag_obj := add_data_item (table_json gaia_table) "GAIA sources" diag_obj in
  let diag_obj :=
    add_data_item (JInt (table_len gaia_table)) "Number of GAIA sources" diag_obj in
  emit (JsonWrite (PyStr.drop_end 9 (drizzle_filename hap_obj)
                     ++ "_svm_gaia_sources.json")%string diag_obj).

(** numpy's statistics, the subtraction of floats, and the distances
    [KDTree(xys).query(xys, k)[0]], one row for each point. *)
Variable np_mean np_std np_min np_max : list num -> num.
Variable sub : num -> num -> num.
Variable kdtree_query : list (list num) -> Z -> res (list (list num)).

(** [a.min()] and [a.max()]: an empty array has no minimum. *)
Definition array_min (a : list num) : res num :=
  match a with [] => Raise ValueError | _ => Ok (np_min a) end.
Definition array_max (a : list num) : res num :=
  match a with [] => Raise ValueError | _ => Ok (np_max a) end.

(** The loop that collects [sep_pair[1]]. *)
Fixpoint closest (neighborhood : list (list num)) (min_seps : list num)
  : res (list num) :=
  match neighborhood with
  | [] => Ok min_seps
  | sep_pair :: rest =>
      d ← PyStr.nth_item sep_pair 1;
      closest rest (min_seps ++ [d])
  end.

(** One pass of the loops that log a statistic and store it. *)
Definition store (template : string) (args : list value) (key : string) (v : num)
    (out_dict : list (string * json num)) : act (list (string * json num)) :=
  _ ← emit (LogInfo template (args ++ [VNum v]));
  mret (dict_set key (JNum v) out_dict).

Definition store_axes (item_value : list num) (item_title : string)
    (out_dict : list (string * json num)) : act (list (string * json num)) :=
  vx ← try (PyStr.nth_item item_value 0);
  out_dict ← store "{} {} ({}): {}" [VStr "X"; VStr item_title; VStr "pixels"]
               ("X " ++ item_title)%string vx out_dict;
  vy ← try (PyStr.nth_item item_value 1);
  store "{} {} ({}): {}" [VStr "Y"; VStr item_title; VStr "pixels"]
    ("Y " ++ item_title)%string vy out_dict.

Definition characterize_gaia_distribution (hap_obj : product) (log_level : Z)
  : act unit :=
  gaia_table ← generate_gaia_catalog hap_obj (Some ["mag"; "objID"; "GaiaID"]);
  _ ← (if log_level <=? DEBUG then
         let reg_file :=
           (PyStr.drop_end 9 (drizzle_filename hap_obj) ++ "_gaia_sources.reg")%string in
         _ ← emit (TableWrite reg_file gaia_table);
         emit (LogDebug "Wrote GAIA source RA and Dec positions to DS9 region file '{}'"
                 [VStr reg_file])
       else mret tt);
  outwcs ← try (hstwcs (drizzle_filename hap_obj ++ "[1]")%string);
  ra ← try (column "RA" gaia_table);
  dec ← try (column "DEC" gaia_table);
  '(x, y) ← try (all_world2pix outwcs ra dec);
  let centroid := [np_mean x; np_mean y] in
  let centroid_offset :=
    [sub (crpix outwcs 0) (np_mean x); sub (crpix outwcs 1) (np_mean y)] in
  let std_dev := [np_std x; np_std y] in
  xys ← try (xys_of x y);
  neighborhood ← try (kdtree_query xys 2);
  min_seps ← try (closest neighborhood []);
  let out_dict :=
    [("units", JStr "pixels");
     ("Number of GAIA sources", JInt (table_len gaia_table))] in
  out_dict ← store_axes centroid "centroid" out_dict;
  out_dict ← store_axes centroid_offset "offset of centroid from image center" out_dict;
  out_dict ← store_axes std_dev "standard deviation" out_dict;
  smin ← try (array_min min_seps);
  smax ← try (array_max min_seps);
  let smean := np_mean min_seps in
  let sstd := np_std min_seps in
  out_dict ← store "{} ({}): {}" [VStr "minimum closest neighbor distance"; VStr "pixels"]
               "minimum closest neighbor distance" smin out_dict;
  out_dict ← store "{} ({}): {}" [VStr "maximum closest neighbor distance"; VStr "pixels"]
               "maximum closest neighbor distance" smax out_dict;
  out_dict ← store "{} ({}): {}" [VStr "mean closest neighbor distance"; VStr "pixels"]
               "mean closest neighbor distance" smean out_dict;
  out_dict ← store "{} ({}): {}"
               [VStr "standard deviation of closest neighbor distances"; VStr "pixels"]
               "standard deviation of closest neighbor distances" sstd out_dict;
  let diag_obj :=
    instantiate (drizzle_filename hap_obj)
      (taskname ++ ".characterize_gaia_distribution")%string
      "A statistical characterization of the distribution of GAIA sources in image footprint" in
  let diag_obj :=
    add_data_item (JObj out_dict) "distribution characterization statistics" diag_obj in
  emit (JsonWrite (PyStr.drop_end 9 (drizzle_filename hap_obj)
                     ++ "_svm_gaia_distribution_characterization.json")%string diag_obj).

End Gaia.

Arguments VStr {num} s.
Arguments VInt {num} z.
Arguments VNum {num} v.
Arguments LogDebug {num} template args.
Arguments LogInfo {num} template args.
Arguments LogWarning {num} template args.
Arguments TableWrite {num} path t.
Arguments JsonWrite {num} path d.
Arguments json_writes {num} out.
Arguments warnings {num} out.
Arguments select_rows {num} t mask.
Arguments remove_columns {num} names t.
Arguments table_json {num} t.

End Gaia.

Module GaiaSamples.

Import SvmQualityAnalysis RationalModel SvmSamples Gaia.

(** A single-exposure product in whose footprint the catalog service
    finds no GAIA source. *)
Definition lonely_exposure : product :=
  {| edp_list := None;
     info := "10265_01_acs_wfc_j92c01b9q_flc.fits_f606w_drc";
     drizzle_filename := "hst_10265_01_acs_wfc_f606w_j92c01b9q_drc.fits" |}.

Definition no_sources (img_list : list string) : res (table Q) :=
  Ok [("RA", []); ("DEC", []); ("mag", []); ("objID", []); ("GaiaID", [])].

(** A flat sky: pixel positions are the sky positions, every position
    is within the footprint, and the reference pixel is the origin. *)
Definition flat_wcs (name : string) : res unit := Ok tt.
Definition flat_wcs_ext (name : string) (ext : Z) : res unit := Ok tt.
Definition flat_world2pix (w : unit) (ra dec : list Q) : res (list Q * list Q) :=
  Ok (ra, dec).
Definition flat_crpix (w : unit) (idx : nat) : Q := Qmake 0 1.
Definition any_weight (name : string) : res unit := Ok tt.
Definition all_within (im w : unit) (x y : list Q) : list bool :=
  List.map (fun _ => true) x.

(** A stand-in for the tree: the distance 0 to the point itself and 1
    to its neighbour. *)
Definition unit_distances (pts : list (list Q)) (k : Z) : res (list (list Q)) :=
  Ok (List.map (fun _ => [Qmake 0 1; Qmake 1 1]) pts).

Definition characterize :=
  characterize_gaia_distribution Q unit unit no_sources flat_wcs_ext flat_wcs
    flat_world2pix flat_crpix any_weight all_within
    qmean qstd qmin qmax qsub unit_distances.

Definition generate :=
  generate_gaia_catalog Q unit unit no_sources flat_wcs_ext
    flat_world2pix any_weight all_within.

End GaiaSamples.

(** ** lib/betadrizzle/tweakutils.py

    This module is written in Python 2: byte strings, [print]
    statements, [IOError] from [open]. *)

Module Py2.

Inductive error : Type :=
| AttributeError
| IndexError
| TypeError
| ValueError
| IOError (path : string).

Inductive outcome (A : Type) : Type :=
| Return (a : A)
| Throw (e : error).
Arguments Return {A} a.
Arguments Throw {A} e.

#[global] Instance outcome_bind : MBind outcome :=
  fun A B k m => match m with Return a => k a | Throw e => Throw e end.
#[global] Instance outcome_ret : MRet outcome := @Return.

(** [l[i]]: negative indices count from the end. *)
Definition item {A : Type} (l : list A) (i : Z) : outcome A :=
  let n := Z.of_nat (length l) in
  let j := if i <? 0 then i + n else i in
  if (0 <=? j) && (j <? n)
  then match l !! Z.to_nat j with
       | Some v => Return v
       | None => Throw IndexError
       end
  else Throw IndexError.

(** [s[0]] *)
Definition first_char (s : string) : outcome ascii :=
  match s with
  | EmptyString => Throw IndexError
  | String c _ => Return c
  end.

(** [s[1:]] *)
Definition from_second (s : string) : string :=
  match s with
  | EmptyString => EmptyString
  | String _ rest => rest
  end.

Definition code (c : ascii) : nat := nat_of_ascii c.

(** The whitespace of [str.split()] and [str.strip()]. *)
Definition isspace (c : ascii) : bool :=
  ((9 <=? code c) && (code c <=? 13) || (code c =? 32))%nat.

Definition isdigit_char (c : ascii) : bool := ((48 <=? code c) && (code c <=? 57))%nat.
Definition isupper_char (c : ascii) : bool := ((65 <=? code c) && (code c <=? 90))%nat.
Definition islower_char (c : ascii) : bool := ((97 <=? code c) && (code c <=? 122))%nat.

(** [string.letters] *)
Definition isletter (c : ascii) : bool := islower_char c || isupper_char c.

Definition lower_char (c : ascii) : ascii :=
  if isupper_char c then ascii_of_nat (code c + 32) else c.

(** [s.split()]: the fields between runs of whitespace. *)
Fixpoint words (s : string) : list string :=
  match s with
  | EmptyString => []
  | String c rest =>
      if isspace c then words rest
      else match rest with
           | EmptyString => [String c EmptyString]
           | String c' _ =>
               if isspace c' then String c EmptyString :: words rest
               else match words rest with
                    | tok :: toks => String c tok :: toks
                    | [] => [String c EmptyString]
                    end
           end
  end.

Fixpoint lstrip (s : string) : string :=
  match s with
  | String c rest => if isspace c then lstrip rest else s
  | EmptyString => EmptyString
  end.

Fixpoint rstrip (s : string) : string :=
  match s with
  | EmptyString => EmptyString
  | String c rest =>
      match rstrip rest with
      | EmptyString => if isspace c then EmptyString else String c EmptyString
      | r => String c r
      end
  end.

Definition strip (s : string) : string := rstrip (lstrip s).

(** [sub in s] and [s.find(sub)], with None for -1. *)
Definition find (sub s : string) : option nat := String.index 0 sub s.
Definition contains (sub s : string) : bool :=
  match find sub s with Some _ => true | None => false end.

(** [s.replace(old, new)] for a non-empty [old]: the occurrences are
    replaced from the left and do not overlap; [skip] counts the
    characters of the occurrence just replaced that are still ahead. *)
Fixpoint replace_from (skip : nat) (old new s : string) : string :=
  match s with
  | EmptyString => EmptyString
  | String c rest =>
      match skip with
      | S k => replace_from k old new rest
      | O =>
          if String.prefix old s
          then (new ++ replace_from (String.length old - 1) old new rest)%string
          else String c (replace_from 0 old new rest)
      end
  end.

Definition replace (old new s : string) : string := replace_from 0 old new s.

(** [s.translate(table, deletechars)] and [string.translate(s, table)] *)
Fixpoint translate (table : ascii -> ascii) (deletechars : string) (s : string)
  : string :=
  match s with
  | EmptyString => EmptyString
  | String c rest =>
      if contains (String c EmptyString) deletechars
      then translate table deletechars rest
      else String (table c) (translate table deletechars rest)
  end.

(** [s.isdigit()] *)
Fixpoint all_digits (s : string) : bool :=
  match s with
  | EmptyString => true
  | String c rest => isdigit_char c && all_digits rest
  end.

Definition isdigit (s : string) : bool :=
  match s with
  | EmptyString => false
  | _ => all_digits s
  end.

(** [s.islower()] on a one-character string. *)
Definition islower (c : ascii) : bool := islower_char c.

(** [l.sort()] on strings. *)
Fixpoint insert_sorted (s : string) (l : list string) : list string :=
  match l with
  | [] => [s]
  | t :: rest => if String.leb s t then s :: l else t :: insert_sorted s rest
  end.

Definition sort (l : list string) : list string := fold_right insert_sorted [] l.

End Py2.

Module Tweak.

Import Py2.

(** *** isfloat *)

(** [string.maketrans('', '').lower()]: the table that maps an upper-case
    letter to its lower-case letter and every other character to
    itself. *)
Definition tab_lower (c : ascii) : ascii := lower_char c.

Definition isfloat (value : string) : bool :=
  if isdigit (translate tab_lower "-.+e" value) then true else false.

(** *** radec_hmstodd *)

(** [string.maketrans(string.letters, ' ' * len(string.letters))] *)
Definition hmstrans (c : ascii) : ascii := if isletter c then " "%char else c.

(** A coordinate is given as a string or as a list of strings. *)
Inductive coordinate : Type :=
| AsString (s : string)
| AsList (fields : list string).

(** [rastr], and [decstr] alike. *)
Definition hms_string (ra : coordinate) : string :=
  match ra with
  | AsList fields => String.concat ":" fields
  | AsString s =>
      match find ":" s with
      | None =>
          let rastr := strip (translate hmstrans EmptyString s) in
          let rastr := replace "  " " " rastr in
          replace " " ":" rastr
      | Some _ => s
      end
  end.

Section Position.
Variable num : Type.

(** [coords.Position(text, units='hours').dd()] *)
Variable position_dd : string -> outcome (num * num).

Definition radec_hmstodd (ra dec : coordinate) : outcome (num * num) :=
  position_dd (hms_string ra ++ " " ++ hms_string dec)%string.

End Position.

(** *** parse_input *)

(** The input is a string or a Python list of file names. *)
Inductive input_spec : Type :=
| Name (s : string)
| Names (l : list string).

Definition atfile_sci (line : string) : outcome string := item (words line) 0.

Section Input.

(** The text files at hand, as their lines; the association table
    reader with its 'order' entry; the rootname builder; the @-file
    expansion, which is given the routine that picks the file name out of
    a line; and the general input parser. *)
Variable open_lines : string -> outcome (list string).
Variable readASNTable_order : string -> bool -> outcome (list string).
Variable buildRootname : string -> outcome string.
Variable irafglob : string -> (string -> outcome string) -> outcome (list string).
Variable parseinput : input_spec -> outcome (list string * string).

Definition parse_atfile_cat (input : string) : outcome (list (list string)) :=
  lines ← open_lines (from_second input);
  Return (List.map (fun line => List.tl (words line)) lines).

(** [[fileutil.buildRootname(fname) for fname in order]] *)
Fixpoint rootnames (order : list string) : outcome (list string) :=
  match order with
  | [] => Return []
  | fname :: rest =>
      r ← buildRootname fname;
      rs ← rootnames rest;
      Return (r :: rs)
  end.

(** The result is the pair of [filelist] and [catlist], together with
    the lines printed. *)
Definition parse_input (input : input_spec) (prodonly : bool)
  : list string * outcome (list string * option (list (list string))) :=
  match input with
  | Name s =>
      if contains "_asn" s || contains "_asc" s then
        ([], order ← readASNTable_order s prodonly;
             filelist ← rootnames order;
             Return (filelist, None))
      else
        match first_char s with
        | Throw e => ([], Throw e)
        | Return c =>
            if Ascii.eqb c "@" then
              match open_lines (from_second s) with
              | Throw e => ([], Throw e)
              | Return lines =>
                  let line := List.hd EmptyString lines in
                  match irafglob s atfile_sci with
                  | Throw e => ([], Throw e)
                  | Return filelist =>
                      ([line],
                       if (1 <? length (words line))%nat then
                         catlist ← parse_atfile_cat s;
                         Return (filelist, Some catlist)
                       else Return (filelist, None))
                  end
              end
            else
              ([], '(filelist, output) ← parseinput (Name s);
                   let filelist :=
                     if contains "*" s then sort filelist else filelist in
                   Return (filelist, None))
        end
  | Names l =>
      ([], '(filelist, output) ← parseinput (Names l);
           (* a list has no method find *)
           Throw AttributeError)
  end.

End Input.

(** *** get_configobj_root *)

(** The configuration is given by its entries in the order in which it
    yields its keys; [kwargs] is a plain dict, which has no order. *)
Fixpoint copy_options {V : Type} (configobj : list (string * V))
    (kwargs : gmap string V) : outcome (gmap string V) :=
  match configobj with
  | [] => Return kwargs
  | (key, v) :: rest =>
      c ← first_char key;
      copy_options rest (if islower c then <[key := v]> kwargs else kwargs)
  end.

Definition get_configobj_root {V : Type} (configobj : list (string * V))
  : outcome (gmap string V) :=
  copy_options configobj ∅.

End Tweak.

Module TweakSpec.

Import Py2 Tweak.

(** The characters of a string. *)
Fixpoint chars (s : string) : list ascii :=
  match s with
  | EmptyString => []
  | String c rest => c :: chars rest
  end.

(** The characters of a floating-point literal as [isfloat] sees them:
    digits, signs, the point and the lower-case exponent mark. *)
Definition float_mark (c : ascii) : bool :=
  Ascii.eqb c "-" || Ascii.eqb c "." || Ascii.eqb c "+" || Ascii.eqb c "e".

Definition float_char (c : ascii) : bool := isdigit_char c || float_mark c.

(** A field of a sexagesimal value: not empty, and free of letters,
    whitespace and colons. *)
Definition field_char (c : ascii) : bool :=
  negb (isletter c) && negb (isspace c) && negb (Ascii.eqb c ":").

Definition field (s : string) : Prop :=
  s <> EmptyString /\ forallb field_char (chars s) = true.

(** The keys of options: they start with a lower-case letter. *)
Definition option_key (key : string) : bool :=
  match key with
  | EmptyString => false
  | String c _ => islower c
  end.

(** The three fields of a sexagesimal value written with colons, with
    single blanks, and with a unit letter after each field. *)
Definition with_colons (a b c : string) : string :=
  (a ++ String ":" (b ++ String ":" c))%string.
Definition with_blanks (a b c : string) : string :=
  (a ++ String " " (b ++ String " " c))%string.
Definition with_units (a b c : string) (u1 u2 u3 : ascii) : string :=
  (a ++ String u1 (String " " (b ++ String u2 (String " "
     (c ++ String u3 EmptyString)))))%string.

End TweakSpec.

Module TweakSamples.

Import Py2 Tweak TweakSpec RationalModel.

(** An @-file with two images, the first with a catalog. *)
Definition atfile_lines : list string :=
  ["j8bt06nyq_flt.fits  j8bt06nyq.coo"; "j8bt06nzq_flt.fits"].

Definition open_sample (path : string) : outcome (list string) :=
  if String.eqb path "inputs.txt" then Return atfile_lines
  else Throw (IOError path).

Definition no_table (name : string) (prodonly : bool) : outcome (list string) :=
  Throw (IOError name).

Definition same_name (fname : string) : outcome string := Return fname.

(** The @-file expansion: the name picked out of each line. *)
Fixpoint pick_all (pick : string -> outcome string) (lines : list string)
  : outcome (list string) :=
  match lines with
  | [] => Return []
  | line :: rest =>
      name ← pick line;
      names ← pick_all pick rest;
      Return (name :: names)
  end.

Definition glob_sample (input : string) (pick : string -> outcome string)
  : outcome (list string) :=
  lines ← open_sample (from_second input); pick_all pick lines.

Definition parse_sample (input : input_spec) : outcome (list string * string) :=
  match input with
  | Name s => Return ([s], EmptyString)
  | Names l => Return (l, EmptyString)
  end.

Definition parse_input_sample :=
  parse_input open_sample no_table same_name glob_sample parse_sample.

(** A position service that fails: the samples do not depend on it. *)
Definition no_position (text : string) : outcome (Q * Q) := Throw ValueError.

End TweakSamples.

(** ** tweakutils.py: reading and writing coordinate files *)

Module TweakIO.

Import Py2 Tweak.

(** An entry of [cols]: None, a column number, or a column name. *)
Inductive colspec : Type :=
| CNone
| CInt (z : Z)
| CStr (s : string).

(** [c in [None, ' ', '', 'INDEF']] *)
Definition unset (c : colspec) : bool :=
  match c with
  | CNone => true
  | CInt _ => false
  | CStr s => String.eqb s " " || String.eqb s EmptyString || String.eqb s "INDEF"
  end.

(** What a routine does to the outside. *)
Inductive effect : Type :=
| Print (text : string)
| Remove (path : string)
| Open (path : string)
| Write (path : string) (text : string)
| WriteFits (path : string) (header : list (string * string)).

Definition py (A : Type) : Type := (list effect * outcome A)%type.

Definition py_ret {A : Type} (a : A) : py A := ([], Return a).

Definition py_bind {A B : Type} (m : py A) (k : A -> py B) : py B :=
  match m with
  | (out, Return a) => let '(out', r) := k a in (out ++ out', r)
  | (out, Throw e) => (out, Throw e)
  end.

#[global] Instance py_mbind : MBind py := fun A B k m => py_bind m k.
#[global] Instance py_mret : MRet py := @py_ret.

Definition try {A : Type} (r : outcome A) : py A := ([], r).
Definition do (e : effect) : py unit := ([e], Return tt).

(** [range(a, b)] *)
Definition range (a b : Z) : list Z := seqZ a (b - a).

(** [lspl.index(c) - 1] for each entry of [cols], appended to
    [colnums]; an entry that is no field of the line raises. *)
Fixpoint index_of (s : string) (l : list string) : option Z :=
  match l with
  | [] => None
  | t :: rest =>
      if String.eqb t s then Some 0
      else match index_of s rest with Some n => Some (n + 1) | None => None end
  end.

Fixpoint header_columns (lspl : list string) (cols : list colspec) (colnums : list Z)
  : outcome (list Z) :=
  match cols with
  | [] => Return colnums
  | CStr s :: rest =>
      match index_of s lspl with
      | Some n => header_columns lspl rest (colnums ++ [n - 1])
      | None => Throw ValueError
      end
  | _ :: rest => Throw ValueError
  end.

(** [outarr[n].append(v)] *)
Definition append_at {A : Type} (n : nat) (v : A) (outarr : list (list A))
  : outcome (list (list A)) :=
  match outarr !! n with
  | Some col => Return (<[n := col ++ [v]]> outarr)
  | None => Throw IndexError
  end.

Section Reading.
Variable num : Type.

(** A value of a column read from an ASCII file: a number, or the text
    of a field that is no number. *)
Inductive cell : Type :=
| Float (v : num)
| Text (s : string).

(** An extension of a FITS file: whether its header has the keyword
    'tfields', the names of its columns, and its columns by name or
    number. *)
Record hdu : Type := {
  has_tfields : bool;
  names : list string;
  data_field : colspec -> outcome (list cell)
}.

(** The text files at hand as their lines, each with its line end; the
    FITS files as their extensions; the built-ins [int] and [float] on
    strings; and the position service of [radec_hmstodd]. *)
Variable open_lines : string -> outcome (list string).
Variable pyfits_open : string -> outcome (list hdu).
Variable py_int : string -> outcome Z.
Variable py_float : string -> outcome num.
Variable position_dd : string -> outcome (num * num).

(** *** read_FITS_cols *)

(** The loop over the extensions: the first one with a table. *)
Fixpoint find_table (ftab : list hdu) : option hdu :=
  match ftab with
  | [] => None
  | extn :: rest => if has_tfields extn then Some extn else find_table rest
  end.

Fixpoint fields_of (extn : hdu) (cols : list colspec) : outcome (list (list cell)) :=
  match cols with
  | [] => Return []
  | c :: rest =>
      col ← data_field extn c;
      others ← fields_of extn rest;
      Return (col :: others)
  end.

(** [cols[0]] for the argument [cols], which is a list or None. *)
Definition first_col (cols : option (list colspec)) : outcome colspec :=
  match cols with
  | None => Throw TypeError
  | Some [] => Throw IndexError
  | Some (c :: _) => Return c
  end.

Definition read_FITS_cols (infile : string) (cols : option (list colspec))
  : py (list (list cell)) :=
  ftab ← try (pyfits_open infile);
  match find_table ftab with
  | None =>
      _ ← do (Print ("ERROR: No catalog table found in  " ++ infile)%string);
      try (Throw ValueError)
  | Some extn =>
      c0 ← try (first_col cols);
      let cols :=
        if unset c0 then List.map CStr (names extn)
        else match cols with Some l => l | None => [] end in
      try (fields_of extn cols)
  end.

(** *** read_ASCII_cols *)

(** The first loop over the lines of the file: column numbers are taken
    from the comment lines at the top that hold the first column name. *)
Fixpoint scan_header (cols : list colspec) (first : string) (lines : list string)
    (colnums : list Z) : py (list Z) :=
  match lines with
  | [] => mret colnums
  | l :: rest =>
      c0 ← try (first_char l);
      if Ascii.eqb c0 "#" then
        if contains first l then
          _ ← do (Print "Parsing line for column numbers");
          _ ← do (Print l);
          colnums ← try (header_columns (words l) cols colnums);
          scan_header cols first rest colnums
        else scan_header cols first rest colnums
      else mret colnums
  end.

(** [int(cname) - 1] for the entries of [cols] that are set. *)
Fixpoint named_columns (cols : list colspec) (colnums : list Z) : outcome (list Z) :=
  match cols with
  | [] => Return colnums
  | colname :: rest =>
      if unset colname then named_columns rest colnums
      else
        n ← match colname with
            | CStr s =>
                c ← first_char s;
                if Ascii.eqb c "c" then py_int (from_second s) else py_int s
            | CInt z => Return z
            | CNone => Throw TypeError
            end;
        named_columns rest (colnums ++ [n - 1])
  end.

(** Two column numbers more than one apart stand for two runs of
    columns. *)
Definition spread (colnums : list Z) : outcome (list Z) :=
  c1 ← item colnums 1;
  c0 ← item colnums 0;
  if 1 <? c1 - c0 then Return (range c0 c1 ++ range c1 (c1 + (c1 - c0)))
  else Return colnums.

(** The loop over [zip(colnums, range(numcols))] for one line.  [ra] is
    the text gathered in an earlier pass of the loop; the index [i] of
    that pass is left at 2. *)
Fixpoint line_columns (lspl : list string) (numcols : nat) (pairs : list (Z * nat))
    (ra : option string) (outarr : list (list cell)) : outcome (list (list cell)) :=
  match pairs with
  | [] => Return outarr
  | (c, n) :: rest =>
      if Nat.eqb numcols 2 then
        v ← item lspl c;
        cval ← (if isfloat v then f ← py_float v; Return (Float f)
                else Return (Text v));
        outarr ← append_at n cval outarr;
        line_columns lspl numcols rest ra outarr
      else
        match ra with
        | None =>
            a0 ← item lspl (c + 0);
            a1 ← item lspl (c + 1);
            a2 ← item lspl (c + 2);
            line_columns lspl numcols rest
              (Some (a0 ++ " " ++ a1 ++ " " ++ a2 ++ " ")%string) outarr
        | Some ra =>
            d0 ← item lspl (c + 2 + 0);
            d1 ← item lspl (c + 2 + 1);
            d2 ← item lspl (c + 2 + 2);
            let dec := (d0 ++ " " ++ d1 ++ " " ++ d2 ++ " ")%string in
            '(radd, decdd) ← radec_hmstodd num position_dd (AsString ra) (AsString dec);
            outarr ← append_at 1 (Float decdd) outarr;
            append_at 0 (Float radd) outarr
        end
  end.

(** [s.find(sub) > 0] *)
Definition found_after_start (sub s : string) : bool :=
  match find sub s with
  | Some (S _) => true
  | _ => false
  end.

(** The body of the second loop over the lines. *)
Definition read_line (colnums : list Z) (outarr : list (list cell)) (l : string)
  : outcome (list (list cell)) :=
  c0 ← first_char l;
  if Ascii.eqb c0 "#" then Return outarr
  else
    let l := strip l in
    if (String.length l =? 0)%nat
       || (length (words l) <? length colnums)%nat
       || ((0 <? String.length l)%nat
           && match first_char l with Return c => Ascii.eqb c "#" | Throw _ => false end
           || contains "INDEF" l)
    then Return outarr
    else
      let lspl := words l in
      c0 ← item colnums 0;
      x ← item lspl c0;
      if found_after_start ":" x then
        c1 ← item colnums 1;
        y ← item lspl c1;
        '(radd, decdd) ← radec_hmstodd num position_dd (AsString x) (AsString y);
        outarr ← append_at 0 (Float radd) outarr;
        append_at 1 (Float decdd) outarr
      else
        line_columns lspl (length colnums)
          (List.combine colnums (List.seq 0 (length colnums))) None outarr.

Fixpoint read_lines (colnums : list Z) (lines : list string)
    (outarr : list (list cell)) : outcome (list (list cell)) :=
  match lines with
  | [] => Return outarr
  | l :: rest =>
      outarr ← read_line colnums outarr l;
      read_lines colnums rest outarr
  end.

Definition read_ASCII_cols (infile : string) (cols : option (list colspec))
  : py (list (list cell)) :=
  c0 ← try (first_col cols);
  let cols := match cols with Some l => l | None => [] end in
  colnums ← match c0 with
            | CStr first =>
                c ← try (first_char first);
                if negb (Ascii.eqb c "c") then
                  lines ← try (open_lines infile);
                  scan_header cols first lines []
                else mret []
            | _ => mret []
            end;
  colnums ← (if (length colnums =? 0)%nat then
               colnums ← try (named_columns cols colnums);
               try (spread colnums)
             else mret colnums);
  let outarr := [[]; []] in
  lines ← try (open_lines infile);
  try (read_lines colnums lines outarr).

(** *** readcols *)

Definition readcols (infile : string) (cols : option (list colspec))
  : py (list (list cell)) :=
  if found_after_start ".fits" infile then read_FITS_cols infile cols
  else read_ASCII_cols infile cols.

(** *** make_vector_plot *)

(** The columns are taken from the coordinate file unless they are
    given; what follows the four columns, array arithmetic and the calls
    of the plotting library, is the parameter [plot]. *)
Variable plot : list cell -> list cell -> list cell -> list cell -> py unit.

Definition make_vector_plot (coordfile : string) (columns : list colspec)
    (data : option (list (list cell))) : py unit :=
  data ← match data with
         | None => readcols coordfile (Some columns)
         | Some d => mret d
         end;
  xy1x ← try (item data 0);
  xy1y ← try (item data 1);
  xy2x ← try (item data 2);
  xy2y ← try (item data 3);
  plot xy1x xy1y xy2x xy2y.

(** *** write_xy_file *)

(** [os.path.exists] and the formatting operator [fmt % value]. *)
Variable exists_ : string -> bool.
Variable format_value : string -> num -> string.

(** The innermost loop: the values of one row, column by column. *)
Fixpoint row_of_group (fmts : string) (cols : list (list num)) (row : Z)
  : outcome string :=
  match cols with
  | [] => Return EmptyString
  | col :: rest =>
      v ← item col row;
      others ← row_of_group fmts rest row;
      Return (format_value fmts v ++ others)%string
  end.

Fixpoint row_text (groups : list (list (list num) * string)) (row : Z)
  : outcome string :=
  match groups with
  | [] => Return EmptyString
  | (cols, fmts) :: rest =>
      s ← row_of_group fmts cols row;
      others ← row_text rest row;
      Return (s ++ others)%string
  end.

Fixpoint write_rows (outname : string) (groups : list (list (list num) * string))
    (rows : list Z) : py unit :=
  match rows with
  | [] => mret tt
  | row :: rest =>
      outstr ← try (row_text groups row);
      _ ← do (Write outname (outstr ++ String "010" EmptyString)%string);
      write_rows outname groups rest
  end.

Definition write_xy_file (outname : string) (xydata : list (list (list num)))
    (append : bool) (format : list string) : py unit :=
  _ ← (if negb append then
         if exists_ outname then do (Remove outname) else mret tt
       else mret tt);
  _ ← do (Open outname);
  group ← try (item xydata 0);
  col ← try (item group 0);
  _ ← write_rows outname (List.combine xydata format)
        (range 0 (Z.of_nat (length col)));
  do (Print ("wrote XY data to:  " ++ outname)%string).

End Reading.

Arguments Float {num} v.
Arguments Text {num} s.

End TweakIO.

Module TweakIOSamples.

Import Py2 Tweak TweakIO RationalModel SvmSamples.

(** A coordinate file of matched positions, one pair of sources per
    line. *)
Definition match_lines : list string :=
  ["# x1 y1 x2 y2"; "10 20 11 21"; "30 40 32 41"].

Definition open_match (path : string) : outcome (list string) :=
  if String.eqb path "xy.match" then Return match_lines
  else Throw (IOError path).

Definition no_fits (path : string) : outcome (list (hdu Q)) := Throw (IOError path).

Definition int_of (s : string) : outcome Z :=
  match parse_int s with
  | Some z => Return z
  | None => Throw ValueError
  end.

(** [float] on the integer literals of the sample file. *)
Definition float_of (s : string) : outcome Q :=
  match parse_int s with
  | Some z => Return (Qmake z 1)
  | None => Throw ValueError
  end.

Definition no_plot (xy1x xy1y xy2x xy2y : list (cell Q)) : py unit := ([], Return tt).

Definition read_ascii :=
  read_ASCII_cols Q open_match int_of float_of TweakSamples.no_position.

Definition vector_plot :=
  make_vector_plot Q open_match no_fits int_of float_of TweakSamples.no_position
    no_plot.

(** A configuration with two options and a section, and its options
    as a dict. *)
Definition sample_config : list (string * Z) :=
  [("input", 1); ("IMAGEFIND", 2); ("updatehdr", 3)].

Definition sample_options : gmap string Z :=
  <["updatehdr" := 3]> (<["input" := 1]> ∅).

End TweakIOSamples.

(** ** Facts about the residual extraction engine *)

Module EngineFacts.

Import QualityAnalysis EngineSpec.

(** numpy's integer indexing on small arrays. *)
Example take_from_the_end :
  Np.take [10; 20; 30] [-1; 0] = Ok [30; 10].
Proof. reflexivity. Qed.

Example take_out_of_range :
  Np.take [10; 20; 30] [3] = Raise IndexError.
Proof. reflexivity. Qed.

Example where_in_window :
  Np.where_ (fun i => (2 <=? i) && (i <? 4)) [0; 3; 1; 2] = [1; 3].
Proof. reflexivity. Qed.

(** Inversion of one monadic step on results. *)
Lemma bind_ok {A B : Type} (m : res A) (k : A -> res B) (b : B) :
  m ≫= k = Ok b -> exists a, m = Ok a /\ k a = Ok b.
Proof.
  destruct m as [a|e]; simpl; intros H.
  - exists a. split; [reflexivity | exact H].
  - discriminate H.
Qed.

Ltac bind_inv H :=
  let a := fresh "a" in
  let Ha := fresh "Ha" in
  apply bind_ok in H; destruct H as (a & Ha & H).

Section Facts.
Context {num : Type}.
Variable sub : num -> num -> num.
Variable sigma_clipped_std : list num -> num.

Abbreviation loop_body := (loop_body sub sigma_clipped_std).
Abbreviation run := (run sub sigma_clipped_std).
Abbreviation extract_residuals := (extract_residuals sub sigma_clipped_std).
Abbreviation store_image := (store_image sub sigma_clipped_std).

Lemma string_keys_initial : string_keys (@initial num).
Proof. intros z. apply lookup_empty. Qed.

Lemma modify_ok (name : string) (f : group_rec num -> group_rec num)
    (d d' : gmap pykey (group_rec num)) :
  modify name f d = Ok d' ->
  exists r, d !! KStr name = Some r /\ d' = <[KStr name := f r]> d.
Proof.
  unfold modify. destruct (d !! KStr name) as [r|] eqn:E; intros H.
  - injection H as <-. eauto.
  - discriminate H.
Qed.

Lemma modify_present (name : string) (f : group_rec num -> group_rec num)
    (d : gmap pykey (group_rec num)) (r : group_rec num) :
  d !! KStr name = Some r -> modify name f d = Ok (<[KStr name := f r]> d).
Proof. unfold modify. intros ->. reflexivity. Qed.

(** With file names as keys, the test [group_id not in group_dict]
    always holds: the record is created anew and the offset is reset. *)
Lemma init_group_resets (st : locals num) (c : chip num) :
  string_keys st ->
  init_group st c =
    {| group_dict :=
         <[KStr (meta_filename c) := new_record (meta_group_id c)]> (group_dict st);
       ref_ra := ref_ra st; ref_dec := ref_dec st; cum_indx := Some 0 |}.
Proof. intros Hk. unfold init_group. rewrite Hk. reflexivity. Qed.

Lemma init_group_record (st : locals num) (c : chip num) :
  string_keys st ->
  group_dict (init_group st c) !! KStr (meta_filename c)
    = Some (new_record (meta_group_id c))
  /\ cum_indx (init_group st c) = Some 0.
Proof.
  intros Hk. rewrite init_group_resets by exact Hk. simpl.
  split; [apply lookup_insert_eq | reflexivity].
Qed.

Lemma init_group_keys (st : locals num) (c : chip num) :
  string_keys st -> string_keys (init_group st c).
Proof.
  intros Hk z. rewrite init_group_resets by exact Hk. simpl.
  rewrite lookup_insert_ne by discriminate. apply Hk.
Qed.

Lemma init_group_buffers (st : locals num) (c : chip num) :
  ref_ra (init_group st c) = ref_ra st /\ ref_dec (init_group st c) = ref_dec st.
Proof. unfold init_group. destruct (group_dict st !! _); simpl; auto. Qed.

(** The REFERENCE branch. *)
Lemma loop_body_reference (st st' : locals num) (c : chip num) :
  is_reference c = true ->
  loop_body st c = Ok st' ->
  exists r0,
    group_dict (init_group st c) !! KStr (meta_filename c) = Some r0
    /\ group_dict st'
       = <[KStr (meta_filename c) := set_type REFERENCE r0]>
           (group_dict (init_group st c))
    /\ is_array (ref_ra st') /\ is_array (ref_dec st')
    /\ cum_indx st' = cum_indx (init_group st c).
Proof.
  unfold is_reference, QualityAnalysis.loop_body. intros -> H.
  bind_inv H. apply modify_ok in Ha as (r0 & Hr0 & ->).
  destruct (transform _ _ _) as [rra rdec]. injection H as <-. simpl.
  exists r0. repeat split; try assumption.
  - destruct (ref_ra (init_group st c)); exact I.
  - destruct (ref_dec (init_group st c)); exact I.
Qed.

(** The IMAGE branch. *)
Lemma loop_body_image (st st' : locals num) (c : chip num) :
  is_reference c = false ->
  loop_body st c = Ok st' ->
  exists img_x img_y rx ry cum p r0,
    chip_positions (init_group st c) c = Ok (img_x, img_y, rx, ry, cum)
    /\ read_params (meta_fit_info c) = Ok p
    /\ group_dict (init_group st c) !! KStr (meta_filename c) = Some r0
    /\ group_dict st'
       = <[KStr (meta_filename c) :=
             store_image p img_x img_y rx ry (set_type IMAGE r0)]>
           (group_dict (init_group st c))
    /\ ref_ra st' = ref_ra st /\ ref_dec st' = ref_dec st
    /\ cum_indx st' = Some cum.
Proof.
  unfold is_reference, QualityAnalysis.loop_body. intros -> H.
  bind_inv H. destruct a as [[[[img_x img_y] rx] ry] cum].
  bind_inv H. apply modify_ok in Ha0 as (r0 & Hr0 & ->).
  bind_inv H. rename a into p.
  bind_inv H. apply modify_ok in Ha1 as (r1 & Hr1 & ->).
  rewrite lookup_insert_eq in Hr1. injection Hr1 as <-.
  rewrite insert_insert_eq in H. injection H as <-. simpl.
  destruct (init_group_buffers st c) as [-> ->].
  exists img_x, img_y, rx, ry, cum, p, r0. repeat split; assumption.
Qed.

Lemma loop_body_keys (st st' : locals num) (c : chip num) :
  string_keys st -> loop_body st c = Ok st' -> string_keys st'.
Proof.
  intros Hk H z. pose proof (init_group_keys st c Hk z) as Hz.
  destruct (is_reference c) eqn:E.
  - apply loop_body_reference in H as (r0 & _ & -> & _); [|exact E].
    rewrite lookup_insert_ne by discriminate. exact Hz.
  - apply loop_body_image in H as (? & ? & ? & ? & ? & ? & ? & _ & _ & _ & -> & _);
      [|exact E].
    rewrite lookup_insert_ne by discriminate. exact Hz.
Qed.

Lemma run_keys (imglist : list (chip num)) (st st' : locals num) :
  string_keys st -> run st imglist = Ok st' -> string_keys st'.
Proof.
  revert st. induction imglist as [|c rest IH]; simpl; intros st Hk H.
  - injection H as <-. exact Hk.
  - bind_inv H. eapply IH; [|exact H]. eapply loop_body_keys; eauto.
Qed.

Lemma run_app (pre post : list (chip num)) (st : locals num) :
  run st (pre ++ post) = st' ← run st pre; run st' post.
Proof.
  revert st. induction pre as [|c rest IH]; simpl; intros st; [reflexivity|].
  destruct (loop_body st c) as [st1|e]; simpl; [apply IH | reflexivity].
Qed.


(** *** The RMS is that of the latest chip *)

(** C2, as amended: after an IMAGE chip is processed, rms_x and rms_y of
    its group are the sigma-clipped standard deviations of the residuals
    (image minus reference) of the positions that this chip contributed. *)
Theorem rms_of_latest_chip (st st' : locals num) (c : chip num) :
  is_reference c = false ->
  loop_body st c = Ok st' ->
  exists img_x img_y rx ry cum r,
    chip_positions (init_group st c) c = Ok (img_x, img_y, rx, ry, cum)
    /\ group_dict st' !! KStr (meta_filename c) = Some r
    /\ type r = Some IMAGE
    /\ rms_x r = Some (sigma_clipped_std (zip_with sub img_x rx))
    /\ rms_y r = Some (sigma_clipped_std (zip_with sub img_y ry)).
Proof.
  intros Href H.
  apply loop_body_image in H
    as (img_x & img_y & rx & ry & cum & p & r0 & Hpos & _ & _ & Hd & _);
    [|exact Href].
  exists img_x, img_y, rx, ry, cum. eexists. split; [exact Hpos|].
  rewrite Hd, lookup_insert_eq. split; [reflexivity|]. simpl. auto.
Qed.

(** *** The status is not validated *)

Lemma is_reference_with_status (s : string) (c : chip num) :
  is_reference (with_status s c) = String.eqb s "REFERENCE".
Proof. reflexivity. Qed.

(** C5, as amended: the engine does not validate the fit status.  A chip
    whose status is anything but REFERENCE, documented or not, is
    processed exactly as a chip with status SUCCESS, and when the step
    succeeds its group is recorded with type IMAGE. *)
Theorem status_not_validated (st : locals num) (c : chip num) :
  is_reference c = false ->
  loop_body st c = loop_body st (with_status "SUCCESS" c)
  /\ forall st', loop_body st c = Ok st' ->
       exists r, group_dict st' !! KStr (meta_filename c) = Some r
                 /\ type r = Some IMAGE.
Proof.
  intros Href. split.
  - unfold is_reference in Href. unfold QualityAnalysis.loop_body.
    rewrite Href. reflexivity.
  - intros st' H.
    apply loop_body_image in H
      as (? & ? & ? & ? & ? & ? & r0 & _ & _ & _ & Hd & _); [|exact Href].
    rewrite Hd, lookup_insert_eq. eexists. split; reflexivity.
Qed.


(** *** Reference records and images without surviving matches *)

Lemma new_record_empty (gid : Z) (t : role) :
  empty_positions (set_type t (@new_record num gid)).
Proof. repeat split. Qed.

Lemma loop_body_references (st st' : locals num) (c : chip num) :
  string_keys st ->
  references_empty (group_dict st) ->
  loop_body st c = Ok st' ->
  references_empty (group_dict st').
Proof.
  intros Hk Hinv H k r Hr Ht.
  destruct (init_group_record st c Hk) as [Hnew _].
  assert (Hother : k <> KStr (meta_filename c) ->
                   group_dict (init_group st c) !! k = Some r ->
                   empty_positions r).
  { intros Hne. rewrite init_group_resets by exact Hk. simpl.
    rewrite lookup_insert_ne by congruence. intros Hr'. eapply Hinv; eauto. }
  destruct (is_reference c) eqn:E.
  - apply loop_body_reference in H as (r0 & Hr0 & Hd & _); [|exact E].
    rewrite Hd in Hr. rewrite Hnew in Hr0. injection Hr0 as <-.
    destruct (decide (k = KStr (meta_filename c))) as [->|Hne].
    + rewrite lookup_insert_eq in Hr. injection Hr as <-. apply new_record_empty.
    + rewrite lookup_insert_ne in Hr by congruence. auto.
  - apply loop_body_image in H
      as (? & ? & ? & ? & ? & ? & r0 & _ & _ & _ & Hd & _); [|exact E].
    rewrite Hd in Hr.
    destruct (decide (k = KStr (meta_filename c))) as [->|Hne].
    + rewrite lookup_insert_eq in Hr. injection Hr as <-. discriminate Ht.
    + rewrite lookup_insert_ne in Hr by congruence. auto.
Qed.

Lemma run_references (imglist : list (chip num)) (st st' : locals num) :
  string_keys st ->
  references_empty (group_dict st) ->
  run st imglist = Ok st' ->
  references_empty (group_dict st').
Proof.
  revert st. induction imglist as [|c rest IH]; simpl; intros st Hk Hinv H.
  - injection H as <-. exact Hinv.
  - bind_inv H. eapply IH; [| |exact H].
    + eapply loop_body_keys; eauto.
    + eapply loop_body_references; eauto.
Qed.

Lemma compress_none {A : Type} (mask : list bool) (a : list A) :
  forallb negb mask = true -> Np.compress mask a = [].
Proof.
  revert a. induction mask as [|m ms IH]; intros a H; [reflexivity|].
  simpl in H. apply andb_true_iff in H as [Hm Hms].
  destruct m; [discriminate Hm|]. destruct a; simpl; auto.
Qed.

Lemma bool_index_none {A : Type} (a : list A) (mask : list bool) :
  length a = length mask -> forallb negb mask = true ->
  Np.bool_index a mask = Ok [].
Proof.
  intros Hl Hm. unfold Np.bool_index. rewrite Hl, Nat.eqb_refl.
  rewrite compress_none by exact Hm. reflexivity.
Qed.

(** An IMAGE chip none of whose matches survives contributes nothing. *)
Lemma chip_positions_none (st : locals num) (c : chip num) (start : Z) :
  fit_complete (meta_fit_info c) ->
  none_survives (meta_fit_info c) ->
  is_array (ref_ra st) -> is_array (ref_dec st) ->
  cum_indx st = Some start ->
  chip_positions st c
    = Ok ([], [], [], [], start + Z.of_nat (length (meta_catalog c))).
Proof.
  intros (mask & mref & minp & ra & dec & sh & r & s & n & k
          & Hm & Hmr & Hmi & Hlr & Hli & Hra & Hdec & _)
         (mask' & Hm' & Hnone) Har Had Hc.
  rewrite Hm in Hm'. injection Hm' as <-.
  unfold chip_positions, get_tangent_positions.
  rewrite Hm, Hmr, Hmi, Hc, Hra, Hdec. simpl.
  rewrite !bool_index_none by assumption. simpl.
  destruct (ref_ra st); [destruct Har|].
  destruct (ref_dec st); [destruct Had|]. reflexivity.
Qed.

Lemma read_params_complete (f : fit_info num) :
  fit_complete f -> exists p, read_params f = Ok p.
Proof.
  intros (mask & mref & minp & ra & dec & sh & r & s & n & k
          & _ & _ & _ & _ & _ & _ & _ & Hsh & Hr & Hs & Hn & Hk).
  unfold read_params. rewrite Hsh, Hr, Hs, Hn, Hk. simpl. eauto.
Qed.

(** C4, as amended.  In every result of the engine a record of type
    REFERENCE has empty x, y, ref_x and ref_y.  An IMAGE chip with a
    complete fit record none of whose matched indices survives the mask,
    processed after a reference chip has filled the world buffers, makes
    the engine return a record with empty position sequences; its rms_x
    and rms_y are not null but hold the sigma-clipped deviation of the
    empty residual sequence. *)
Theorem reference_and_unmatched_records :
  (forall imglist d k r,
      extract_residuals imglist = Ok d ->
      d !! k = Some r -> type r = Some REFERENCE -> empty_positions r)
  /\ (forall pre st c,
        run initial pre = Ok st ->
        is_array (ref_ra st) -> is_array (ref_dec st) ->
        is_reference c = false ->
        fit_complete (meta_fit_info c) ->
        none_survives (meta_fit_info c) ->
        exists d r,
          extract_residuals (pre ++ [c]) = Ok d
          /\ d !! KStr (meta_filename c) = Some r
          /\ type r = Some IMAGE
          /\ empty_positions r
          /\ rms_x r = Some (sigma_clipped_std [])
          /\ rms_y r = Some (sigma_clipped_std [])).
Proof.
  split.
  - intros imglist d k r H. unfold QualityAnalysis.extract_residuals in H.
    bind_inv H. injection H as <-.
    eapply run_references; [apply string_keys_initial | | exact Ha].
    intros k' r' Hr'. simpl in Hr'. rewrite lookup_empty in Hr'. discriminate Hr'.
  - intros pre st c Hrun Har Had Href Hfit Hnone.
    pose proof (run_keys _ _ _ string_keys_initial Hrun) as Hk.
    destruct (init_group_record st c Hk) as [Hnew Hcum].
    destruct (init_group_buffers st c) as [Hra Hdec].
    destruct (read_params_complete _ Hfit) as [p Hp].
    assert (Hpos := chip_positions_none (init_group st c) c 0 Hfit Hnone).
    rewrite Hra, Hdec in Hpos. specialize (Hpos Har Had Hcum).
    unfold QualityAnalysis.extract_residuals. rewrite run_app, Hrun. simpl.
    unfold QualityAnalysis.loop_body. unfold is_reference in Href.
    rewrite Href, Hpos. simpl.
    rewrite (modify_present _ _ _ _ Hnew). simpl. rewrite Hp. simpl.
    rewrite (modify_present _ _ _ (set_type IMAGE (new_record (meta_group_id c))))
      by apply lookup_insert_eq.
    simpl. eexists. eexists. split; [reflexivity|].
    rewrite lookup_insert_eq. split; [reflexivity|].
    repeat split.
Qed.


(** *** The two-group scenario *)

Lemma item_lookup {A : Type} (a : list A) (i : Z) (v : A) :
  0 <= i -> a !! Z.to_nat i = Some v -> Np.item a i = Ok v.
Proof.
  intros Hi Hv. unfold Np.item.
  pose proof (lookup_lt_Some _ _ _ Hv) as Hlt.
  replace (i <? 0) with false by (symmetry; apply Z.ltb_ge; lia).
  replace (0 <=? i) with true by (symmetry; apply Z.leb_le; lia).
  replace (i <? Z.of_nat (length a)) with true by (symmetry; apply Z.ltb_lt; lia).
  simpl. rewrite Hv. reflexivity.
Qed.

Lemma take_first_two {A : Type} (a : list A) :
  (2 <= length a)%nat ->
  exists u v, Np.take a [0; 1] = Ok [u; v].
Proof.
  destruct a as [|u [|v rest]]; simpl; intros Hl; try lia.
  exists u, v. cbn [Np.take].
  rewrite (item_lookup (u :: v :: rest) 1 v) by (reflexivity || lia).
  reflexivity.
Qed.

Lemma split_map {A B : Type} (l : list (A * B)) :
  List.split l = (List.map fst l, List.map snd l).
Proof.
  induction l as [|[a b] l IH]; simpl; [reflexivity|]. rewrite IH. reflexivity.
Qed.

Lemma combine_fst_snd {A B : Type} (l : list (A * B)) :
  List.combine (List.map fst l) (List.map snd l) = l.
Proof.
  induction l as [|[a b] l IH]; simpl; [reflexivity|]. rewrite IH. reflexivity.
Qed.

Lemma transform_pair (f : num -> num -> num * num) (a b c d : num) :
  transform f [a; b] [c; d] = ([fst (f a c); fst (f b d)], [snd (f a c); snd (f b d)]).
Proof. unfold transform. rewrite split_map. reflexivity. Qed.

Lemma loop_body_reference_eq (st : locals num) (c : chip num) :
  string_keys st ->
  is_reference c = true ->
  loop_body st c =
    Ok {| group_dict :=
            <[KStr (meta_filename c) := set_type REFERENCE (new_record (meta_group_id c))]>
              (group_dict st);
          ref_ra :=
            np_concatenate (ref_ra st)
              (List.map (fun p => fst (det_to_world c (fst p) (snd p))) (meta_catalog c));
          ref_dec :=
            np_concatenate (ref_dec st)
              (List.map (fun p => snd (det_to_world c (fst p) (snd p))) (meta_catalog c));
          cum_indx := Some 0 |}.
Proof.
  intros Hk Href. unfold is_reference in Href.
  unfold QualityAnalysis.loop_body. rewrite Href.
  rewrite init_group_resets by exact Hk. simpl.
  rewrite (modify_present _ _ _ (new_record (meta_group_id c)))
    by apply lookup_insert_eq.
  simpl. unfold transform. rewrite split_map, combine_fst_snd, !List.map_map.
  rewrite insert_insert_eq. reflexivity.
Qed.

#[local] Arguments Np.take : simpl never.
#[local] Arguments Np.where_ : simpl never.
#[local] Arguments transform : simpl never.



(** *** determine_alignment_residuals *)

Variable extract_point_sources : string -> list (list (num * num)).
Variable build_wcscat : string -> Z -> list (list (num * num)) -> list (chip num).
Variable align_wcs : list (chip num) -> res (list (chip num)).

Abbreviation determine :=
  (determine_alignment_residuals sub sigma_clipped_std
     extract_point_sources build_wcscat align_wcs).

(** C3 at the input without files: [max] of the empty list of source
    counts raises ValueError, where the claim has the call return None. *)
Theorem no_input_files_raises (input : string) :
  determine input [] = ([], Raise ValueError)
  /\ total_sources extract_point_sources [] = 0.
Proof. split; reflexivity. Qed.

Lemma fold_count_ge (cats : list (list (num * num))) (a : Z) :
  a <= fold_left (fun nums cat => nums + Z.of_nat (length cat)) cats a.
Proof.
  revert a. induction cats as [|c cs IH]; simpl; intros a; [lia|].
  specialize (IH (a + Z.of_nat (length c))). lia.
Qed.

Lemma count_sources_nonneg (cats : list (list (num * num))) :
  0 <= count_sources cats.
Proof. apply fold_count_ge. Qed.

Lemma fold_max_le_sum (vs : list Z) (v : Z) :
  0 <= v -> Forall (fun w => 0 <= w) vs ->
  fold_left Z.max vs v <= v + fold_right Z.add 0 vs.
Proof.
  revert v. induction vs as [|w ws IH]; simpl; intros v Hv Hall; [lia|].
  inversion Hall as [|? ? Hw Hws]; subst.
  specialize (IH (Z.max v w) ltac:(lia) Hws). lia.
Qed.

Lemma num_srcs_nonneg (files : list string) :
  Forall (fun w => 0 <= w)
    (List.map count_sources (List.map extract_point_sources files)).
Proof.
  induction files as [|f fs IH]; simpl; constructor;
    [apply count_sources_nonneg | exact IH].
Qed.

(** With at least one input file the guard is as the claim has it. *)
Lemma few_sources_return_none (input : string) (files : list string) :
  files <> [] ->
  total_sources extract_point_sources files < 4 ->
  determine input files = ([], Ok None).
Proof.
  intros Hne Htot. destruct files as [|f fs]; [congruence|].
  unfold determine_alignment_residuals, total_sources in *. simpl in *.
  pose proof (num_srcs_nonneg fs) as Hall.
  pose proof (count_sources_nonneg (extract_point_sources f)) as Hf.
  pose proof (fold_max_le_sum _ _ Hf Hall) as Hmax.
  replace (_ <=? 3) with true by (symmetry; apply Z.leb_le; lia).
  reflexivity.
Qed.

Lemma matching_needs_four_sources (input : string) (files : list string) :
  matching_attempted (fst (determine input files)) = true ->
  4 <= total_sources extract_point_sources files.
Proof.
  intros H. destruct (Z_lt_le_dec (total_sources extract_point_sources files) 4)
    as [Hlt|Hge]; [|exact Hge].
  destruct files as [|f fs]; [discriminate H|].
  rewrite few_sources_return_none in H by (congruence || exact Hlt).
  discriminate H.
Qed.

End Facts.

(** ** The engine on the concrete inputs *)

Import RationalModel Samples.

(** C1 at a two-chip exposure.  The two chips of "b_flt.fits" share one
    fit with four matches, two on each chip.  After the first chip the
    record holds its two positions and the offset is 2.  At the second
    chip the record is created anew and the offset is reset to 0, so the
    run ends with two positions instead of four and the offset 2 instead
    of 4. *)
Theorem second_chip_reinitialises_record :
  x <$> record_after [ref_chip; b_chip1] "b_flt.fits" = Some [Qmake 5 1; Qmake 6 1]
  /\ cum_indx (after [ref_chip; b_chip1]) = Some 2
  /\ group_dict (init_group (after [ref_chip; b_chip1]) b_chip2) !! KStr "b_flt.fits"
     = Some (new_record 1)
  /\ cum_indx (init_group (after [ref_chip; b_chip1]) b_chip2) = Some 0
  /\ x <$> record_after two_chip_exposure "b_flt.fits" = Some [Qmake 5 1; Qmake 6 1]
  /\ cum_indx (after two_chip_exposure) = Some 2.
Proof. repeat split; vm_compute; reflexivity. Qed.

(** The same holds wherever the loop arrives: the test of lines 129-134
    looks up the integer group id among keys that are file names. *)
Lemma every_chip_reinitialises {num : Type} (sub : num -> num -> num)
    (sigma_clipped_std : list num -> num)
    (imglist : list (chip num)) (st : locals num) (c : chip num) :
  run sub sigma_clipped_std initial imglist = Ok st ->
  group_dict (init_group st c) !! KStr (meta_filename c)
    = Some (new_record (meta_group_id c))
  /\ cum_indx (init_group st c) = Some 0.
Proof.
  intros H. apply init_group_record.
  eapply run_keys; [apply string_keys_initial | exact H].
Qed.

(** C2 as stated fails on the exposure with two sources on its first
    chip and one on its second.  The first chip contributes the residuals
    1 and 3, the second the residual 1.  After the second chip rms_x is 0,
    the deviation of that one residual, not the deviation 0.942809 of the
    three residuals contributed by both chips. *)
Lemma rms_ignores_earlier_chips :
  rms_x <$> record_after uneven_exposure "c_flt.fits" = Some (Some (Qmake 0 1))
  /\ accumulated qsub sigma_clipped_std start uneven_exposure "c_flt.fits"
     = ([Qmake 1 1; Qmake 3 1; Qmake 1 1], [Qmake 1 1; Qmake 3 1; Qmake 1 1],
        [Qmake 0 1; Qmake 0 1; Qmake 0 1], [Qmake 0 1; Qmake 0 1; Qmake 0 1])
  /\ sigma_clipped_std [Qmake 1 1; Qmake 3 1; Qmake 1 1] = Qmake 942809 1000000
  /\ ~ rms_over_accumulation qsub sigma_clipped_std uneven_exposure.
Proof.
  split; [vm_compute; reflexivity|].
  split; [vm_compute; reflexivity|].
  split; [vm_compute; reflexivity|].
  intros H.
  pose (d := match extract uneven_exposure with Ok d => d | Raise _ => ∅ end).
  assert (E : extract_residuals qsub sigma_clipped_std uneven_exposure = Ok d)
    by (vm_compute; reflexivity).
  eassert (Er : d !! KStr "c_flt.fits" = Some _) by (vm_compute; reflexivity).
  specialize (H d "c_flt.fits" _ E Er eq_refl).
  vm_compute in H. destruct H as [H _]. discriminate H.
Qed.

Lemma rms_of_latest_chip_witness :
  exists img_x img_y rx ry cum r,
    chip_positions (init_group (after [ref_chip; c_chip1]) c_chip2) c_chip2
      = Ok (img_x, img_y, rx, ry, cum)
    /\ group_dict (after uneven_exposure) !! KStr "c_flt.fits" = Some r
    /\ type r = Some IMAGE
    /\ rms_x r = Some (sigma_clipped_std (zip_with qsub img_x rx))
    /\ rms_y r = Some (sigma_clipped_std (zip_with qsub img_y ry)).
Proof.
  apply (rms_of_latest_chip qsub sigma_clipped_std
           (after [ref_chip; c_chip1]) (after uneven_exposure) c_chip2).
  - reflexivity.
  - vm_compute. reflexivity.
Defined.

(** C4 as stated fails on an image whose two matches are both masked:
    the record has empty positions, but rms_x and rms_y are numbers. *)
Lemma unmatched_image_rms_not_null :
  exists r,
    record_after [ref_chip; masked_chip] "d_flt.fits" = Some r
    /\ type r = Some IMAGE
    /\ empty_positions r
    /\ rms_x r = Some (Qmake 0 1) /\ rms_x r <> None
    /\ rms_y r = Some (Qmake 0 1) /\ rms_y r <> None.
Proof.
  eexists. split; [vm_compute; reflexivity|].
  repeat split; discriminate.
Qed.

(** An image chip that comes before every reference chip finds the
    world buffers still Python lists, and the engine raises. *)
Example image_before_reference_raises :
  extract [masked_chip; ref_chip] = Raise TypeError.
Proof. reflexivity. Qed.

Lemma reference_and_unmatched_records_witness :
  (forall r, record_after [ref_chip; masked_chip] "a_flt.fits" = Some r ->
             type r = Some REFERENCE -> empty_positions r)
  /\ exists d r,
       extract_residuals qsub sigma_clipped_std ([ref_chip] ++ [masked_chip]) = Ok d
       /\ d !! KStr "d_flt.fits" = Some r
       /\ type r = Some IMAGE
       /\ empty_positions r
       /\ rms_x r = Some (sigma_clipped_std [])
       /\ rms_y r = Some (sigma_clipped_std []).
Proof.
  split.
  - intros r Hr.
    apply (proj1 (reference_and_unmatched_records qsub sigma_clipped_std)
             [ref_chip; masked_chip]
             (match extract [ref_chip; masked_chip] with Ok d => d | Raise _ => ∅ end)
             (KStr "a_flt.fits") r).
    + vm_compute. reflexivity.
    + vm_compute. vm_compute in Hr. exact Hr.
  - apply (proj2 (reference_and_unmatched_records qsub sigma_clipped_std)
             [ref_chip] (after [ref_chip]) masked_chip).
    + vm_compute. reflexivity.
    + vm_compute. exact I.
    + vm_compute. exact I.
    + reflexivity.
    + do 10 eexists. repeat split; reflexivity.
    + eexists. split; reflexivity.
Defined.

(** C5 as stated fails on a chip with the status BOGUS: the engine
    raises nothing and records the group as an IMAGE. *)
Lemma undocumented_status_accepted :
  documented_status (status (meta_fit_info bogus_chip)) = false
  /\ exists r,
       record_after [ref_chip; bogus_chip] "e_flt.fits" = Some r
       /\ type r = Some IMAGE
       /\ x r = [Qmake 5 1; Qmake 6 1].
Proof.
  split; [reflexivity|]. eexists. split; [vm_compute; reflexivity|].
  split; reflexivity.
Qed.

Lemma status_not_validated_witness :
  loop_body qsub sigma_clipped_std (after [ref_chip]) bogus_chip
    = loop_body qsub sigma_clipped_std (after [ref_chip]) (with_status "SUCCESS" bogus_chip)
  /\ forall st',
       loop_body qsub sigma_clipped_std (after [ref_chip]) bogus_chip = Ok st' ->
       exists r, group_dict st' !! KStr "e_flt.fits" = Some r /\ type r = Some IMAGE.
Proof.
  apply (status_not_validated qsub sigma_clipped_std (after [ref_chip]) bogus_chip).
  reflexivity.
Defined.


End EngineFacts.

(** ** Facts about the catalog comparisons *)

Module SvmFacts.

Import SvmQualityAnalysis SvmSpec.

(** *** Strings *)

Example split_drizzle_name :
  PyStr.split "_" "hst_11665_06_wfc3_ir_total_ib4606_drz.fits"
  = ["hst"; "11665"; "06"; "wfc3"; "ir"; "total"; "ib4606"; "drz.fits"].
Proof. reflexivity. Qed.

Example strip_comment_line :
  PyStr.strip "  # Number of sources: 25.  " = "# Number of sources: 25.".
Proof. reflexivity. Qed.

Example reported_number :
  @read_num_sources Q "cat.ecsv" ["# %ECSV 0.9"; "# Number of sources: 25."; "X Y"]
  = ([Log INFO "Catalog: {} Number of sources: {}." [AStr "cat.ecsv"; AStr "25"]],
     Ok (inr "25"))
  /\ to_int SvmSamples.parse_int (inr "25") = Ok 25.
Proof. split; reflexivity. Qed.

Lemma substring_skip (a b : string) (n : nat) :
  String.substring (String.length a) n (a ++ b) = String.substring 0 n b.
Proof. induction a as [|c a IH]; simpl; [reflexivity | exact IH]. Qed.

Lemma substring_prefix (p b : string) :
  String.substring 0 (String.length p) (p ++ b) = p.
Proof.
  induction p as [|c p IH]; simpl.
  - destruct b; reflexivity.
  - rewrite IH. reflexivity.
Qed.

(** A string contains each of its infixes. *)
Lemma contains_infix (a p b : string) :
  p <> EmptyString -> PyStr.contains p (a ++ p ++ b) = true.
Proof.
  intros Hp. unfold PyStr.contains, PyStr.find.
  destruct (String.index 0 p (a ++ p ++ b)) as [m|] eqn:E; [reflexivity|].
  exfalso.
  apply (String.index_correct3 0 (String.length a) p (a ++ p ++ b) E Hp);
    [lia|].
  rewrite substring_skip. apply substring_prefix.
Qed.

Section Facts.
Context {num : Type}.

Abbreviation io := (SvmQualityAnalysis.io num).

Lemma written_app (o1 o2 : list (effect num)) :
  written (o1 ++ o2) = written o1 ++ written o2.
Proof. unfold written. apply omap_app. Qed.

Lemma written_write (p : string) (d : diagnostic num) (o : list (effect num)) :
  written (WriteJson p d :: o) = (p, d) :: written o.
Proof. reflexivity. Qed.

Lemma written_log (l : level) (t : string) (a : list arg) (o : list (effect num)) :
  written (Log l t a :: o) = written o.
Proof. reflexivity. Qed.

(** *** compare_num_sources *)

Variable open_lines : string -> option (list string).
Variable py_int : string -> option Z.

Lemma read_num_sources_returns (catalog : string) (lines : list string) :
  exists out n,
    @read_num_sources num catalog lines = (out, Ok n) /\ written out = [].
Proof.
  induction lines as [|line rest IH]; simpl.
  - eexists. eexists. split; reflexivity.
  - destruct (PyStr.startswith "#" (PyStr.strip line)); simpl.
    + destruct (PyStr.contains "Number of sources" (PyStr.strip line)); simpl.
      * eexists. eexists. split; reflexivity.
      * exact IH.
    + eexists. eexists. split; reflexivity.
Qed.

Lemma read_num_sources_unreported (catalog : string) (lines : list string)
    (out : list (effect num)) (n : Z + string) :
  reports_number lines = false ->
  read_num_sources catalog lines = (out, Ok n) ->
  n = inl (-1).
Proof.
  unfold reports_number. revert out n.
  induction lines as [|line rest IH]; simpl; intros out n Hrep H.
  - injection H as _ <-. reflexivity.
  - destruct (PyStr.startswith "#" (PyStr.strip line)); simpl in *.
    + apply orb_false_iff in Hrep as [Hc Hrest]. rewrite Hc in H.
      eapply IH; eauto.
    + injection H as _ <-. reflexivity.
Qed.

Abbreviation count_catalog := (@count_catalog num open_lines py_int).

Lemma count_catalog_unlisted (catalog_list : list string)
    (sd : list (string * json num)) (catalog : string) :
  does_exist catalog catalog_list = false ->
  count_catalog catalog_list sd catalog = ([], Ok sd).
Proof. unfold SvmQualityAnalysis.count_catalog. intros ->. reflexivity. Qed.

Lemma count_catalog_listed (catalog_list : list string)
    (sd : list (string * json num)) (catalog : string) :
  does_exist catalog catalog_list = true ->
  readable num open_lines py_int catalog ->
  exists out z,
    count_catalog catalog_list sd catalog
      = (out, Ok (dict_set (cat_type_of catalog) (JInt z) sd))
    /\ written out = []
    /\ (forall lines, open_lines catalog = Some lines ->
                      reports_number lines = false -> z = -1).
Proof.
  intros He (lines & out & n & z & Hopen & Hread & Hint).
  unfold SvmQualityAnalysis.count_catalog, py_open. rewrite He, Hopen. simpl.
  rewrite Hread. simpl. rewrite Hint. simpl.
  destruct (read_num_sources_returns catalog lines) as (out' & n' & Hr' & Hw).
  rewrite Hread in Hr'. injection Hr' as <- <-.
  exists (out ++ []), z. split; [reflexivity|]. split.
  - rewrite app_nil_r. exact Hw.
  - intros lines' Hl' Hrep. injection Hl' as <-.
    pose proof (read_num_sources_unreported _ _ _ _ Hrep Hread) as ->.
    simpl in Hint. injection Hint as <-. reflexivity.
Qed.


Lemma nth_item_ok {A : Type} (l : list A) (i : nat) :
  (i < length l)%nat -> exists v, PyStr.nth_item l i = Ok v.
Proof.
  intros Hi. unfold PyStr.nth_item.
  destruct (lookup_lt_is_Some_2 l i Hi) as [v ->]. eauto.
Qed.

Lemma point_catalog_type (prefix : string) :
  cat_type_of (prefix ++ pnt_suffix) = "point".
Proof.
  unfold cat_type_of, pnt_suffix.
  replace (prefix ++ "_point-cat.ecsv")%string
    with ((prefix ++ "_") ++ "point" ++ "-cat.ecsv")%string.
  - rewrite contains_infix by discriminate. reflexivity.
  - induction prefix as [|c p IH]; [reflexivity|].
    change (String c ((p ++ "_") ++ "point" ++ "-cat.ecsv")
            = String c (p ++ "_point-cat.ecsv"))%string.
    rewrite IH. reflexivity.
Qed.

Abbreviation num_sources_product := (@num_sources_product num open_lines py_int).
Abbreviation compare_num_sources := (@compare_num_sources num open_lines py_int).

(** One product: the artifact is written and holds the counts. *)
Lemma num_sources_product_ok (catalog_list : list string) (drizzle_file : string) :
  product_ok num open_lines py_int catalog_list drizzle_file ->
  exists out a,
    num_sources_product catalog_list drizzle_file = (out, Ok tt)
    /\ written out = [a]
    /\ artifact_ok open_lines catalog_list drizzle_file a.
Proof.
  intros (Hlen & Hseg & Hread).
  unfold SvmQualityAnalysis.num_sources_product.
  set (tokens := PyStr.split "_" drizzle_file) in *.
  destruct (nth_item_ok tokens 4 ltac:(lia)) as [detector Hdet].
  destruct (nth_item_ok tokens 6 ltac:(lia)) as [ipppss Hipp].
  rewrite Hdet. simpl. rewrite Hipp. simpl.
  unfold cat_names_of in *.
  set (prefix := PyStr.join "_" (removelast tokens)) in *.
  set (pn := (prefix ++ pnt_suffix)%string) in *.
  set (sn := (prefix ++ seg_suffix)%string) in *.
  assert (Hpt : cat_type_of pn = "point") by apply point_catalog_type.
  assert (Hst : cat_type_of sn = "segment")
    by (unfold cat_type_of; rewrite Hseg; reflexivity).
  cbn [fold_io].
  destruct (does_exist pn catalog_list) eqn:Ep;
    destruct (does_exist sn catalog_list) eqn:Es.
  - destruct (count_catalog_listed catalog_list
                [("detector", JStr detector); ("point", JInt 0); ("segment", JInt 0)]
                pn Ep (Hread pn ltac:(left; reflexivity) Ep))
      as (o1 & z1 & -> & Hw1 & Hz1).
    rewrite Hpt. simpl.
    destruct (count_catalog_listed catalog_list
                [("detector", JStr detector); ("point", JInt z1); ("segment", JInt 0)]
                sn Es (Hread sn ltac:(right; left; reflexivity) Es))
      as (o2 & z2 & -> & Hw2 & Hz2).
    rewrite Hst. simpl.
    eexists. eexists. split; [reflexivity|]. split.
    + rewrite !written_app, Hw1, Hw2. reflexivity.
    + exists pn, sn. eexists. simpl. repeat split; try reflexivity.
      * rewrite Ep. discriminate.
      * intros _ lines Hl Hrep. rewrite (Hz1 lines Hl Hrep). reflexivity.
      * rewrite Es. discriminate.
      * intros _ lines Hl Hrep. rewrite (Hz2 lines Hl Hrep). reflexivity.
  - destruct (count_catalog_listed catalog_list
                [("detector", JStr detector); ("point", JInt 0); ("segment", JInt 0)]
                pn Ep (Hread pn ltac:(left; reflexivity) Ep))
      as (o1 & z1 & -> & Hw1 & Hz1).
    rewrite Hpt. simpl.
    rewrite (count_catalog_unlisted catalog_list _ sn Es). simpl.
    eexists. eexists. split; [reflexivity|]. split.
    + rewrite !written_app, Hw1. reflexivity.
    + exists pn, sn. eexists. simpl. repeat split; try reflexivity.
      * rewrite Ep. discriminate.
      * intros _ lines Hl Hrep. rewrite (Hz1 lines Hl Hrep). reflexivity.
      * rewrite Es. discriminate.
  - rewrite (count_catalog_unlisted catalog_list _ pn Ep). simpl.
    destruct (count_catalog_listed catalog_list
                [("detector", JStr detector); ("point", JInt 0); ("segment", JInt 0)]
                sn Es (Hread sn ltac:(right; left; reflexivity) Es))
      as (o2 & z2 & -> & Hw2 & Hz2).
    rewrite Hst. simpl.
    eexists. eexists. split; [reflexivity|]. split.
    + rewrite !written_app, Hw2. reflexivity.
    + exists pn, sn. eexists. simpl. repeat split; try reflexivity.
      * rewrite Ep. discriminate.
      * rewrite Es. discriminate.
      * intros _ lines Hl Hrep. rewrite (Hz2 lines Hl Hrep). reflexivity.
  - rewrite (count_catalog_unlisted catalog_list _ pn Ep). simpl.
    rewrite (count_catalog_unlisted catalog_list _ sn Es). simpl.
    eexists. eexists. split; [reflexivity|]. split; [reflexivity|].
    exists pn, sn. eexists. simpl. repeat split; try reflexivity.
    + rewrite Ep. discriminate.
    + rewrite Es. discriminate.
Qed.



(** *** Inversion of io computations *)

Lemma io_bind_ok {A B : Type} (m : io A) (k : A -> io B)
    (out : list (effect num)) (b : B) :
  m ≫= k = (out, Ok b) ->
  exists o1 a o2, m = (o1, Ok a) /\ k a = (o2, Ok b) /\ out = o1 ++ o2.
Proof.
  destruct m as [o1 [a|e]]; cbn; [|discriminate].
  destruct (k a) as [o2 r] eqn:E. intros H. injection H as <- ->.
  exists o1, a, o2. auto.
Qed.

Lemma lift_ok {A : Type} (r : res A) (out : list (effect num)) (a : A) :
  lift r = (out, Ok a) -> r = Ok a /\ out = [].
Proof. unfold lift. intros H. injection H as <- <-. auto. Qed.

Lemma res_bind_ok {A B : Type} (m : res A) (k : A -> res B) (b : B) :
  m ≫= k = Ok b -> exists a, m = Ok a /\ k a = Ok b.
Proof.
  destruct m as [a|e]; simpl; intros H; [eauto | discriminate H].
Qed.

Lemma for_each_logs {A : Type} (body : A -> io unit) (l : list A) :
  (forall a, written (fst (body a)) = []) ->
  written (fst (for_each body l)) = [].
Proof.
  intros Hb. induction l as [|a rest IH]; simpl; [reflexivity|].
  specialize (Hb a). destruct (body a) as [o1 [[]|e]]; simpl in *; [|exact Hb].
  destruct (for_each body rest) as [o2 r]. simpl in *.
  rewrite written_app, Hb, IH. reflexivity.
Qed.


(** *** compare_photometry *)

Variable is_missing : num -> bool.
Variable as_int : num -> Z.
Variable getMatchedLists :
  list string -> list string -> list Z -> res (list Z * list Z).
Variable np_mean np_median np_std : list num -> num.
Variable sub : num -> num -> num.
Variable fsqrt : num -> num.
Variable fadd : num -> num -> num.
Variable fsquare : num -> num.
Variable catalogs : string -> option (table num).

Abbreviation photometry_product :=
  (photometry_product num is_missing as_int getMatchedLists
     np_mean np_median np_std sub fsqrt fadd fsquare catalogs).
Abbreviation compare_photometry :=
  (compare_photometry num is_missing as_int getMatchedLists
     np_mean np_median np_std sub fsqrt fadd fsquare catalogs).
Abbreviation phot_column :=
  (phot_column num np_mean np_median np_std sub fsqrt fadd fsquare).
Abbreviation stat_entry := (stat_entry np_mean np_median np_std).
Abbreviation matched_rows :=
  (matched_rows is_missing as_int getMatchedLists catalogs).

Abbreviation quadrature := (quadrature fsqrt fadd fsquare).

(** One iteration of the loop over the magnitude columns. *)
Lemma phot_column_ok (tp ts : table num) (mp ms : list Z) (mask : list bool)
    (index : nat) (name : string) (v : phot_values num) :
  phot_column tp ts mp ms mask index name = Ok v ->
  exists rows err_name err,
    extractMatchedLines name tp ts mp ms (Some mask) = Ok rows
    /\ error_column_names !! index = Some err_name
    /\ extractMatchedLines err_name tp ts mp ms (Some mask) = Ok err
    /\ delta_phot v = zip_with sub (fst rows) (snd rows)
    /\ result_error v = zip_with quadrature (fst err) (snd err)
    /\ stat_dict v = [stat_entry name (zip_with sub (fst rows) (snd rows))].
Proof.
  unfold SvmQualityAnalysis.phot_column. intros H.
  apply res_bind_ok in H as (rows & Hrows & H).
  apply res_bind_ok in H as (err_name & Hname & H).
  apply res_bind_ok in H as (err & Herr & H).
  injection H as <-. exists rows, err_name, err.
  unfold PyStr.nth_item in Hname.
  destruct (error_column_names !! index) as [e|]; [|discriminate Hname].
  injection Hname as ->. repeat split; assumption.
Qed.


Tactic Notation "io_step" hyp(H) "as" simple_intropattern(a) ident(Hm) :=
  let o1 := fresh "o" in
  let o2 := fresh "o" in
  apply io_bind_ok in H; destruct H as (o1 & a & o2 & Hm & H & ->).

Tactic Notation "lift_step" hyp(H) "as" simple_intropattern(a) ident(Hm) :=
  let o1 := fresh "o" in
  let o2 := fresh "o" in
  apply io_bind_ok in H; destruct H as (o1 & a & o2 & Hm & H & ->);
  apply lift_ok in Hm; destruct Hm as [Hm ->].

Lemma check_catalogs_logs (drizzle_file : string) (names : list string) :
  written (fst (@for_each num string (fun catalog : string =>
      if negb (isfile catalogs catalog) then
        _ ← log WARNING "Catalog {} does not exist.  Both the Point and Segment catalogs must exist for comparison." [AStr catalog];
        log WARNING "Program skipping comparison of catalogs associated with {}.\n" [AStr drizzle_file]
      else mret tt) names)) = [].
Proof.
  apply for_each_logs. intros a. destruct (negb (isfile catalogs a)); reflexivity.
Qed.



(** The check for the two catalogs only logs: its [continue] ends an
    iteration of the check itself, and the routine goes on to read the
    catalogs.  A missing point catalog therefore ends the whole batch
    with FileNotFoundError; later products are not processed. *)
Lemma missing_point_catalog_raises (drizzle_file : string)
    (rest : list string) (point_name seg_name : string) :
  (7 <= length (PyStr.split "_" drizzle_file))%nat ->
  cat_names_of (PyStr.split "_" drizzle_file) = [point_name; seg_name] ->
  catalogs point_name = None ->
  exists out,
    compare_photometry (drizzle_file :: rest)
      = (out, Raise (FileNotFoundError point_name))
    /\ written out = []
    /\ In (WARNING, "Program skipping comparison of catalogs associated with {}.\n")
         (logged out).
Proof.
  intros Hlen Hnames Hmissing.
  unfold SvmQualityAnalysis.compare_photometry. cbn [for_each].
  unfold SvmQualityAnalysis.photometry_product.
  destruct (nth_item_ok (PyStr.split "_" drizzle_file) 4 ltac:(lia)) as [detector ->].
  destruct (nth_item_ok (PyStr.split "_" drizzle_file) 5 ltac:(lia)) as [filter_name ->].
  destruct (nth_item_ok (PyStr.split "_" drizzle_file) 6 ltac:(lia)) as [ipppss ->].
  rewrite Hnames. unfold isfile, ascii_read. cbn. rewrite Hmissing. cbn.
  destruct (catalogs seg_name); cbn; eexists; split; try reflexivity;
    split; try reflexivity; cbn; auto.
Qed.


(** *** compare_ra_dec_crossmatches *)

Variable np_min np_max : list num -> num.
Variable sigma_clipped_stats : Z -> Z -> list num -> num * num * num.
Variable slFiles2dataTables : list string -> res (table num * table num).
Variable radesys : string -> string.
Variable icrs : string -> list num * list num -> list num * list num.
Variable separation_arcsec : list num * list num -> list num * list num -> list num.

Abbreviation compare_ra_dec_crossmatches :=
  (compare_ra_dec_crossmatches num is_missing as_int getMatchedLists
     np_min np_max np_mean np_median np_std sigma_clipped_stats
     slFiles2dataTables radesys icrs separation_arcsec).

Lemma log_items (cols : list string) :
  @for_each num string (fun listItem => log INFO "{}" [AStr listItem]) cols
    = (List.map (fun c => Log INFO "{}" [AStr c]) cols, Ok tt).
Proof.
  induction cols as [|c cs IH]; cbn; [reflexivity|]. rewrite IH. reflexivity.
Qed.

Lemma written_items (cols : list string) :
  written (List.map (fun c => @Log num INFO "{}" [AStr c]) cols) = [].
Proof. induction cols as [|c cs IH]; [reflexivity | exact IH]. Qed.

Lemma logged_app (o1 o2 : list (effect num)) :
  logged (o1 ++ o2) = logged o1 ++ logged o2.
Proof. unfold logged. apply omap_app. Qed.

(** With a source in each catalog, no cross-match is reported as an
    error record in the log, and the routine returns without writing. *)
Lemma no_matches_no_artifact (hap_obj : hap_product) (pt st : table num)
    (pra sra : list num) (ref img : list Z) :
  slFiles2dataTables [point_cat_filename hap_obj; segment_cat_filename hap_obj]
    = Ok (pt, st) ->
  column "RA" pt = Ok pra -> column "RA" st = Ok sra ->
  pra <> [] -> sra <> [] ->
  getMatchedLists [point_cat_filename hap_obj; segment_cat_filename hap_obj]
    [drizzle_filename hap_obj; drizzle_filename hap_obj] [len pra; len sra]
    = Ok (ref, img) ->
  ref = [] \/ img = [] ->
  exists out,
    compare_ra_dec_crossmatches hap_obj = (out, Ok tt)
    /\ written out = []
    /\ In (ERROR, no_match_message) (logged out).
Proof.
  intros Hread Hp Hs Hpne Hsne Hmatch Hzero.
  unfold SvmQualityAnalysis.compare_ra_dec_crossmatches.
  rewrite Hread. cbn. rewrite log_items.
  cbn. rewrite Hp. cbn. rewrite Hs. cbn. rewrite Hmatch. cbn.
  unfold truediv.
  replace (len pra =? 0) with false
    by (symmetry; apply Z.eqb_neq; unfold len; destruct pra; [congruence | simpl; lia]).
  replace (len sra =? 0) with false
    by (symmetry; apply Z.eqb_neq; unfold len; destruct sra; [congruence | simpl; lia]).
  cbn.
  replace ((len ref =? 0) || (len img =? 0)) with true
    by (destruct Hzero as [-> | ->]; cbn; [reflexivity | symmetry; apply orb_true_r]).
  cbn. eexists. split; [reflexivity|]. split.
  - rewrite !written_log, written_app, written_items. reflexivity.
  - change (?a :: ?b :: ?c :: ?d :: ?l ++ ?r) with ([a; b; c; d] ++ l ++ r).
    rewrite !logged_app. apply in_or_app. right. apply in_or_app. right.
    cbn. auto 10.
Qed.

(** A point catalog without sources makes the percentage of the log
    message divide by zero, before the test for missing matches. *)
Lemma empty_catalog_raises (hap_obj : hap_product) (pt st : table num)
    (sra : list num) (ref img : list Z) :
  slFiles2dataTables [point_cat_filename hap_obj; segment_cat_filename hap_obj]
    = Ok (pt, st) ->
  column "RA" pt = Ok [] -> column "RA" st = Ok sra ->
  getMatchedLists [point_cat_filename hap_obj; segment_cat_filename hap_obj]
    [drizzle_filename hap_obj; drizzle_filename hap_obj] [0; len sra]
    = Ok (ref, img) ->
  exists out,
    compare_ra_dec_crossmatches hap_obj = (out, Raise ZeroDivisionError)
    /\ written out = [].
Proof.
  intros Hread Hp Hs Hmatch.
  unfold SvmQualityAnalysis.compare_ra_dec_crossmatches.
  rewrite Hread. cbn. rewrite log_items.
  cbn. rewrite Hp. cbn. rewrite Hs. cbn.
  change (len (@nil num)) with 0. rewrite Hmatch. cbn.
  eexists. split; [reflexivity|].
  rewrite !written_log, written_app, written_items. reflexivity.
Qed.

End Facts.

(** ** The comparisons on the concrete inputs *)

Import RationalModel SvmSamples.

(** C6 at a batch whose first product lacks its point catalog.  The two
    warnings are logged, then reading the missing catalog raises
    FileNotFoundError: nothing is written, and the second product, which
    alone yields its artifact, is never processed. *)
Theorem missing_catalog_aborts_batch :
  photometry [f110w_product; f160w_product]
    = ([Log WARNING
          "Catalog {} does not exist.  Both the Point and Segment catalogs must exist for comparison."
          [AStr "hst_11665_06_wfc3_ir_f110w_ib4606_point-cat.ecsv"];
        Log WARNING
          "Program skipping comparison of catalogs associated with {}.\n"
          [AStr f110w_product]],
       Raise (FileNotFoundError "hst_11665_06_wfc3_ir_f110w_ib4606_point-cat.ecsv"))
  /\ List.map fst (written (fst (photometry [f160w_product])))
     = ["ib4606_ir_svm_f160w_photometry.json"].
Proof. split; vm_compute; reflexivity. Qed.


(** C8 at a product whose point catalog has no source: the matcher
    returns no index, and the routine raises ZeroDivisionError instead of
    reporting the missing matches and returning. *)
Theorem empty_point_catalog_raises :
  column "RA" empty_table = Ok []
  /\ match_in_order
       [point_cat_filename sparse_product; segment_cat_filename sparse_product]
       [drizzle_filename sparse_product; drizzle_filename sparse_product]
       [0; 2] = Ok ([], [])
  /\ snd (crossmatches read_sparse sparse_product) = Raise ZeroDivisionError
  /\ written (fst (crossmatches read_sparse sparse_product)) = []
  /\ ~ In (ERROR, no_match_message)
         (logged (fst (crossmatches read_sparse sparse_product))).
Proof.
  repeat split; try (vm_compute; reflexivity).
  vm_compute. intros H.
  repeat (destruct H as [H|H]; [discriminate H|]). destruct H.
Qed.


(** The artifact of the witness: the unlisted point catalog counts 0,
    the segment catalog without a reported number counts -1. *)
Example num_sources_artifact :
  written (fst (num_sources listed_catalogs [total_product]))
  = [("ib4606_ir_svm_num_sources.json",
      add_data_item
        (JObj [("detector", JStr "ir"); ("point", JInt 0); ("segment", JInt (-1))])
        "number_of_sources"
        (instantiate total_product "svm_quality_analysis.compare_num_sources"
           "Number of sources in Point and Segment catalogs"))].
Proof. vm_compute. reflexivity. Qed.

End SvmFacts.

(** ** Further facts about the residual extraction engine *)

Module EngineMoreFacts.

Import QualityAnalysis EngineSpec EngineMore EngineFacts.

Section Facts.
Context {num : Type}.
Variable sub : num -> num -> num.
Variable sigma_clipped_std : list num -> num.

Abbreviation loop_body := (loop_body sub sigma_clipped_std).
Abbreviation run := (run sub sigma_clipped_std).
Abbreviation extract_residuals := (extract_residuals sub sigma_clipped_std).

(** *** The keys of the result *)

Lemma init_group_dom (st : locals num) (c : chip num) (r0 : group_rec num) :
  group_dict (init_group st c) !! KStr (meta_filename c) = Some r0 ->
  dom (group_dict (init_group st c))
  = {[KStr (meta_filename c)]} ∪ dom (group_dict st).
Proof.
  unfold init_group. destruct (group_dict st !! KInt (meta_group_id c)); simpl.
  - intros H. apply (elem_of_dom_2 (D := gset pykey)) in H. set_solver.
  - intros _. apply dom_insert_L.
Qed.

Lemma loop_body_dom (st st' : locals num) (c : chip num) :
  loop_body st c = Ok st' ->
  dom (group_dict st') = {[KStr (meta_filename c)]} ∪ dom (group_dict st).
Proof.
  intros H. destruct (is_reference c) eqn:E.
  - apply loop_body_reference in H as (r0 & Hr0 & -> & _); [|exact E].
    rewrite dom_insert_L, (init_group_dom _ _ _ Hr0). set_solver.
  - apply loop_body_image in H
      as (? & ? & ? & ? & ? & ? & r0 & _ & _ & Hr0 & -> & _); [|exact E].
    rewrite dom_insert_L, (init_group_dom _ _ _ Hr0). set_solver.
Qed.

Lemma run_dom (imglist : list (chip num)) (st st' : locals num) :
  run st imglist = Ok st' ->
  dom (group_dict st') = names_of imglist ∪ dom (group_dict st).
Proof.
  revert st. induction imglist as [|c rest IH]; simpl; intros st H.
  - injection H as <-. unfold names_of. simpl. set_solver.
  - apply bind_ok in H as (st1 & H1 & H).
    rewrite (IH _ H), (loop_body_dom _ _ _ H1).
    unfold names_of. simpl. set_solver.
Qed.

(** X1.  The keys of a result of the engine are exactly the file names of
    the chips it was given: no group is dropped and none is invented. *)
Theorem result_keys (imglist : list (chip num)) (d : gmap pykey (group_rec num)) :
  extract_residuals imglist = Ok d ->
  dom d = names_of imglist.
Proof.
  unfold QualityAnalysis.extract_residuals. intros H.
  apply bind_ok in H as (st & Hrun & H). injection H as <-.
  rewrite (run_dom _ _ _ Hrun). simpl. rewrite dom_empty_L. set_solver.
Qed.

(** *** Typed and aligned records *)

Lemma take_length {A : Type} (a : list A) (idx : list Z) (v : list A) :
  Np.take a idx = Ok v -> length v = length idx.
Proof.
  revert v. induction idx as [|i rest IH]; simpl; intros v H.
  - injection H as <-. reflexivity.
  - apply bind_ok in H as (u & _ & H). apply bind_ok in H as (us & Hus & H).
    injection H as <-. simpl. f_equal. apply IH. exact Hus.
Qed.

Lemma transform_lengths (f : num -> num -> num * num) (a b : list num) :
  length a = length b ->
  length (fst (transform f a b)) = length a
  /\ length (snd (transform f a b)) = length a.
Proof.
  intros Hl. unfold transform. rewrite split_map. simpl.
  rewrite !length_map, length_combine. lia.
Qed.

Lemma chip_positions_aligned (st : locals num) (c : chip num)
    (img_x img_y rx ry : list num) (cum : Z) :
  chip_positions st c = Ok (img_x, img_y, rx, ry, cum) ->
  length img_y = length img_x /\ length rx = length img_x
  /\ length ry = length img_x.
Proof.
  unfold chip_positions, get_tangent_positions. intros H.
  apply bind_ok in H as (img_mask & _ & H).
  apply bind_ok in H as (mref & _ & H).
  apply bind_ok in H as (ref_indx & _ & H).
  apply bind_ok in H as (minp & _ & H).
  apply bind_ok in H as (img_indx & _ & H).
  apply bind_ok in H as (start & _ & H).
  apply bind_ok in H as ([[[ix iy] max_indx] chip_mask] & Hget & H).
  apply bind_ok in Hget as (img_ra & _ & Hget).
  apply bind_ok in Hget as (img_dec & _ & Hget).
  apply bind_ok in Hget as (ras & Hras & Hget).
  apply bind_ok in Hget as (decs & Hdecs & Hget).
  apply take_length in Hras, Hdecs.
  destruct (transform_lengths (world_to_tanp c) ras decs ltac:(congruence))
    as [Hx Hy].
  destruct (transform (world_to_tanp c) ras decs) as [chip_x chip_y].
  injection Hget as <- <- <- <-. simpl in *.
  apply bind_ok in H as (ras0 & _ & H).
  apply bind_ok in H as (ras' & Hras' & H).
  apply bind_ok in H as (decs0 & _ & H).
  apply bind_ok in H as (decs' & Hdecs' & H).
  apply take_length in Hras', Hdecs'.
  destruct (transform_lengths (world_to_tanp c) ras' decs' ltac:(congruence))
    as [Hrx Hry].
  destruct (transform (world_to_tanp c) ras' decs') as [rx' ry'].
  injection H as <- <- <- <- <-. simpl in *. lia.
Qed.

Lemma loop_body_well_formed (st st' : locals num) (c : chip num) :
  string_keys st ->
  well_formed (group_dict st) ->
  loop_body st c = Ok st' ->
  well_formed (group_dict st').
Proof.
  intros Hk Hinv H k r Hr.
  destruct (init_group_record st c Hk) as [Hnew _].
  assert (Hother : k <> KStr (meta_filename c) ->
                   group_dict (init_group st c) !! k = Some r ->
                   typed r /\ aligned r).
  { intros Hne. rewrite init_group_resets by exact Hk. simpl.
    rewrite lookup_insert_ne by congruence. apply Hinv. }
  destruct (is_reference c) eqn:E.
  - apply loop_body_reference in H as (r0 & Hr0 & Hd & _); [|exact E].
    rewrite Hd in Hr. rewrite Hnew in Hr0. injection Hr0 as <-.
    destruct (decide (k = KStr (meta_filename c))) as [->|Hne].
    + rewrite lookup_insert_eq in Hr. injection Hr as <-.
      split; [left; repeat split | repeat split].
    + rewrite lookup_insert_ne in Hr by congruence. auto.
  - apply loop_body_image in H
      as (ix & iy & rx & ry & cum & p & r0 & Hpos & _ & Hr0 & Hd & _); [|exact E].
    rewrite Hd in Hr. rewrite Hnew in Hr0. injection Hr0 as <-.
    destruct (decide (k = KStr (meta_filename c))) as [->|Hne].
    + rewrite lookup_insert_eq in Hr. injection Hr as <-.
      apply chip_positions_aligned in Hpos as (Hy & Hrx & Hry).
      split; [right; repeat split; eauto | repeat split; simpl; assumption].
    + rewrite lookup_insert_ne in Hr by congruence. auto.
Qed.

Lemma run_well_formed (imglist : list (chip num)) (st st' : locals num) :
  string_keys st ->
  well_formed (group_dict st) ->
  run st imglist = Ok st' ->
  well_formed (group_dict st').
Proof.
  revert st. induction imglist as [|c rest IH]; simpl; intros st Hk Hinv H.
  - injection H as <-. exact Hinv.
  - apply bind_ok in H as (st1 & H1 & H). eapply IH; [| |exact H].
    + eapply loop_body_keys; eauto.
    + eapply loop_body_well_formed; eauto.
Qed.

Lemma extract_well_formed (imglist : list (chip num))
    (d : gmap pykey (group_rec num)) :
  extract_residuals imglist = Ok d -> well_formed d.
Proof.
  unfold QualityAnalysis.extract_residuals. intros H.
  apply bind_ok in H as (st & Hrun & H). injection H as <-.
  eapply run_well_formed; [apply string_keys_initial | | exact Hrun].
  intros k r Hr. simpl in Hr. rewrite lookup_empty in Hr. discriminate Hr.
Qed.

(** X2.  Every record of a result has the type REFERENCE or IMAGE, never
    None: a REFERENCE record has no fit parameters and null rms_x and
    rms_y, an IMAGE record has the fit parameters xsh, ysh, rot, scale,
    nmatches, skew and both RMS values. *)
Theorem records_typed (imglist : list (chip num))
    (d : gmap pykey (group_rec num)) (k : pykey) (r : group_rec num) :
  extract_residuals imglist = Ok d ->
  d !! k = Some r ->
  typed r.
Proof. intros H Hr. exact (proj1 (extract_well_formed _ _ H k r Hr)). Qed.

(** X3.  In every record of a result the sequences x, y, ref_x and ref_y
    have one length: the positions are matched pairs. *)
Theorem records_aligned (imglist : list (chip num))
    (d : gmap pykey (group_rec num)) (k : pykey) (r : group_rec num) :
  extract_residuals imglist = Ok d ->
  d !! k = Some r ->
  aligned r.
Proof. intros H Hr. exact (proj2 (extract_well_formed _ _ H k r Hr)). Qed.


(** *** Errors of the IMAGE branch *)

Lemma chip_positions_needs_array (st : locals num) (c : chip num) :
  ref_ra st = PyList ->
  exists e, chip_positions st c = Raise e.
Proof.
  intros Hbuf. unfold chip_positions. rewrite Hbuf.
  destruct (getitem "fitmask" _) as [img_mask|e]; simpl; [|eauto].
  destruct (getitem "matched_ref_idx" _) as [mref|e]; simpl; [|eauto].
  destruct (Np.bool_index mref img_mask) as [ref_indx|e]; simpl; [|eauto].
  destruct (getitem "matched_input_idx" _) as [minp|e]; simpl; [|eauto].
  destruct (Np.bool_index minp img_mask) as [img_indx|e]; simpl; [|eauto].
  destruct (cum_indx st) as [start|]; simpl; [|eauto].
  destruct (get_tangent_positions c img_indx start)
    as [[[[ix iy] max_indx] chip_mask]|e]; simpl; eauto.
Qed.

Lemma raise_propagates (imglist : list (chip num)) (st : locals num) (c : chip num)
    (e : exn) :
  loop_body st c = Raise e -> run st (c :: imglist) = Raise e.
Proof. simpl. intros ->. reflexivity. Qed.

(** X4.  The engine cannot resolve an image before a reference: when the
    first chip of the list is not a REFERENCE chip the world buffers are
    still Python lists, and the call raises whatever the chip's fit record
    holds. *)
Theorem image_first_raises (c : chip num) (rest : list (chip num)) :
  is_reference c = false ->
  exists e, extract_residuals (c :: rest) = Raise e.
Proof.
  intros Href. unfold QualityAnalysis.extract_residuals.
  destruct (chip_positions_needs_array (init_group initial c) c) as [e He].
  { destruct (init_group_buffers initial c) as [-> _]. reflexivity. }
  exists e. rewrite (raise_propagates rest initial c e); [reflexivity|].
  unfold QualityAnalysis.loop_body. unfold is_reference in Href.
  rewrite Href, He. reflexivity.
Qed.

(** A chip of a failed fit has no [fitmask] entry. *)
Lemma loop_body_no_fitmask (st : locals num) (c : chip num) :
  is_reference c = false ->
  fitmask (meta_fit_info c) = None ->
  loop_body st c = Raise (KeyError "fitmask").
Proof.
  unfold is_reference, QualityAnalysis.loop_body, chip_positions.
  intros -> ->. reflexivity.
Qed.

Lemma run_no_fitmask (imglist : list (chip num)) (st : locals num) (c : chip num) :
  In c imglist ->
  is_reference c = false ->
  fitmask (meta_fit_info c) = None ->
  exists e, run st imglist = Raise e.
Proof.
  revert st. induction imglist as [|c' rest IH]; intros st Hin Href Hmask.
  - destruct Hin.
  - simpl. destruct (loop_body st c') as [st1|e] eqn:E; simpl; [|eauto].
    destruct Hin as [->|Hin].
    + rewrite loop_body_no_fitmask in E by assumption. discriminate E.
    + apply IH; assumption.
Qed.

(** X5.  One chip of a failed fit spoils the whole result: if any chip of
    the list is not a REFERENCE chip and its fit record has no 'fitmask'
    entry, the engine raises and returns no record at all, whatever the
    fits of the other chips. *)
Theorem failed_fit_raises (imglist : list (chip num)) (c : chip num) :
  In c imglist ->
  is_reference c = false ->
  fitmask (meta_fit_info c) = None ->
  exists e, extract_residuals imglist = Raise e.
Proof.
  intros Hin Href Hmask. unfold QualityAnalysis.extract_residuals.
  destruct (run_no_fitmask imglist initial c Hin Href Hmask) as [e ->].
  exists e. reflexivity.
Qed.

(** *** The world buffers *)

Lemma concatenate_twice (b : refbuf num) (a1 a2 : list num) :
  np_concatenate (np_concatenate b a1) a2 = np_concatenate b (a1 ++ a2).
Proof. destruct b; simpl; [reflexivity|]. rewrite app_assoc. reflexivity. Qed.

Lemma loop_body_buffers (st st' : locals num) (c : chip num) :
  loop_body st c = Ok st' ->
  if is_reference c then
    ref_ra st' = np_concatenate (ref_ra st)
                   (List.map fst (List.map (fun p => det_to_world c (fst p) (snd p))
                                    (meta_catalog c)))
    /\ ref_dec st' = np_concatenate (ref_dec st)
                       (List.map snd (List.map (fun p => det_to_world c (fst p) (snd p))
                                        (meta_catalog c)))
  else ref_ra st' = ref_ra st /\ ref_dec st' = ref_dec st.
Proof.
  intros H. destruct (is_reference c) eqn:E.
  - unfold is_reference in E. unfold QualityAnalysis.loop_body in H.
    rewrite E in H. apply bind_ok in H as (gd & _ & H).
    unfold transform in H. rewrite split_map, combine_fst_snd in H.
    injection H as <-. simpl.
    destruct (init_group_buffers st c) as [-> ->]. auto.
  - apply loop_body_image in H
      as (? & ? & ? & ? & ? & ? & ? & _ & _ & _ & _ & Hra & Hdec & _); auto.
Qed.

Lemma reference_world_none (imglist : list (chip num)) :
  existsb is_reference imglist = false -> reference_world imglist = [].
Proof.
  induction imglist as [|c rest IH]; simpl; [reflexivity|].
  destruct (is_reference c); simpl; [discriminate|exact IH].
Qed.

Lemma run_buffers (imglist : list (chip num)) (st st' : locals num) :
  run st imglist = Ok st' ->
  if existsb is_reference imglist then
    ref_ra st' = np_concatenate (ref_ra st) (List.map fst (reference_world imglist))
    /\ ref_dec st' = np_concatenate (ref_dec st) (List.map snd (reference_world imglist))
  else ref_ra st' = ref_ra st /\ ref_dec st' = ref_dec st.
Proof.
  revert st. induction imglist as [|c rest IH]; simpl; intros st H.
  - injection H as <-. auto.
  - apply bind_ok in H as (st1 & H1 & H).
    specialize (IH _ H). apply loop_body_buffers in H1.
    destruct (is_reference c); simpl.
    + destruct H1 as [Hra Hdec]. rewrite !List.map_app.
      destruct (existsb is_reference rest) eqn:Hrest.
      * destruct IH as [-> ->]. rewrite Hra, Hdec, !concatenate_twice. auto.
      * destruct IH as [-> ->].
        rewrite (reference_world_none rest Hrest).
        simpl. rewrite !app_nil_r. auto.
    + destruct H1 as [Hra Hdec]. destruct (existsb is_reference rest).
      * destruct IH as [-> ->]. rewrite Hra, Hdec. auto.
      * destruct IH as [-> ->]. auto.
Qed.

(** X6.  After a successful call the world buffers hold the world
    coordinates of the REFERENCE chips' catalogs, in list order: image
    chips never add a position to look up. *)
Theorem world_buffers (imglist : list (chip num)) (st : locals num) :
  run initial imglist = Ok st ->
  existsb is_reference imglist = true ->
  holds (ref_ra st) (List.map fst (reference_world imglist))
  /\ holds (ref_dec st) (List.map snd (reference_world imglist)).
Proof.
  intros H Hex. apply run_buffers in H. rewrite Hex in H.
  unfold holds. destruct H as [-> ->]. simpl. auto.
Qed.

(** *** The caller *)

Variable extract_point_sources : string -> list (list (num * num)).
Variable build_wcscat : string -> Z -> list (list (num * num)) -> list (chip num).
Variable align_wcs : list (chip num) -> res (list (chip num)).

Local Abbreviation determine :=
  (determine_alignment_residuals sub sigma_clipped_std
     extract_point_sources build_wcscat align_wcs).

Lemma fold_max_above (vs : list Z) (v bound : Z) :
  bound < fold_left Z.max vs v <-> bound < v \/ exists w, In w vs /\ bound < w.
Proof.
  revert v. induction vs as [|w ws IH]; simpl; intros v.
  - split; [auto|]. intros [H|(w & [] & _)]; exact H.
  - rewrite IH. split.
    + intros [H|(u & Hu & H)].
      * destruct (Z.max_spec v w) as [[_ E]|[_ E]]; rewrite E in H; eauto.
      * eauto.
    + intros [H|(u & [<-|Hu] & H)]; [left; lia|left; lia|eauto].
Qed.

Lemma py_max_above (vs : list Z) (m bound : Z) :
  py_max vs = Ok m -> (bound < m <-> exists w, In w vs /\ bound < w).
Proof.
  destruct vs as [|v vs]; simpl; [discriminate|]. intros H. injection H as <-.
  rewrite fold_max_above. split.
  - intros [H|(w & Hw & H)]; eauto.
  - intros (w & [<-|Hw] & H); eauto.
Qed.

(** X7.  The fit routine is called exactly when one of the input files
    alone has more than three sources, summed over its chips; the sources
    of different files are never added up. *)
Theorem matching_attempted_iff (input : string) (files : list string) :
  matching_attempted (fst (determine input files)) = true
  <-> exists f, In f files /\ 3 < count_sources (extract_point_sources f).
Proof.
  unfold determine_alignment_residuals.
  destruct (py_max _) as [m|e] eqn:Hmax.
  - pose proof (py_max_above _ _ 3 Hmax) as Hiff.
    assert (Hfiles : 3 < m <->
              exists f, In f files /\ 3 < count_sources (extract_point_sources f)).
    { rewrite Hiff. split.
      - intros (w & Hw & H). apply in_map_iff in Hw as (cats & <- & Hw).
        apply in_map_iff in Hw as (f & <- & Hf). eauto.
      - intros (f & Hf & H). eexists. split; [|exact H].
        apply in_map, in_map, Hf. }
    rewrite <- Hfiles. destruct (Z.leb_spec m 3) as [Hle|Hgt].
    + simpl. split; [discriminate|lia].
    + split; [intros _; exact Hgt|intros _].
      destruct (align_wcs _) as [imglist'|e]; [|reflexivity].
      destruct (existsb is_success imglist'); [|reflexivity].
      destruct (extract_residuals imglist'); reflexivity.
  - simpl. split; [discriminate|]. intros (f & Hf & _).
    destruct files as [|f0 fs]; [destruct Hf|discriminate Hmax].
Qed.

(** X8.  A JSON file is written exactly when the call returns a file
    name, and then under that name: a call that returns None or raises
    leaves no file behind. *)
Theorem dump_iff_name (input : string) (files : list string) (path : string) :
  (exists resids,
      In (JsonDump path resids)
        (fst (determine_alignment_residuals sub sigma_clipped_std
                extract_point_sources build_wcscat align_wcs input files)))
  <-> snd (determine_alignment_residuals sub sigma_clipped_std
             extract_point_sources build_wcscat align_wcs input files)
      = Ok (Some path).
Proof.
  unfold determine_alignment_residuals.
  destruct (py_max _) as [m|e];
    [|simpl; split; [intros (? & [])|discriminate]].
  destruct (m <=? 3); [simpl; split; [intros (? & [])|discriminate]|].
  destruct (align_wcs _) as [imglist'|e]; simpl;
    [|split; [intros (? & [H|[]]); discriminate H|discriminate]].
  destruct (existsb is_success imglist') eqn:Hs; simpl;
    [|split; [intros (? & [H|[]]); discriminate H|discriminate]].
  destruct (extract_residuals imglist') as [d|e] eqn:Hd; simpl;
    [|split; [intros (? & [H|[]]); discriminate H|discriminate]].
  split.
  - intros (resids & [H|[H|[]]]); [discriminate H|]. injection H as <- _.
    reflexivity.
  - intros H. injection H as <-. exists d. auto.
Qed.

(** X9.  One failed fit among successful ones aborts the report: when the
    aligned list has a chip of status SUCCESS and another chip that is not
    a REFERENCE and has no 'fitmask' entry, the call raises after the fit
    and writes no file. *)
Theorem failed_chip_no_report (input : string) (files : list string) (m : Z)
    (imglist' : list (chip num)) (c : chip num) :
  py_max (List.map count_sources (List.map extract_point_sources files)) = Ok m ->
  3 < m ->
  align_wcs (build_imglist build_wcscat 0 files
               (List.map extract_point_sources files)) = Ok imglist' ->
  existsb is_success imglist' = true ->
  In c imglist' ->
  is_reference c = false ->
  fitmask (meta_fit_info c) = None ->
  exists imglist e,
    determine input files = ([AlignWcs imglist], Raise e).
Proof.
  intros Hmax Hm Halign Hs Hin Href Hmask.
  unfold determine_alignment_residuals. rewrite Hmax.
  replace (m <=? 3) with false by (symmetry; apply Z.leb_gt; exact Hm).
  rewrite Halign, Hs.
  destruct (run_no_fitmask imglist' initial c Hin Href Hmask) as [e He].
  unfold QualityAnalysis.extract_residuals. rewrite He. simpl. eauto.
Qed.


End Facts.

Import RationalModel Samples MoreSamples.

Lemma result_keys_witness :
  dom (group_dict (after two_chip_exposure)) = names_of two_chip_exposure.
Proof.
  apply (result_keys qsub sigma_clipped_std two_chip_exposure).
  vm_compute. reflexivity.
Defined.

Lemma records_typed_witness :
  typed (default (new_record 0) (record_after uneven_exposure "c_flt.fits")).
Proof.
  apply (records_typed qsub sigma_clipped_std uneven_exposure
           (group_dict (after uneven_exposure)) (KStr "c_flt.fits")).
  - vm_compute. reflexivity.
  - vm_compute. reflexivity.
Defined.

Lemma records_aligned_witness :
  aligned (default (new_record 0) (record_after two_chip_exposure "b_flt.fits")).
Proof.
  apply (records_aligned qsub sigma_clipped_std two_chip_exposure
           (group_dict (after two_chip_exposure)) (KStr "b_flt.fits")).
  - vm_compute. reflexivity.
  - vm_compute. reflexivity.
Defined.

Lemma image_first_raises_witness :
  exists e, extract (b_chip1 :: [ref_chip]) = Raise e.
Proof.
  apply (image_first_raises qsub sigma_clipped_std b_chip1 [ref_chip]).
  reflexivity.
Defined.

Lemma failed_fit_raises_witness :
  exists e, extract [ref_chip; b_chip1; failed_chip] = Raise e.
Proof.
  apply (failed_fit_raises qsub sigma_clipped_std
           [ref_chip; b_chip1; failed_chip] failed_chip).
  - simpl. auto.
  - reflexivity.
  - reflexivity.
Defined.

Lemma failed_chip_no_report_witness :
  exists imglist e,
    determine_alignment_residuals qsub sigma_clipped_std
      four_sources one_chip_per_file fit_second_fails "ib4606010_asn.fits"
      ["a_flt.fits"; "b_flt.fits"; "f_flt.fits"]
    = ([AlignWcs imglist], Raise e).
Proof.
  apply (failed_chip_no_report qsub sigma_clipped_std
           four_sources one_chip_per_file fit_second_fails "ib4606010_asn.fits"
           ["a_flt.fits"; "b_flt.fits"; "f_flt.fits"] 4
           [ref_chip; b_chip1; failed_chip] failed_chip).
  - reflexivity.
  - lia.
  - reflexivity.
  - reflexivity.
  - simpl. auto.
  - reflexivity.
  - reflexivity.
Defined.

Lemma world_buffers_witness :
  holds (ref_ra (after [scenario_A; scenario_B; ref_chip]))
    (List.map fst (reference_world [scenario_A; scenario_B; ref_chip]))
  /\ holds (ref_dec (after [scenario_A; scenario_B; ref_chip]))
       (List.map snd (reference_world [scenario_A; scenario_B; ref_chip])).
Proof.
  apply (world_buffers qsub sigma_clipped_std [scenario_A; scenario_B; ref_chip]).
  - vm_compute. reflexivity.
  - reflexivity.
Defined.

End EngineMoreFacts.

(** ** Facts about the plots *)

Module PlotFacts.

Import QualityAnalysis EngineSpec EngineMore Plots EngineFacts EngineMoreFacts.

Lemma split_nonempty (sep : ascii) (s : string) : PyStr.split sep s <> [].
Proof.
  destruct s as [|c rest]; simpl; [discriminate|].
  destruct (Ascii.eqb c sep); [discriminate|].
  destruct (PyStr.split sep rest); discriminate.
Qed.

Lemma first_token (sep : ascii) (s : string) :
  exists tok, PyStr.nth_item (PyStr.split sep s) 0 = Ok tok.
Proof.
  pose proof (split_nonempty sep s) as H.
  destruct (PyStr.split sep s) as [|tok toks]; [congruence|].
  exists tok. reflexivity.
Qed.

Section Facts.
Context {num : Type}.
Variable make_vector_plot : plot_call num -> res unit.
Variable json_load : string -> res (list (string * group_rec num)).

Local Abbreviation plot_entry := (plot_entry make_vector_plot).
Local Abbreviation plot_loop := (plot_loop make_vector_plot).
Local Abbreviation generate_plots := (generate_plots make_vector_plot json_load).

Lemma plot_entry_numbered (fig_id : Z) (fname : string) (d : group_rec num) :
  numbered fig_id (fst (plot_entry fig_id fname d))
  /\ forall fig_id', snd (plot_entry fig_id fname d) = Ok fig_id' ->
       fig_id' = fig_id + Z.of_nat (length (fst (plot_entry fig_id fname d)))
       /\ Z.even (fig_id' - fig_id) = true.
Proof.
  unfold Plots.plot_entry, numbered.
  assert (Hsame : Z.even (fig_id - fig_id) = true) by (rewrite Z.sub_diag; reflexivity).
  assert (Hnext : Z.even (fig_id + 1 - fig_id) = false)
    by (replace (fig_id + 1 - fig_id) with 1 by lia; reflexivity).
  assert (Hboth : Z.even (fig_id + 1 + 1 - fig_id) = true)
    by (replace (fig_id + 1 + 1 - fig_id) with 2 by lia; reflexivity).
  assert (Hone : forall c : plot_call num, figure_id c = fig_id ->
            List.map figure_id [c] = seqZ fig_id (Z.of_nat 1)).
  { intros c Hc. simpl. rewrite Hc. reflexivity. }
  assert (Htwo : forall c1 c2 : plot_call num,
            figure_id c1 = fig_id -> figure_id c2 = fig_id + 1 ->
            List.map figure_id [c1; c2] = seqZ fig_id (Z.of_nat 2)).
  { intros c1 c2 H1 H2. simpl. rewrite H1, H2. unfold seqZ. simpl.
    f_equal. f_equal. lia. }
  set (P := fun (calls : list (plot_call num)) (r : res Z) =>
              (List.map figure_id calls = seqZ fig_id (Z.of_nat (length calls))
               /\ Forall (fun c => vector c = Z.even (figure_id c - fig_id)) calls)
              /\ forall fig_id', r = Ok fig_id' ->
                   fig_id' = fig_id + Z.of_nat (length calls)
                   /\ Z.even (fig_id' - fig_id) = true).
  assert (Hnone : forall e, P [] (Raise e)).
  { intros e. split; [split; [reflexivity|constructor]|discriminate]. }
  assert (Hskip : P [] (Ok fig_id)).
  { split; [split; [reflexivity|constructor]|].
    intros ? H. injection H as <-. split; [simpl; lia|exact Hsame]. }
  assert (Hentry : P (fst (Plots.plot_entry make_vector_plot fig_id fname d))
                     (snd (Plots.plot_entry make_vector_plot fig_id fname d))).
  { unfold Plots.plot_entry.
    destruct (type d) as [[|]|]; [exact Hskip| |].
    all: destruct (PyStr.nth_item _ 0) as [rootname|e]; [|apply Hnone].
    all: destruct (params d) as [p|]; [|apply Hnone].
    all: destruct (make_vector_plot _) as [[]|e];
      [|split; [split; [apply Hone; reflexivity|repeat constructor; simpl; auto]
               |discriminate]].
    all: destruct (make_vector_plot _) as [[]|e];
      (split; [split; [apply Htwo; reflexivity|repeat constructor; simpl; auto]|]);
      try discriminate.
    all: intros ? H; injection H as <-; split; [simpl; lia|exact Hboth]. }
  exact Hentry.
Qed.

Lemma numbered_app (fig_id : Z) (calls calls' : list (plot_call num)) :
  numbered fig_id calls ->
  Z.even (Z.of_nat (length calls)) = true ->
  numbered (fig_id + Z.of_nat (length calls)) calls' ->
  numbered fig_id (calls ++ calls').
Proof.
  intros [Hids Hvec] Heven [Hids' Hvec']. split.
  - rewrite List.map_app, List.length_app, Nat2Z.inj_add, seqZ_app by lia.
    rewrite Hids, Hids'. reflexivity.
  - apply Forall_app. split; [exact Hvec|].
    eapply Forall_impl; [exact Hvec'|]. intros c ->.
    replace (figure_id c - fig_id)
      with (figure_id c - (fig_id + Z.of_nat (length calls)) + Z.of_nat (length calls))
      by lia.
    rewrite Z.even_add, Heven.
    generalize (Z.even (figure_id c - (fig_id + Z.of_nat (length calls)))).
    intros []; reflexivity.
Qed.

Lemma plot_loop_numbered (json_data : list (string * group_rec num)) (fig_id : Z) :
  numbered fig_id (fst (plot_loop fig_id json_data)).
Proof.
  revert fig_id. induction json_data as [|[fname d] rest IH]; intros fig_id.
  - split; [reflexivity|constructor].
  - simpl. destruct (plot_entry_numbered fig_id fname d) as [Hnum Hnext].
    destruct (Plots.plot_entry make_vector_plot fig_id fname d) as [calls [fig_id'|e]];
      simpl in *; [|exact Hnum].
    destruct (Hnext _ eq_refl) as [-> Heven]. specialize (IH (fig_id + Z.of_nat (length calls))).
    destruct (Plots.plot_loop make_vector_plot _ rest) as [calls' r]. simpl in *.
    apply numbered_app; [exact Hnum| |exact IH].
    replace (Z.of_nat (length calls)) with (fig_id + Z.of_nat (length calls) - fig_id) by lia.
    exact Heven.
Qed.

(** X10.  Whatever the input and however the run ends, the calls of the
    plotting routine carry the figure numbers 0, 1, 2, ... in order, the
    vector plots on the even numbers and the residual plots on the odd
    ones. *)
Theorem figures_numbered (json_data : string + list (string * group_rec num)) :
  let calls := fst (generate_plots json_data) in
  List.map figure_id calls = seqZ 0 (Z.of_nat (length calls))
  /\ Forall (fun c => vector c = Z.even (figure_id c)) calls.
Proof.
  assert (H : numbered 0 (fst (generate_plots json_data))).
  { unfold Plots.generate_plots. destruct json_data as [path|d].
    - destruct (json_load path) as [d|e]; [apply plot_loop_numbered|].
      split; [reflexivity|constructor].
    - apply plot_loop_numbered. }
  destruct H as [Hids Hvec]. split; [exact Hids|].
  eapply Forall_impl; [exact Hvec|]. intros c ->. rewrite Z.sub_0_r. reflexivity.
Qed.

(** *** Plots of a result of the engine *)

Lemma plot_entry_typed (fig_id : Z) (fname : string) (d : group_rec num) :
  (forall c, make_vector_plot c = Ok tt) ->
  typed d ->
  exists calls,
    plot_entry fig_id fname d = (calls, Ok (fig_id + Z.of_nat (length calls)))
    /\ length calls = (if plotted d then 2 else 0)%nat.
Proof.
  intros Hplot Ht. unfold Plots.plot_entry, plotted.
  destruct Ht as [(-> & _)|(-> & [p ->] & _)].
  - exists []. split; [|reflexivity]. simpl. f_equal. f_equal. lia.
  - destruct (first_token "_" fname) as [tok ->]. rewrite !Hplot.
    eexists. split;
      [apply (f_equal2 pair); [reflexivity|simpl; f_equal; lia]|reflexivity].
Qed.

Lemma plot_loop_typed (json_data : list (string * group_rec num)) (fig_id : Z) :
  (forall c, make_vector_plot c = Ok tt) ->
  Forall (fun kv => typed (snd kv)) json_data ->
  exists calls,
    plot_loop fig_id json_data = (calls, Ok tt)
    /\ length calls
       = (2 * length (List.filter (fun kv => plotted (snd kv)) json_data))%nat.
Proof.
  intros Hplot. revert fig_id.
  induction json_data as [|[fname d] rest IH]; intros fig_id Hall.
  - exists []. split; reflexivity.
  - inversion Hall as [|? ? Hd Hrest]; subst. simpl in Hd.
    destruct (plot_entry_typed fig_id fname d Hplot Hd) as (calls & He & Hlen).
    destruct (IH (fig_id + Z.of_nat (length calls)) Hrest) as (calls' & Hl & Hlen').
    exists (calls ++ calls'). simpl. rewrite He, Hl. split; [reflexivity|].
    rewrite List.length_app, Hlen, Hlen'. destruct (plotted d); simpl; lia.
Qed.

(** X11.  Plotting a result of the engine never fails for want of a key:
    with a plotting routine that returns, every entry of the result that
    is not a REFERENCE yields its two plots and the run ends normally. *)
Theorem result_is_plotted (sub : num -> num -> num)
    (sigma_clipped_std : list num -> num) (imglist : list (chip num))
    (d : gmap pykey (group_rec num)) (items : list (string * group_rec num)) :
  extract_residuals sub sigma_clipped_std imglist = Ok d ->
  view_of d items ->
  (forall c, make_vector_plot c = Ok tt) ->
  exists calls,
    generate_plots (inr items) = (calls, Ok tt)
    /\ length calls
       = (2 * length (List.filter (fun kv => plotted (snd kv)) items))%nat.
Proof.
  intros Hd Hview Hplot. unfold Plots.generate_plots.
  apply plot_loop_typed; [exact Hplot|].
  eapply Forall_impl; [exact Hview|]. intros [k r] Hk. simpl in *.
  exact (proj1 (extract_well_formed sub sigma_clipped_std _ _ Hd _ _ Hk)).
Qed.

(** X12.  An entry that is not a REFERENCE and has no 'nmatches' stops
    the run with a KeyError, after the plots of the entries before it and
    before any plot of its own; the entries after it are not plotted. *)
Theorem entry_without_nmatches_raises
    (before after : list (string * group_rec num))
    (fname : string) (d : group_rec num) :
  (forall c, make_vector_plot c = Ok tt) ->
  Forall (fun kv => typed (snd kv)) before ->
  plotted d = true ->
  params d = None ->
  exists calls,
    generate_plots (inr (before ++ (fname, d) :: after))
      = (calls, Raise (KeyError "nmatches"))
    /\ length calls
       = (2 * length (List.filter (fun kv => plotted (snd kv)) before))%nat.
Proof.
  intros Hplot Hall Ht Hp. unfold Plots.generate_plots.
  generalize 0 as fig_id. induction before as [|[k r] rest IH]; intros fig_id.
  - exists []. split; [|reflexivity]. simpl. unfold Plots.plot_entry.
    rewrite Hp. destruct (first_token "_" fname) as [tok ->].
    unfold plotted in Ht. destruct (type d) as [[|]|]; [discriminate Ht| |];
      reflexivity.
  - inversion Hall as [|? ? Hr Hrest]; subst. simpl in Hr.
    destruct (plot_entry_typed fig_id k r Hplot Hr) as (calls & He & Hlen).
    destruct (IH Hrest (fig_id + Z.of_nat (length calls))) as (calls' & Hl & Hlen').
    exists (calls ++ calls'). simpl. rewrite He, Hl. split; [reflexivity|].
    rewrite List.length_app, Hlen, Hlen'. destruct (plotted r); simpl; lia.
Qed.

End Facts.

Import RationalModel Samples MoreSamples PlotSamples.

Lemma result_is_plotted_witness :
  exists calls,
    generate_plots always_plots no_file (inr two_chip_items) = (calls, Ok tt)
    /\ length calls
       = (2 * length (List.filter (fun kv => plotted (snd kv)) two_chip_items))%nat.
Proof.
  apply (result_is_plotted always_plots no_file qsub sigma_clipped_std
           two_chip_exposure (group_dict (after two_chip_exposure)) two_chip_items).
  - vm_compute. reflexivity.
  - repeat constructor.
  - reflexivity.
Defined.

Lemma entry_without_nmatches_raises_witness :
  exists calls,
    generate_plots always_plots no_file
      (inr (two_chip_items ++ ("g_flt.fits", new_record 3) :: two_chip_items))
      = (calls, Raise (KeyError "nmatches"))
    /\ length calls
       = (2 * length (List.filter (fun kv => plotted (snd kv)) two_chip_items))%nat.
Proof.
  apply (entry_without_nmatches_raises always_plots no_file
           two_chip_items two_chip_items "g_flt.fits" (new_record 3)).
  - reflexivity.
  - constructor; [left; vm_compute; auto|].
    constructor; [right; vm_compute; eauto 10|constructor].
  - reflexivity.
  - reflexivity.
Defined.

End PlotFacts.

(** ** Facts about the artifacts of the catalog comparisons *)

Module SvmMoreFacts.

Import SvmQualityAnalysis SvmSpec SvmMore SvmFacts.

(** *** Strings *)

Lemma split_length (sep : ascii) (s : string) :
  length (PyStr.split sep s) = S (count sep s).
Proof.
  induction s as [|c rest IH]; simpl; [reflexivity|].
  destruct (Ascii.eqb c sep); simpl; [rewrite IH; reflexivity|].
  destruct (PyStr.split sep rest) as [|tok toks]; simpl in *; [discriminate IH|].
  exact IH.
Qed.

Lemma substring_none (n : nat) (s : string) : String.substring n 0 s = EmptyString.
Proof.
  revert n. induction s as [|c rest IH]; intros [|n]; simpl; auto.
Qed.

Lemma substring_app_l (s t p : string) (n m : nat) :
  String.substring n m s = p -> String.length p = m ->
  String.substring n m (s ++ t) = p.
Proof.
  revert n m p. induction s as [|c rest IH]; intros n m p H Hlen.
  - assert (p = EmptyString) as -> by (destruct n, m; simpl in H; congruence).
    simpl in Hlen. subst m. apply substring_none.
  - destruct n as [|n].
    + destruct m as [|m]; simpl in *; [exact H|].
      destruct p as [|c' p]; [discriminate H|]. injection H as <- H.
      simpl in Hlen. injection Hlen as Hlen.
      change (String c (String.substring 0 m (rest ++ t)) = String c p).
      rewrite (IH 0%nat m p H Hlen). reflexivity.
    + simpl in *. apply (IH n m p H Hlen).
Qed.

(** What a string contains, it still contains with a suffix added. *)
Lemma contains_app (p s t : string) :
  p <> EmptyString -> PyStr.contains p s = true -> PyStr.contains p (s ++ t) = true.
Proof.
  intros Hp. unfold PyStr.contains, PyStr.find.
  destruct (String.index 0 p s) as [n|] eqn:E; [intros _|discriminate].
  destruct (String.index 0 p (s ++ t)) as [m|] eqn:E'; [reflexivity|].
  exfalso. apply String.index_correct1 in E.
  apply (String.index_correct3 0 n p (s ++ t) E' Hp); [lia|].
  apply substring_app_l; [exact E|reflexivity].
Qed.

Section Facts.
Context {num : Type}.

Local Abbreviation io := (SvmQualityAnalysis.io num).

(** *** Artifacts of composed computations *)

Lemma silent_lift {A : Type} (r : res A) : silent (@lift num A r).
Proof. reflexivity. Qed.

Lemma silent_log (lvl : level) (t : string) (a : list arg) :
  silent (@log num lvl t a).
Proof. reflexivity. Qed.

Lemma silent_ret {A : Type} (a : A) : silent (@io_ret num A a).
Proof. reflexivity. Qed.

Lemma io_bind_out {A B : Type} (m : io A) (k : A -> io B) :
  fst (io_bind m k)
  = fst m ++ match snd m with Ok a => fst (k a) | Raise _ => [] end.
Proof.
  destruct m as [o [a|e]]; unfold io_bind; simpl.
  - destruct (k a); reflexivity.
  - rewrite app_nil_r. reflexivity.
Qed.

Lemma io_bind_res {A B : Type} (m : io A) (k : A -> io B) :
  snd (io_bind m k) = match snd m with Ok a => snd (k a) | Raise e => Raise e end.
Proof.
  destruct m as [o [a|e]]; unfold io_bind; simpl; [|reflexivity].
  destruct (k a); reflexivity.
Qed.

Lemma sources_app (o1 o2 : list (effect num)) :
  artifact_sources (o1 ++ o2) = artifact_sources o1 ++ artifact_sources o2.
Proof. unfold artifact_sources. rewrite written_app, List.map_app. reflexivity. Qed.

Lemma bind_out {A B : Type} (m : io A) (k : A -> io B) :
  fst (m ≫= k)
  = fst m ++ match snd m with Ok a => fst (k a) | Raise _ => [] end.
Proof.
  destruct m as [o [a|e]]; unfold mbind, io_mbind, io_bind; simpl.
  - destruct (k a); reflexivity.
  - rewrite app_nil_r. reflexivity.
Qed.

Lemma bind_res {A B : Type} (m : io A) (k : A -> io B) :
  snd (m ≫= k) = match snd m with Ok a => snd (k a) | Raise e => Raise e end.
Proof.
  destruct m as [o [a|e]]; unfold mbind, io_mbind, io_bind; simpl; [|reflexivity].
  destruct (k a); reflexivity.
Qed.

Lemma silent_bind {A B : Type} (m : io A) (k : A -> io B) :
  silent m -> (forall a, snd m = Ok a -> silent (k a)) -> silent (m ≫= k).
Proof.
  unfold silent. intros Hm Hk. rewrite bind_out, written_app, Hm.
  destruct (snd m) as [a|e]; [exact (Hk a eq_refl)|reflexivity].
Qed.

Lemma silent_for_each {A : Type} (body : A -> io unit) (l : list A) :
  (forall a, silent (body a)) -> silent (for_each body l).
Proof. intros H. apply for_each_logs. exact H. Qed.

Lemma silent_fold_io {A S : Type} (body : S -> A -> io S) (l : list A) (s : S) :
  (forall s a, silent (body s a)) -> silent (fold_io body l s).
Proof.
  intros Hb. revert s. induction l as [|a rest IH]; intros s; [reflexivity|].
  simpl. apply (silent_bind (body s a)); [apply Hb|]. intros s' _. apply IH.
Qed.

(** A silent prefix leaves the artifacts of what follows as they are. *)
Lemma bind_after_silent {A B : Type} (m : io A) (k : A -> io B) (f : string) :
  silent m ->
  (forall a, snd m = Ok a -> writes_once f (k a) \/ (silent (k a) /\ raises (k a))) ->
  writes_once f (m ≫= k) \/ (silent (m ≫= k) /\ raises (m ≫= k)).
Proof.
  unfold silent, writes_once, raises, artifact_sources. intros Hm Hk.
  rewrite bind_out, bind_res, written_app, Hm.
  destruct (snd m) as [a|e]; [exact (Hk a eq_refl)|right; eauto].
Qed.

Lemma bind_after_silent_weak {A B : Type} (m : io A) (k : A -> io B) (f : string) :
  silent m ->
  (forall a, snd m = Ok a -> writes_once f (k a) \/ silent (k a)) ->
  writes_once f (m ≫= k) \/ silent (m ≫= k).
Proof.
  unfold silent, writes_once, artifact_sources. intros Hm Hk.
  rewrite bind_out, bind_res, written_app, Hm.
  destruct (snd m) as [a|e]; [exact (Hk a eq_refl)|right; reflexivity].
Qed.

(** *** compare_num_sources *)

Variable open_lines : string -> option (list string).
Variable py_int : string -> option Z.

Local Abbreviation count_catalog := (@count_catalog num open_lines py_int).
Local Abbreviation num_sources_product :=
  (@num_sources_product num open_lines py_int).
Local Abbreviation compare_num_sources :=
  (@compare_num_sources num open_lines py_int).

Lemma silent_read_num_sources (catalog : string) (lines : list string) :
  silent (@read_num_sources num catalog lines).
Proof.
  destruct (read_num_sources_returns (num:=num) catalog lines) as (out & n & -> & H).
  exact H.
Qed.

Lemma silent_count_catalog (catalog_list : list string)
    (sd : list (string * json num)) (catalog : string) :
  silent (count_catalog catalog_list sd catalog).
Proof.
  unfold SvmQualityAnalysis.count_catalog.
  destruct (does_exist catalog catalog_list); [|apply silent_ret].
  apply silent_bind; [apply silent_lift|]. intros file _.
  apply silent_bind; [apply silent_read_num_sources|]. intros n _.
  apply silent_bind; [apply silent_lift|]. intros z _. apply silent_ret.
Qed.

Lemma num_sources_product_writes (catalog_list : list string) (drizzle_file : string) :
  writes_once drizzle_file (num_sources_product catalog_list drizzle_file)
  \/ (silent (num_sources_product catalog_list drizzle_file)
      /\ raises (num_sources_product catalog_list drizzle_file)).
Proof.
  unfold SvmQualityAnalysis.num_sources_product.
  apply bind_after_silent; [apply silent_lift|]. intros detector _.
  apply bind_after_silent; [apply silent_lift|]. intros ipppss _.
  apply bind_after_silent;
    [apply silent_fold_io; intros; apply silent_count_catalog|].
  intros sources_dict _. left. split; [reflexivity|]. exists tt. reflexivity.
Qed.

Lemma for_each_artifacts (body : string -> io unit) (l : list string) :
  (forall f, writes_once f (body f) \/ (silent (body f) /\ raises (body f))) ->
  artifact_sources (fst (for_each body l)) `prefix_of` l
  /\ (snd (for_each body l) = Ok tt
      <-> artifact_sources (fst (for_each body l)) = l).
Proof.
  intros Hb. induction l as [|f rest [IHp IHr]]; simpl.
  - split; [reflexivity|]. split; reflexivity.
  - rewrite io_bind_out, io_bind_res, sources_app.
    destruct (Hb f) as [[Hsrc [[] Hok]]|[Hs [e He]]].
    + rewrite Hsrc, Hok. simpl. split.
      * apply prefix_cons. exact IHp.
      * split; intros H.
        -- apply IHr in H. rewrite H. reflexivity.
        -- apply IHr. congruence.
    + rewrite He. unfold silent in Hs. unfold artifact_sources.
      rewrite Hs. simpl. split; [apply prefix_nil|]. split; discriminate.
Qed.

(** X13.  compare_num_sources writes its artifacts in the order of the
    list of drizzle files, one for each product up to the first product
    at which it raises, and it returns normally exactly when every
    product has its artifact. *)
Theorem num_sources_artifacts (catalog_list drizzle_list : list string) :
  artifact_sources (fst (compare_num_sources catalog_list drizzle_list))
    `prefix_of` drizzle_list
  /\ (snd (compare_num_sources catalog_list drizzle_list) = Ok tt
      <-> artifact_sources (fst (compare_num_sources catalog_list drizzle_list))
          = drizzle_list).
Proof.
  unfold SvmQualityAnalysis.compare_num_sources.
  apply for_each_artifacts. intros f. apply num_sources_product_writes.
Qed.

Lemma for_each_app {A : Type} (body : A -> io unit) (l1 l2 : list A) :
  for_each body (l1 ++ l2) = io_bind (for_each body l1) (fun _ => for_each body l2).
Proof.
  induction l1 as [|a rest IH]; simpl.
  - destruct (for_each body l2); reflexivity.
  - rewrite IH. destruct (body a) as [o1 [[]|e]]; simpl; [|reflexivity].
    destruct (for_each body rest) as [o2 [[]|e]]; simpl.
    + destruct (for_each body l2) as [o3 r]. rewrite app_assoc. reflexivity.
    + reflexivity.
Qed.

Lemma short_name_raises (catalog_list : list string) (drizzle_file : string) :
  (count "_" drizzle_file < 6)%nat ->
  num_sources_product catalog_list drizzle_file = ([], Raise IndexError).
Proof.
  intros Hc. unfold SvmQualityAnalysis.num_sources_product.
  pose proof (split_length "_" drizzle_file) as Hlen.
  unfold PyStr.nth_item. rewrite (lookup_ge_None_2 _ 6) by lia.
  destruct (PyStr.split "_" drizzle_file !! 4%nat) as [detector|]; reflexivity.
Qed.

(** X14.  A drizzle file name with fewer than six underscores stops
    compare_num_sources with an IndexError: the products before it keep
    their artifacts, the product itself and the products after it get
    none. *)
Theorem short_name_aborts (catalog_list before rest : list string)
    (drizzle_file : string) (out : list (effect num)) :
  (count "_" drizzle_file < 6)%nat ->
  compare_num_sources catalog_list before = (out, Ok tt) ->
  compare_num_sources catalog_list (before ++ drizzle_file :: rest)
    = (out, Raise IndexError).
Proof.
  intros Hc Hb. unfold SvmQualityAnalysis.compare_num_sources in *.
  rewrite for_each_app, Hb. simpl.
  rewrite (short_name_raises catalog_list drizzle_file Hc). simpl.
  rewrite app_nil_r. reflexivity.
Qed.

Lemma dict_get_set_ne (k k' : string) (v : json num) (d : list (string * json num)) :
  k <> k' -> dict_get k (dict_set k' v d) = dict_get k d.
Proof.
  intros Hne. induction d as [|[k0 v0] rest IH]; simpl.
  - destruct (String.eqb_spec k' k); [congruence|reflexivity].
  - destruct (String.eqb_spec k0 k'); simpl.
    + subst k0. destruct (String.eqb_spec k' k); [congruence|reflexivity].
    + destruct (String.eqb_spec k0 k); [reflexivity|exact IH].
Qed.

Lemma count_catalog_other (catalog_list : list string)
    (sd sd' : list (string * json num)) (catalog cat_type : string)
    (out : list (effect num)) :
  count_catalog catalog_list sd catalog = (out, Ok sd') ->
  cat_type <> cat_type_of catalog ->
  dict_get cat_type sd' = dict_get cat_type sd.
Proof.
  unfold SvmQualityAnalysis.count_catalog. intros H Hne.
  destruct (does_exist catalog catalog_list).
  - apply io_bind_ok in H as (o1 & file & o2 & _ & H & _).
    apply io_bind_ok in H as (o3 & n & o4 & _ & H & _).
    apply io_bind_ok in H as (o5 & z & o6 & _ & H & _).
    injection H as _ <-. apply dict_get_set_ne. exact Hne.
  - injection H as _ <-. reflexivity.
Qed.

Lemma dict_get_set_eq (k : string) (v : json num) (d : list (string * json num)) :
  dict_get k (dict_set k v d) = Some v.
Proof.
  induction d as [|[k0 v0] rest IH]; simpl.
  - rewrite String.eqb_refl. reflexivity.
  - destruct (String.eqb_spec k0 k) as [->|Hne]; simpl.
    + rewrite String.eqb_refl. reflexivity.
    + destruct (String.eqb_spec k0 k); [congruence|exact IH].
Qed.

(** X15.  The type of a catalog is read off its whole name: when the part
    of the drizzle file name before its last underscore contains 'point',
    the segment catalog is counted as a point catalog.  If it is listed
    and reports a number, the artifact records that number under 'point',
    whatever the point catalog holds, and 0 under 'segment'. *)
Theorem segment_count_lost (catalog_list : list string) (drizzle_file : string)
    (out o : list (effect num)) (lines : list string) (n : Z + string) (z : Z) :
  PyStr.contains "point" (prefix_of_name drizzle_file) = true ->
  does_exist (prefix_of_name drizzle_file ++ seg_suffix)%string catalog_list = true ->
  open_lines (prefix_of_name drizzle_file ++ seg_suffix)%string = Some lines ->
  read_num_sources (prefix_of_name drizzle_file ++ seg_suffix)%string lines
    = (o, Ok n) ->
  to_int py_int n = Ok z ->
  num_sources_product catalog_list drizzle_file = (out, Ok tt) ->
  exists path d,
    written out = [(path, d)]
    /\ recorded d "segment" = Some (JInt 0)
    /\ recorded d "point" = Some (JInt z).
Proof.
  intros Hpoint Hlisted Hopen Hread Hint H.
  unfold SvmQualityAnalysis.num_sources_product in H.
  apply io_bind_ok in H as (o1 & detector & o2 & Hd & H & ->).
  apply lift_ok in Hd as [_ ->].
  apply io_bind_ok in H as (o3 & ipppss & o4 & Hi & H & ->).
  apply lift_ok in Hi as [_ ->].
  apply io_bind_ok in H as (o5 & sd & o6 & Hfold & H & ->).
  injection H as <-.
  unfold cat_names_of in Hfold. fold (prefix_of_name drizzle_file) in Hfold.
  simpl in Hfold.
  apply io_bind_ok in Hfold as (p1 & sd1 & p2 & Hc1 & Hfold & ->).
  apply io_bind_ok in Hfold as (p3 & sd2 & p4 & Hc2 & Hfold & ->).
  injection Hfold as <- <-.
  assert (Hseg : cat_type_of (prefix_of_name drizzle_file ++ seg_suffix) = "point").
  { unfold cat_type_of. rewrite contains_app; [reflexivity|discriminate|exact Hpoint]. }
  assert (Hs1 : silent (count_catalog catalog_list
                  [("detector", JStr detector); ("point", JInt 0); ("segment", JInt 0)]
                  (prefix_of_name drizzle_file ++ pnt_suffix)%string))
    by apply silent_count_catalog.
  assert (Hs2 : silent (count_catalog catalog_list sd1
                  (prefix_of_name drizzle_file ++ seg_suffix)%string))
    by apply silent_count_catalog.
  unfold silent in Hs1, Hs2. rewrite Hc1 in Hs1. rewrite Hc2 in Hs2. simpl in Hs1, Hs2.
  assert (Hsd2 : sd2 = dict_set "point" (JInt z) sd1).
  { unfold SvmQualityAnalysis.count_catalog, py_open in Hc2.
    rewrite Hlisted, Hopen in Hc2. cbn in Hc2. rewrite Hread in Hc2. cbn in Hc2.
    rewrite Hint in Hc2. cbn in Hc2. rewrite Hseg in Hc2.
    injection Hc2 as _ <-. reflexivity. }
  eexists. eexists. split; [|split].
  - simpl. rewrite !written_app, Hs1, Hs2. simpl. reflexivity.
  - unfold recorded. simpl.
    rewrite (count_catalog_other _ _ _ _ "segment" _ Hc2) by (rewrite Hseg; discriminate).
    rewrite (count_catalog_other _ _ _ _ "segment" _ Hc1)
      by (rewrite point_catalog_type; discriminate).
    reflexivity.
  - unfold recorded. simpl. rewrite Hsd2. apply dict_get_set_eq.
Qed.

(** *** compare_photometry *)

Variable is_missing : num -> bool.
Variable as_int : num -> Z.
Variable getMatchedLists :
  list string -> list string -> list Z -> res (list Z * list Z).
Variable np_mean np_median np_std : list num -> num.
Variable sub : num -> num -> num.
Variable fsqrt : num -> num.
Variable fadd : num -> num -> num.
Variable fsquare : num -> num.
Variable catalogs : string -> option (table num).

Local Abbreviation photometry_product :=
  (photometry_product num is_missing as_int getMatchedLists
     np_mean np_median np_std sub fsqrt fadd fsquare catalogs).
Local Abbreviation compare_photometry :=
  (compare_photometry num is_missing as_int getMatchedLists
     np_mean np_median np_std sub fsqrt fadd fsquare catalogs).
Local Abbreviation phot_step :=
  (phot_step num np_mean np_median np_std sub fsqrt fadd fsquare).

Lemma silent_phot_step (tp ts : table num) (mp ms : list Z) (mask : list bool)
    (st : list (string * json num) * diagnostic num) (item : nat * string) :
  silent (phot_step tp ts mp ms mask st item).
Proof.
  unfold SvmQualityAnalysis.phot_step.
  apply silent_bind; [apply silent_lift|]. intros v _. apply silent_ret.
Qed.

(** The loop over the magnitude columns keeps the header of the
    diagnostic object. *)
Lemma fold_phot_source (tp ts : table num) (mp ms : list Z) (mask : list bool)
    (items : list (nat * string)) (st st' : list (string * json num) * diagnostic num) :
  snd (fold_io (phot_step tp ts mp ms mask) items st) = Ok st' ->
  diag_source (snd st') = diag_source (snd st).
Proof.
  revert st. induction items as [|item rest IH]; intros st; simpl.
  - intros H. injection H as <-. reflexivity.
  - rewrite io_bind_res.
    destruct (snd (phot_step tp ts mp ms mask st item)) as [st1|e] eqn:E;
      [|discriminate].
    intros H. rewrite (IH _ H).
    unfold SvmQualityAnalysis.phot_step in E. rewrite bind_res in E.
    destruct (snd (lift _)) as [v|e]; [|discriminate E].
    injection E as <-. reflexivity.
Qed.

Lemma photometry_product_writes (drizzle_file : string) :
  writes_once drizzle_file (photometry_product drizzle_file)
  \/ silent (photometry_product drizzle_file).
Proof.
  unfold SvmQualityAnalysis.photometry_product.
  apply bind_after_silent_weak; [apply silent_lift|]. intros detector _.
  apply bind_after_silent_weak; [apply silent_lift|]. intros filter_name _.
  apply bind_after_silent_weak; [apply silent_lift|]. intros ipppss _.
  apply bind_after_silent_weak.
  { apply silent_for_each. intros catalog.
    destruct (negb _); [|apply silent_ret].
    apply silent_bind; [apply silent_log|]. intros _ _. apply silent_log. }
  intros _ _.
  do 8 (apply bind_after_silent_weak; [apply silent_lift|]; intros ? _).
  apply bind_after_silent_weak; [apply silent_lift|]. intros [mp ms] _.
  destruct (_ || _).
  - right. apply silent_bind; [apply silent_log|]. intros _ _. apply silent_log.
  - apply bind_after_silent_weak; [apply silent_lift|]. intros missing _.
    apply bind_after_silent_weak; [apply silent_lift|]. intros flags _.
    apply bind_after_silent_weak.
    { apply silent_fold_io. intros. apply silent_phot_step. }
    intros [sd d] Hfold. apply fold_phot_source in Hfold. simpl in Hfold.
    left. split; [|exists tt; reflexivity].
    unfold artifact_sources. simpl. rewrite Hfold. reflexivity.
Qed.

Lemma for_each_sublist (body : string -> io unit) (l : list string) :
  (forall f, writes_once f (body f) \/ silent (body f)) ->
  artifact_sources (fst (for_each body l)) `sublist_of` l.
Proof.
  intros Hb. induction l as [|f rest IH]; simpl; [constructor|].
  rewrite io_bind_out, sources_app.
  assert (Hrest : artifact_sources
            match snd (body f) with
            | Ok _ => fst (for_each body rest)
            | Raise _ => []
            end `sublist_of` rest).
  { destruct (snd (body f)); [exact IH|apply sublist_nil_l]. }
  destruct (Hb f) as [[Hsrc _]|Hs].
  - rewrite Hsrc. simpl. apply sublist_skip. exact Hrest.
  - unfold silent in Hs. unfold artifact_sources at 1. rewrite Hs. simpl.
    apply sublist_cons. exact Hrest.
Qed.

(** X16.  compare_photometry writes at most one artifact for a product
    and writes the artifacts in the order of the list of drizzle files:
    the products named by the artifacts form a sub-sequence of the
    list. *)
Theorem photometry_artifacts (drizzle_list : list string) :
  artifact_sources (fst (compare_photometry drizzle_list))
    `sublist_of` drizzle_list.
Proof.
  unfold SvmQualityAnalysis.compare_photometry.
  apply for_each_sublist. intros f. apply photometry_product_writes.
Qed.

(** X17.  A product whose catalogs have no cross-matched source is
    skipped by compare_photometry: two warnings are logged, no artifact is
    written for it, and the loop goes on with the products after it. *)
Theorem unmatched_product_skipped (drizzle_file : string) (rest : list string)
    (tp0 tp1 tp ts0 ts1 ts : table num) (mp ms : list Z) :
  (7 <= length (PyStr.split "_" drizzle_file))%nat ->
  catalogs (prefix_of_name drizzle_file ++ pnt_suffix)%string = Some tp0 ->
  catalogs (prefix_of_name drizzle_file ++ seg_suffix)%string = Some ts0 ->
  rename_column "X-Center" "X" tp0 = Ok tp1 ->
  rename_column "Y-Center" "Y" tp1 = Ok tp ->
  rename_column "X-Centroid" "X" ts0 = Ok ts1 ->
  rename_column "Y-Centroid" "Y" ts1 = Ok ts ->
  getMatchedLists
    [(prefix_of_name drizzle_file ++ pnt_suffix)%string;
     (prefix_of_name drizzle_file ++ seg_suffix)%string]
    [drizzle_file; drizzle_file] [table_len tp; table_len ts] = Ok (mp, ms) ->
  mp = [] \/ ms = [] ->
  exists out,
    photometry_product drizzle_file = (out, Ok tt)
    /\ written out = []
    /\ In (WARNING, "Catalog {} and Catalog {} had no matching sources.") (logged out)
    /\ compare_photometry (drizzle_file :: rest)
       = (out ++ fst (compare_photometry rest), snd (compare_photometry rest)).
Proof.
  intros Hlen Hp Hs Hr1 Hr2 Hr3 Hr4 Hmatch Hzero.
  assert (Hprod : exists out,
            photometry_product drizzle_file = (out, Ok tt)
            /\ written out = []
            /\ In (WARNING, "Catalog {} and Catalog {} had no matching sources.")
                 (logged out)).
  { unfold SvmQualityAnalysis.photometry_product.
    destruct (nth_item_ok (PyStr.split "_" drizzle_file) 4 ltac:(lia)) as [detector ->].
    destruct (nth_item_ok (PyStr.split "_" drizzle_file) 5 ltac:(lia)) as [filter_name ->].
    destruct (nth_item_ok (PyStr.split "_" drizzle_file) 6 ltac:(lia)) as [ipppss ->].
    unfold cat_names_of. fold (prefix_of_name drizzle_file).
    unfold isfile, ascii_read. cbn. rewrite Hp, Hs. cbn.
    rewrite Hr1. cbn. rewrite Hr2. cbn. rewrite Hr3. cbn. rewrite Hr4. cbn.
    rewrite Hmatch. cbn.
    replace ((len mp =? 0) || (len ms =? 0)) with true
      by (destruct Hzero as [-> | ->]; cbn; [reflexivity | symmetry; apply orb_true_r]).
    cbn. eexists. split; [reflexivity|]. split; [reflexivity|]. cbn. auto. }
  destruct Hprod as (out & Hprod & Hw & Hl). exists out.
  split; [exact Hprod|]. split; [exact Hw|]. split; [exact Hl|].
  unfold SvmQualityAnalysis.compare_photometry. cbn [for_each].
  rewrite Hprod. unfold io_bind. destruct (for_each _ rest). reflexivity.
Qed.

(** *** compare_ra_dec_crossmatches *)

Variable np_min np_max : list num -> num.
Variable sigma_clipped_stats : Z -> Z -> list num -> num * num * num.
Variable slFiles2dataTables : list string -> res (table num * table num).
Variable radesys : string -> string.
Variable icrs : string -> list num * list num -> list num * list num.
Variable separation_arcsec : list num * list num -> list num * list num -> list num.

Local Abbreviation compare_ra_dec_crossmatches :=
  (compare_ra_dec_crossmatches num is_missing as_int getMatchedLists
     np_min np_max np_mean np_median np_std sigma_clipped_stats
     slFiles2dataTables radesys icrs separation_arcsec).

Lemma bind_at_most {A B : Type} (m : io A) (k : A -> io B) (path f : string) :
  silent m ->
  (forall a, snd m = Ok a -> writes_at_most path f (k a)) ->
  writes_at_most path f (m ≫= k).
Proof.
  unfold silent, writes_at_most. intros Hm Hk.
  rewrite bind_out, bind_res, written_app, Hm.
  destruct (snd m) as [a|e]; [exact (Hk a eq_refl)|left; reflexivity].
Qed.

(** X18.  compare_ra_dec_crossmatches writes at most one file, and only
    when it returns normally: the file is named after the drizzle file
    name without its last nine characters, and its header names the
    drizzle file. *)
Theorem crossmatch_artifact (hap_obj : hap_product) :
  writes_at_most
    (PyStr.drop_end 9 (drizzle_filename hap_obj)
       ++ "_svm_point_segment_crossmatch.json")%string
    (drizzle_filename hap_obj)
    (compare_ra_dec_crossmatches hap_obj).
Proof.
  unfold SvmQualityAnalysis.compare_ra_dec_crossmatches.
  apply bind_at_most; [apply silent_lift|]. intros [point_data seg_data] _.
  do 4 (apply bind_at_most; [apply silent_log|]; intros _ _).
  apply bind_at_most.
  { apply silent_for_each. intros c. apply silent_log. }
  intros _ _.
  apply bind_at_most; [apply silent_log|]. intros _ _.
  apply bind_at_most; [apply silent_lift|]. intros point_ra _.
  apply bind_at_most; [apply silent_lift|]. intros seg_ra _.
  apply bind_at_most; [apply silent_lift|]. intros [ref img] _.
  apply bind_at_most; [apply silent_log|]. intros _ _.
  apply bind_at_most; [apply silent_lift|]. intros point_ratio _.
  apply bind_at_most; [apply silent_log|]. intros _ _.
  apply bind_at_most; [apply silent_lift|]. intros seg_ratio _.
  apply bind_at_most; [apply silent_log|]. intros _ _.
  destruct (_ || _); [left; reflexivity|].
  apply bind_at_most; [apply silent_lift|]. intros missing _.
  apply bind_at_most; [apply silent_lift|]. intros flags _.
  apply bind_at_most; [apply silent_lift|]. intros ra _.
  apply bind_at_most; [apply silent_lift|]. intros dec _.
  destruct (_ && _); [|left; reflexivity].
  right. eexists. split; [reflexivity|]. split; [reflexivity|].
  exists tt. reflexivity.
Qed.

End Facts.

Import RationalModel SvmSamples SvmMoreSamples.

Lemma short_name_aborts_witness :
  compare_num_sources lines_of parse_int listed_catalogs
    ([total_product] ++ "ib4606_drz.fits" :: [total_product])
  = (fst (num_sources listed_catalogs [total_product]), Raise IndexError).
Proof.
  apply (short_name_aborts lines_of parse_int listed_catalogs
           [total_product] [total_product] "ib4606_drz.fits").
  - vm_compute. lia.
  - reflexivity.
Defined.

Lemma segment_count_lost_witness :
  exists path d,
    written (fst (pointing_num_sources pointing_catalogs [pointing_product]))
      = [(path, d)]
    /\ recorded d "segment" = Some (JInt 0)
    /\ recorded d "point" = Some (JInt 25).
Proof.
  apply (segment_count_lost pointing_lines parse_int pointing_catalogs
           pointing_product
           (fst (pointing_num_sources pointing_catalogs [pointing_product]))
           [Log INFO "Catalog: {} Number of sources: {}."
              [AStr pointing_segment_catalog; AStr "25"]]
           ["# %ECSV 0.9"; "# Number of sources: 25."; "X-Centroid Y-Centroid"]
           (inr "25") 25).
  - reflexivity.
  - reflexivity.
  - reflexivity.
  - reflexivity.
  - reflexivity.
  - reflexivity.
Defined.


Lemma unmatched_product_skipped_witness :
  exists out,
    unmatched_photometry_of f160w_product = (out, Ok tt)
    /\ written out = []
    /\ In (WARNING, "Catalog {} and Catalog {} had no matching sources.") (logged out)
    /\ unmatched_photometry (f160w_product :: [f160w_product])
       = (out ++ fst (unmatched_photometry [f160w_product]),
          snd (unmatched_photometry [f160w_product])).
Proof.
  apply (unmatched_product_skipped sentinel flag_of match_nothing
           qmean qmedian qstd qsub qsqrt qadd qsquare catalog_files
           f160w_product [f160w_product]
           point_table
           (default [] (match rename_column "X-Center" "X" point_table with
                        | Ok t => Some t | Raise _ => None end))
           (default [] (match rename_column "X-Center" "X" point_table
                                ≫= rename_column "Y-Center" "Y" with
                        | Ok t => Some t | Raise _ => None end))
           segment_table
           (default [] (match rename_column "X-Centroid" "X" segment_table with
                        | Ok t => Some t | Raise _ => None end))
           (default [] (match rename_column "X-Centroid" "X" segment_table
                                ≫= rename_column "Y-Centroid" "Y" with
                        | Ok t => Some t | Raise _ => None end))
           [] []).
  - vm_compute. lia.
  - reflexivity.
  - reflexivity.
  - reflexivity.
  - reflexivity.
  - reflexivity.
  - reflexivity.
  - reflexivity.
  - left. reflexivity.
Defined.

End SvmMoreFacts.

(** ** Facts about the GAIA routines *)

Module GaiaFacts.

Import SvmQualityAnalysis SvmMore Gaia SvmMoreFacts.

(** *** Splitting what was joined *)

Lemma split_token (sep : ascii) (tok : string) :
  count sep tok = 0%nat -> PyStr.split sep tok = [tok].
Proof.
  induction tok as [|c rest IH]; simpl; [reflexivity|].
  destruct (Ascii.eqb c sep); [discriminate|]. intros H.
  rewrite (IH H). reflexivity.
Qed.

Lemma split_token_app (sep : ascii) (tok rest : string) :
  count sep tok = 0%nat ->
  PyStr.split sep (tok ++ String sep rest) = tok :: PyStr.split sep rest.
Proof.
  induction tok as [|c tok IH]; intros H.
  - simpl. rewrite Ascii.eqb_refl. reflexivity.
  - simpl in H. destruct (Ascii.eqb c sep) eqn:E; [discriminate|].
    change (String c tok ++ String sep rest)%string
      with (String c (tok ++ String sep rest)).
    simpl. rewrite E, (IH H). reflexivity.
Qed.

Lemma split_join (sep : ascii) (toks : list string) :
  toks <> [] ->
  Forall (fun tok => count sep tok = 0%nat) toks ->
  PyStr.split sep (PyStr.join (String sep EmptyString) toks) = toks.
Proof.
  unfold PyStr.join. induction toks as [|tok rest IH]; [congruence|].
  intros _ Hall. inversion Hall as [|? ? Htok Hrest]; subst.
  destruct rest as [|tok' rest].
  - simpl. apply split_token. exact Htok.
  - change (String.concat (String sep EmptyString) (tok :: tok' :: rest))
      with (tok ++ String sep EmptyString
                ++ String.concat (String sep EmptyString) (tok' :: rest))%string.
    change (String sep EmptyString ++ ?s)%string with (String sep s).
    rewrite split_token_app by exact Htok.
    rewrite IH by (congruence || exact Hrest). reflexivity.
Qed.

(** X19.  From an info string of the documented structure, fields that
    hold no underscore joined by underscores, the image name is the fifth
    and the sixth field joined by an underscore: the name of an input
    file with exactly one underscore is recovered. *)
Theorem imgname_of_fields (fields : list string) (root ext : string) :
  Forall (fun tok => count "_" tok = 0%nat) fields ->
  fields !! 4%nat = Some root ->
  fields !! 5%nat = Some ext ->
  imgname_of (PyStr.join "_" fields) = Ok (root ++ "_" ++ ext)%string.
Proof.
  intros Hall H4 H5. unfold imgname_of.
  rewrite split_join; [|intros ->; discriminate H4|exact Hall].
  unfold PyStr.nth_item. rewrite H4, H5. reflexivity.
Qed.

(** *** The points handed to the tree *)

Lemma rows_of_length {A : Type} (rows cols : nat) (flat : list A) :
  length (rows_of rows cols flat) = rows.
Proof.
  revert flat. induction rows as [|r IH]; intros flat; simpl; [reflexivity|].
  rewrite IH. reflexivity.
Qed.

Lemma rows_of_lookup {A : Type} (rows cols i : nat) (flat : list A) :
  (i < rows)%nat ->
  rows_of rows cols flat !! i = Some (firstn cols (skipn (i * cols) flat)).
Proof.
  revert i flat. induction rows as [|r IH]; intros i flat Hi; [lia|].
  destruct i as [|i]; simpl; [reflexivity|].
  rewrite IH by lia. rewrite drop_drop. reflexivity.
Qed.

Lemma pair_at {A : Type} (l : list A) (n : nat) (a b : A) :
  l !! n = Some a -> l !! S n = Some b -> firstn 2 (skipn n l) = [a; b].
Proof.
  revert l. induction n as [|n IH]; intros l Ha Hb.
  - destruct l as [|a' [|b' l]]; simpl in *; try discriminate.
    injection Ha as ->. injection Hb as ->. reflexivity.
  - destruct l as [|c l]; [discriminate Ha|]. simpl. apply IH; assumption.
Qed.

(** X20.  The points of the nearest-neighbour search are cut from the
    buffer that holds all X values followed by all Y values: the point
    number i is made of the values number 2i and 2i+1 of that buffer, so
    as long as these fall among the X values it pairs two X values of
    different sources, and never the X and the Y value of one source. *)
Theorem points_pair_consecutive_values {A : Type} (x y : list A) :
  length x = length y ->
  exists xys,
    xys_of x y = Ok xys
    /\ length xys = length x
    /\ forall (i : nat) (a b : A),
         x !! (2 * i)%nat = Some a -> x !! (2 * i + 1)%nat = Some b ->
         xys !! i = Some [a; b].
Proof.
  intros Hlen. unfold xys_of, np_array2. rewrite Hlen, Nat.eqb_refl. simpl.
  unfold reshape. rewrite List.length_app.
  replace (length y * 2 =? length x + length y)%nat with true
    by (symmetry; apply Nat.eqb_eq; lia).
  eexists. split; [reflexivity|]. split; [apply rows_of_length; lia|].
  intros i a b Ha Hb.
  assert (Hi : (2 * i + 1 < length x)%nat) by (apply lookup_lt_Some in Hb; exact Hb).
  rewrite rows_of_lookup by lia. f_equal.
  replace (i * 2)%nat with (2 * i)%nat by lia. apply pair_at.
  - apply lookup_app_l_Some. exact Ha.
  - replace (S (2 * i)) with (2 * i + 1)%nat by lia.
    apply lookup_app_l_Some. exact Hb.
Qed.

(** *** Files written by the GAIA routines *)

Section Facts.
Context {num wcs image : Type}.
Variable create_astrometric_catalog : list string -> res (table num).
Variable hstwcs_ext : string -> Z -> res wcs.
Variable hstwcs : string -> res wcs.
Variable all_world2pix : wcs -> list num -> list num -> res (list num * list num).
Variable crpix : wcs -> nat -> num.
Variable weight_image : string -> res image.
Variable within_footprint : image -> wcs -> list num -> list num -> list bool.
Variable np_mean np_std np_min np_max : list num -> num.
Variable sub : num -> num -> num.
Variable kdtree_query : list (list num) -> Z -> res (list (list num)).

Local Abbreviation act := (Gaia.act num).
Local Abbreviation generate_gaia_catalog :=
  (generate_gaia_catalog num wcs image create_astrometric_catalog hstwcs_ext
     all_world2pix weight_image within_footprint).
Local Abbreviation characterize_gaia_distribution :=
  (characterize_gaia_distribution num wcs image create_astrometric_catalog
     hstwcs_ext hstwcs all_world2pix crpix weight_image within_footprint
     np_mean np_std np_min np_max sub kdtree_query).

Lemma json_writes_app (o1 o2 : list (event num)) :
  json_writes (o1 ++ o2) = json_writes o1 ++ json_writes o2.
Proof. unfold json_writes. apply omap_app. Qed.

Lemma act_bind_out {A B : Type} (m : act A) (k : A -> act B) :
  fst (m ≫= k)
  = fst m ++ match snd m with Ok a => fst (k a) | Raise _ => [] end.
Proof.
  destruct m as [o [a|e]]; unfold mbind, act_mbind, act_bind; simpl.
  - destruct (k a); reflexivity.
  - rewrite app_nil_r. reflexivity.
Qed.

Lemma act_bind_res {A B : Type} (m : act A) (k : A -> act B) :
  snd (m ≫= k) = match snd m with Ok a => snd (k a) | Raise e => Raise e end.
Proof.
  destruct m as [o [a|e]]; unfold mbind, act_mbind, act_bind; simpl; [|reflexivity].
  destruct (k a); reflexivity.
Qed.

(** A computation that writes no JSON file. *)
Lemma no_json_bind {A B : Type} (m : act A) (k : A -> act B) :
  json_writes (fst m) = [] ->
  (forall a, snd m = Ok a -> json_writes (fst (k a)) = []) ->
  json_writes (fst (m ≫= k)) = [].
Proof.
  intros Hm Hk. rewrite act_bind_out, json_writes_app, Hm.
  destruct (snd m) as [a|e]; [exact (Hk a eq_refl)|reflexivity].
Qed.

Lemma no_json_gather (infos img_list : list string) :
  json_writes (fst (@gather num infos img_list)) = [].
Proof.
  revert img_list. induction infos as [|i rest IH]; intros img_list; [reflexivity|].
  cbn [gather]. apply no_json_bind; [reflexivity|]. intros imgname _.
  apply no_json_bind; [reflexivity|]. intros _ _. apply IH.
Qed.

Lemma no_json_generate (hap_obj : product) (columns_to_remove : option (list string)) :
  json_writes (fst (generate_gaia_catalog hap_obj columns_to_remove)) = [].
Proof.
  unfold Gaia.generate_gaia_catalog.
  apply no_json_bind; [reflexivity|]. intros _ _.
  apply no_json_bind; [destruct (edp_list hap_obj); apply no_json_gather|].
  intros img_list _.
  do 5 (apply no_json_bind; [reflexivity|]; intros ? _).
  apply no_json_bind; [reflexivity|]. intros [x y] _.
  do 2 (apply no_json_bind; [reflexivity|]; intros ? _).
  apply no_json_bind; [|reflexivity].
  destruct (_ =? 0); [reflexivity|]. destruct (_ =? 1); reflexivity.
Qed.

Lemma no_json_store (template : string) (args : list (value num)) (key : string)
    (v : num) (out_dict : list (string * json num)) :
  json_writes (fst (store num template args key v out_dict)) = [].
Proof. reflexivity. Qed.

Lemma no_json_store_axes (item_value : list num) (item_title : string)
    (out_dict : list (string * json num)) :
  json_writes (fst (store_axes num item_value item_title out_dict)) = [].
Proof.
  unfold store_axes.
  apply no_json_bind; [reflexivity|]. intros vx _.
  apply no_json_bind; [apply no_json_store|]. intros d _.
  apply no_json_bind; [reflexivity|]. intros vy _. apply no_json_store.
Qed.

Lemma store_axes_returns (a b : num) (item_title : string)
    (out_dict : list (string * json num)) :
  exists d, snd (store_axes num [a; b] item_title out_dict) = Ok d.
Proof. eexists. reflexivity. Qed.

Lemma fail_bind {A B : Type} (m : act A) (k : A -> act B) :
  json_writes (fst m) = [] ->
  (forall a, snd m = Ok a ->
             (exists e, snd (k a) = Raise e) /\ json_writes (fst (k a)) = []) ->
  (exists e, snd (m ≫= k) = Raise e) /\ json_writes (fst (m ≫= k)) = [].
Proof.
  intros Hm Hk. rewrite act_bind_out, act_bind_res, json_writes_app, Hm.
  destruct (snd m) as [a|e]; [exact (Hk a eq_refl)|]. split; [eauto|reflexivity].
Qed.

(** X21.  Without a GAIA source in the footprint the distribution cannot
    be characterized: the routine raises, at the latest when it takes the
    minimum of no distance, and writes no JSON file. *)
Theorem no_sources_no_characterization (hap_obj : product) (log_level : Z)
    (out : list (event num)) (gaia_table : table num) :
  generate_gaia_catalog hap_obj (Some ["mag"; "objID"; "GaiaID"])
    = (out, Ok gaia_table) ->
  column "RA" gaia_table = Ok [] ->
  column "DEC" gaia_table = Ok [] ->
  (forall w x y, all_world2pix w [] [] = Ok (x, y) -> x = [] /\ y = []) ->
  (forall rows, kdtree_query [] 2 = Ok rows -> rows = []) ->
  (exists e, snd (characterize_gaia_distribution hap_obj log_level) = Raise e)
  /\ json_writes (fst (characterize_gaia_distribution hap_obj log_level)) = [].
Proof.
  intros Hgen Hra Hdec Hpix Htree.
  unfold Gaia.characterize_gaia_distribution.
  apply fail_bind; [apply no_json_generate|]. intros t Ht.
  rewrite Hgen in Ht. injection Ht as <-.
  apply fail_bind; [destruct (log_level <=? DEBUG); reflexivity|]. intros _ _.
  apply fail_bind; [reflexivity|]. intros outwcs _.
  apply fail_bind; [reflexivity|]. intros ra Hra'.
  simpl in Hra'. rewrite Hra in Hra'. injection Hra' as <-.
  apply fail_bind; [reflexivity|]. intros dec Hdec'.
  simpl in Hdec'. rewrite Hdec in Hdec'. injection Hdec' as <-.
  apply fail_bind; [reflexivity|]. intros [x y] Hxy.
  simpl in Hxy. apply Hpix in Hxy as [-> ->].
  apply fail_bind; [reflexivity|]. intros xys Hxys.
  simpl in Hxys. injection Hxys as <-.
  apply fail_bind; [reflexivity|]. intros neighborhood Hnb.
  simpl in Hnb. apply Htree in Hnb as ->.
  apply fail_bind; [reflexivity|]. intros min_seps Hms.
  simpl in Hms. injection Hms as <-.
  do 3 (apply fail_bind; [apply no_json_store_axes|]; intros ? _).
  split; [eexists; reflexivity|reflexivity].
Qed.

End Facts.

Import RationalModel GaiaSamples.

Lemma imgname_of_fields_witness :
  imgname_of
    (PyStr.join "_"
       ["10265"; "01"; "acs"; "wfc"; "j92c01b9q"; "flc.fits"; "f606w"; "drc"])
  = Ok ("j92c01b9q" ++ "_" ++ "flc.fits")%string.
Proof.
  apply (imgname_of_fields
           ["10265"; "01"; "acs"; "wfc"; "j92c01b9q"; "flc.fits"; "f606w"; "drc"]
           "j92c01b9q" "flc.fits").
  - repeat constructor.
  - reflexivity.
  - reflexivity.
Defined.

Lemma points_pair_consecutive_values_witness :
  exists xys,
    xys_of [1; 2; 3; 4] [10; 20; 30; 40] = Ok xys
    /\ length xys = length [1; 2; 3; 4]
    /\ forall (i : nat) (a b : Z),
         [1; 2; 3; 4] !! (2 * i)%nat = Some a ->
         [1; 2; 3; 4] !! (2 * i + 1)%nat = Some b ->
         xys !! i = Some [a; b].
Proof.
  apply (points_pair_consecutive_values [1; 2; 3; 4] [10; 20; 30; 40]).
  reflexivity.
Defined.

Lemma no_sources_no_characterization_witness :
  (exists e, snd (characterize lonely_exposure 0) = Raise e)
  /\ json_writes (fst (characterize lonely_exposure 0)) = [].
Proof.
  apply (no_sources_no_characterization no_sources flat_wcs_ext flat_wcs
           flat_world2pix flat_crpix any_weight all_within
           qmean qstd qmin qmax qsub unit_distances lonely_exposure 0
           (fst (generate lonely_exposure (Some ["mag"; "objID"; "GaiaID"])))
           [("RA", []); ("DEC", [])]).
  - reflexivity.
  - reflexivity.
  - reflexivity.
  - intros w x y H. injection H as <- <-. auto.
  - intros rows H. injection H as <-. reflexivity.
Defined.

End GaiaFacts.

(** ** Facts about tweakutils.py *)

Module TweakFacts.

Import Py2 Tweak TweakSpec.

(** *** isfloat *)

Ltac by_cases_on c :=
  destruct c as [[] [] [] [] [] [] [] []]; vm_compute; try reflexivity; try discriminate.

Lemma deleted_mark (c : ascii) :
  contains (String c EmptyString) "-.+e" = float_mark c.
Proof. by_cases_on c. Qed.

Lemma digit_lower (c : ascii) : isdigit_char (tab_lower c) = isdigit_char c.
Proof. by_cases_on c. Qed.

Lemma digit_not_mark (c : ascii) : isdigit_char c = true -> float_mark c = false.
Proof. by_cases_on c. Qed.

Lemma all_digits_translate (value : string) :
  all_digits (translate tab_lower "-.+e" value) = forallb float_char (chars value).
Proof.
  induction value as [|c rest IH]; [reflexivity|].
  cbn [translate chars forallb]. rewrite deleted_mark. unfold float_char at 1.
  destruct (float_mark c) eqn:Hm.
  - rewrite orb_true_r. exact IH.
  - cbn [all_digits]. rewrite digit_lower, IH, orb_false_r. reflexivity.
Qed.

Lemma translate_empty (value : string) :
  match translate tab_lower "-.+e" value with
  | EmptyString => forallb float_mark (chars value) = true
  | String _ _ => forallb float_mark (chars value) = false
  end.
Proof.
  induction value as [|c rest IH]; [reflexivity|].
  cbn [translate chars forallb]. rewrite deleted_mark.
  destruct (float_mark c); [exact IH|reflexivity].
Qed.

Lemma marks_only (l : list ascii) :
  forallb float_char l = true ->
  forallb float_mark l = negb (existsb isdigit_char l).
Proof.
  induction l as [|c rest IH]; [reflexivity|]. cbn [forallb existsb].
  intros H. apply andb_true_iff in H as [Hc Hrest]. rewrite (IH Hrest).
  unfold float_char in Hc. destruct (isdigit_char c) eqn:Hd.
  - rewrite (digit_not_mark c Hd). reflexivity.
  - simpl in Hc. rewrite Hc. reflexivity.
Qed.

(** X22.  isfloat holds exactly of the strings with at least one digit,
    all of whose characters are digits or one of the marks '-', '.', '+'
    and the lower-case 'e': an upper-case exponent mark is refused, and
    the order of the characters does not matter. *)
Theorem isfloat_characters (value : string) :
  isfloat value
  = forallb float_char (chars value) && existsb isdigit_char (chars value).
Proof.
  unfold isfloat, isdigit.
  pose proof (all_digits_translate value) as Hall.
  pose proof (translate_empty value) as Hempty.
  destruct (translate tab_lower "-.+e" value) as [|c rest].
  - destruct (forallb float_char (chars value)) eqn:Hf; [|reflexivity].
    rewrite (marks_only _ Hf) in Hempty.
    destruct (existsb isdigit_char (chars value)); [discriminate Hempty|reflexivity].
  - rewrite Hall. destruct (forallb float_char (chars value)) eqn:Hf; [|reflexivity].
    rewrite (marks_only _ Hf) in Hempty.
    destruct (existsb isdigit_char (chars value)); [reflexivity|discriminate Hempty].
Qed.

(** *** radec_hmstodd *)

Lemma app_cons (c : ascii) (s t : string) :
  (String c s ++ t)%string = String c (s ++ t).
Proof. reflexivity. Qed.

Lemma app_empty_r (s : string) : (s ++ EmptyString)%string = s.
Proof.
  induction s as [|c s IH]; [reflexivity|]. rewrite app_cons, IH. reflexivity.
Qed.

Lemma field_char_parts (c : ascii) :
  field_char c = true ->
  isletter c = false /\ isspace c = false /\ Ascii.eqb c ":" = false.
Proof.
  unfold field_char. intros H.
  apply andb_true_iff in H as [H H3]. apply andb_true_iff in H as [H1 H2].
  repeat split; apply negb_true_iff; assumption.
Qed.

Lemma prefix_space (old s : string) (c : ascii) :
  isspace c = false -> String.prefix (String " " old) (String c s) = false.
Proof.
  intros Hc. cbn [String.prefix]. destruct (ascii_dec " " c) as [<-|_]; [|reflexivity].
  discriminate Hc.
Qed.

Lemma find_colon_none (s : string) :
  forallb field_char (chars s) = true -> find ":" s = None.
Proof.
  unfold find. induction s as [|c s IH]; [reflexivity|].
  cbn [chars forallb]. intros H. apply andb_true_iff in H as [Hc Hs].
  apply field_char_parts in Hc as (_ & _ & Hc).
  cbn [String.index String.prefix].
  destruct (ascii_dec ":" c) as [<-|_]; [discriminate Hc|].
  rewrite (IH Hs). reflexivity.
Qed.

Lemma find_colon_app (s t : string) :
  find ":" t = None -> forallb field_char (chars s) = true ->
  find ":" (s ++ t) = None.
Proof.
  unfold find. intros Ht. induction s as [|c s IH]; [intros _; exact Ht|].
  cbn [chars forallb]. intros H. apply andb_true_iff in H as [Hc Hs].
  apply field_char_parts in Hc as (_ & _ & Hc).
  rewrite app_cons. cbn [String.index String.prefix].
  destruct (ascii_dec ":" c) as [<-|_]; [discriminate Hc|].
  rewrite (IH Hs). reflexivity.
Qed.

Lemma find_colon_other (c : ascii) (t : string) :
  Ascii.eqb c ":" = false -> find ":" t = None -> find ":" (String c t) = None.
Proof.
  unfold find. intros Hc Ht. cbn [String.index String.prefix].
  destruct (ascii_dec ":" c) as [<-|_]; [discriminate Hc|].
  rewrite Ht. reflexivity.
Qed.

Lemma translate_field (s t : string) :
  forallb field_char (chars s) = true ->
  translate hmstrans EmptyString (s ++ t) = (s ++ translate hmstrans EmptyString t)%string.
Proof.
  induction s as [|c s IH]; [reflexivity|].
  cbn [chars forallb]. intros H. apply andb_true_iff in H as [Hc Hs].
  apply field_char_parts in Hc as (Hl & _ & _).
  rewrite !app_cons. cbn [translate].
  replace (contains (String c EmptyString) EmptyString) with false
    by (unfold contains, find; destruct c as [[] [] [] [] [] [] [] []]; reflexivity).
  change (hmstrans c) with (if isletter c then " "%char else c).
  rewrite Hl, (IH Hs). reflexivity.
Qed.

Lemma translate_letter (u : ascii) (t : string) :
  isletter u = true ->
  translate hmstrans EmptyString (String u t)
  = String " " (translate hmstrans EmptyString t).
Proof.
  intros Hu. cbn [translate].
  replace (contains (String u EmptyString) EmptyString) with false
    by (unfold contains, find; destruct u as [[] [] [] [] [] [] [] []]; reflexivity).
  change (hmstrans u) with (if isletter u then " "%char else u).
  rewrite Hu. reflexivity.
Qed.

Lemma translate_space (t : string) :
  translate hmstrans EmptyString (String " " t)
  = String " " (translate hmstrans EmptyString t).
Proof. reflexivity. Qed.

Lemma lstrip_field (s t : string) :
  field s -> lstrip (s ++ t) = (s ++ t)%string.
Proof.
  intros [Hne Hall]. destruct s as [|c s]; [congruence|].
  cbn [chars forallb] in Hall. apply andb_true_iff in Hall as [Hc _].
  apply field_char_parts in Hc as (_ & Hsp & _).
  rewrite app_cons. cbn [lstrip]. rewrite Hsp. reflexivity.
Qed.

Lemma rstrip_field (s t : string) :
  forallb field_char (chars s) = true ->
  rstrip (s ++ t) = (s ++ rstrip t)%string.
Proof.
  induction s as [|c s IH]; [reflexivity|].
  cbn [chars forallb]. intros H. apply andb_true_iff in H as [Hc Hs].
  apply field_char_parts in Hc as (_ & Hsp & _).
  rewrite !app_cons. cbn [rstrip]. rewrite (IH Hs), Hsp.
  destruct (s ++ rstrip t)%string; reflexivity.
Qed.

Lemma rstrip_before (c : ascii) (t : string) :
  rstrip t <> EmptyString -> rstrip (String c t) = String c (rstrip t).
Proof.
  intros H. cbn [rstrip]. destruct (rstrip t); [congruence|reflexivity].
Qed.

Lemma field_app_nonempty (s t : string) : field s -> (s ++ t)%string <> EmptyString.
Proof. intros [Hne _]. destruct s; [congruence|discriminate]. Qed.

Lemma replace_field (old new s t : string) :
  forallb field_char (chars s) = true ->
  replace (String " " old) new (s ++ t)
  = (s ++ replace (String " " old) new t)%string.
Proof.
  unfold replace. induction s as [|c s IH]; [reflexivity|].
  cbn [chars forallb]. intros H. apply andb_true_iff in H as [Hc Hs].
  apply field_char_parts in Hc as (_ & Hsp & _).
  rewrite !app_cons. cbn [replace_from]. rewrite (prefix_space _ _ _ Hsp), (IH Hs).
  reflexivity.
Qed.

Lemma prefix_nil (t : string) : String.prefix EmptyString t = true.
Proof. destruct t; reflexivity. Qed.

Lemma replace_two_spaces (t : string) :
  replace "  " " " (String " " (String " " t)) = String " " (replace "  " " " t).
Proof.
  unfold replace. cbn [replace_from].
  change (String.prefix "  " (String " " (String " " t)))
    with (String.prefix EmptyString t).
  rewrite prefix_nil. reflexivity.
Qed.

Lemma replace_one_of_two (s t : string) :
  field s ->
  replace "  " " " (String " " (s ++ t)) = String " " (replace "  " " " (s ++ t)).
Proof.
  intros [Hne Hall]. destruct s as [|c s]; [congruence|].
  cbn [chars forallb] in Hall. apply andb_true_iff in Hall as [Hc _].
  apply field_char_parts in Hc as (_ & Hsp & _).
  rewrite app_cons. unfold replace. cbn [replace_from String.prefix].
  destruct (ascii_dec " " c) as [<-|_]; [discriminate Hsp|]. reflexivity.
Qed.

Lemma replace_space (t : string) :
  replace " " ":" (String " " t) = String ":" (replace " " ":" t).
Proof.
  unfold replace. cbn [replace_from].
  change (String.prefix " " (String " " t)) with (String.prefix EmptyString t).
  rewrite prefix_nil. reflexivity.
Qed.

Lemma translate_field_end (s : string) :
  forallb field_char (chars s) = true -> translate hmstrans EmptyString s = s.
Proof.
  intros H. rewrite <- (app_empty_r s) at 1. rewrite translate_field by exact H.
  apply app_empty_r.
Qed.

Lemma rstrip_field_end (s : string) :
  forallb field_char (chars s) = true -> rstrip s = s.
Proof.
  intros H. rewrite <- (app_empty_r s) at 1. rewrite rstrip_field by exact H.
  apply app_empty_r.
Qed.

Lemma replace_field_end (old new s : string) :
  forallb field_char (chars s) = true -> replace (String " " old) new s = s.
Proof.
  intros H. rewrite <- (app_empty_r s) at 1. rewrite replace_field by exact H.
  apply app_empty_r.
Qed.

Lemma replace_one_of_two_end (s : string) :
  field s -> replace "  " " " (String " " s) = String " " s.
Proof.
  intros Hs. rewrite <- (app_empty_r s) at 1.
  rewrite (replace_one_of_two s EmptyString Hs), app_empty_r.
  rewrite (replace_field_end " " " " s) by apply Hs. reflexivity.
Qed.

Lemma letter_not_colon (u : ascii) : isletter u = true -> Ascii.eqb u ":" = false.
Proof. by_cases_on u. Qed.

Lemma field_nonempty (s : string) : field s -> s <> EmptyString.
Proof. intros [H _]. exact H. Qed.

(** The last two steps, on fields separated by single blanks. *)
Lemma colons_for_blanks (a b c : string) :
  field a -> field b -> field c ->
  replace " " ":" (replace "  " " " (a ++ String " " (b ++ String " " c)))
  = (a ++ String ":" (b ++ String ":" c))%string.
Proof.
  intros Ha Hb Hc. pose proof Ha as [_ Hfa]. pose proof Hb as [_ Hfb].
  pose proof Hc as [_ Hfc].
  rewrite (replace_field " " " " a) by exact Hfa.
  rewrite (replace_one_of_two b _ Hb), (replace_field " " " " b) by exact Hfb.
  rewrite (replace_one_of_two_end c Hc).
  rewrite (replace_field EmptyString ":" a) by exact Hfa. rewrite replace_space.
  rewrite (replace_field EmptyString ":" b) by exact Hfb. rewrite replace_space.
  rewrite (replace_field_end EmptyString ":" c) by exact Hfc. reflexivity.
Qed.

(** The string of a value given as three fields separated by single
    blanks. *)
Lemma hms_blanks (a b c : string) :
  field a -> field b -> field c ->
  hms_string (AsString (a ++ String " " (b ++ String " " c)))
  = (a ++ String ":" (b ++ String ":" c))%string.
Proof.
  intros Ha Hb Hc. pose proof Ha as [_ Hfa]. pose proof Hb as [_ Hfb].
  pose proof Hc as [_ Hfc]. unfold hms_string.
  rewrite find_colon_app;
    [|apply find_colon_other; [reflexivity|];
      apply find_colon_app; [|exact Hfb];
      apply find_colon_other; [reflexivity|]; apply find_colon_none; exact Hfc
     |exact Hfa].
  rewrite translate_field by exact Hfa. rewrite translate_space.
  rewrite translate_field by exact Hfb. rewrite translate_space.
  rewrite translate_field_end by exact Hfc.
  unfold strip. rewrite lstrip_field by exact Ha.
  rewrite rstrip_field by exact Hfa.
  assert (Hc' : rstrip (String " " c) = String " " c).
  { rewrite rstrip_before; rewrite rstrip_field_end by exact Hfc;
      [reflexivity|apply field_nonempty; exact Hc]. }
  assert (Hb' : rstrip (String " " (b ++ String " " c)) = String " " (b ++ String " " c)).
  { rewrite rstrip_before; rewrite rstrip_field, Hc' by exact Hfb;
      [reflexivity|apply field_app_nonempty; exact Hb]. }
  rewrite Hb'. apply colons_for_blanks; assumption.
Qed.

(** The string of a value whose fields are followed by unit letters. *)
Lemma hms_units (a b c : string) (u1 u2 u3 : ascii) :
  field a -> field b -> field c ->
  isletter u1 = true -> isletter u2 = true -> isletter u3 = true ->
  hms_string
    (AsString (a ++ String u1 (String " " (b ++ String u2 (String " "
                 (c ++ String u3 EmptyString))))))
  = (a ++ String ":" (b ++ String ":" c))%string.
Proof.
  intros Ha Hb Hc H1 H2 H3. pose proof Ha as [_ Hfa]. pose proof Hb as [_ Hfb].
  pose proof Hc as [_ Hfc]. unfold hms_string.
  rewrite find_colon_app;
    [|apply find_colon_other; [apply letter_not_colon; exact H1|];
      apply find_colon_other; [reflexivity|];
      apply find_colon_app; [|exact Hfb];
      apply find_colon_other; [apply letter_not_colon; exact H2|];
      apply find_colon_other; [reflexivity|];
      apply find_colon_app; [|exact Hfc];
      apply find_colon_other; [apply letter_not_colon; exact H3|]; reflexivity
     |exact Hfa].
  rewrite translate_field by exact Hfa.
  rewrite translate_letter by exact H1. rewrite translate_space.
  rewrite translate_field by exact Hfb.
  rewrite translate_letter by exact H2. rewrite translate_space.
  rewrite translate_field by exact Hfc.
  rewrite translate_letter by exact H3. cbn [translate].
  unfold strip. rewrite lstrip_field by exact Ha.
  rewrite rstrip_field by exact Hfa.
  assert (Hc' : rstrip (c ++ String " " EmptyString) = c).
  { rewrite rstrip_field by exact Hfc. cbn [rstrip]. apply app_empty_r. }
  assert (Hc'' : rstrip (String " " (String " " (c ++ String " " EmptyString)))
                 = String " " (String " " c)).
  { rewrite rstrip_before; rewrite rstrip_before; rewrite ?Hc';
      try reflexivity; try (apply field_nonempty; exact Hc). discriminate. }
  assert (Hb' : rstrip (String " " (String " " (b ++ String " " (String " "
                          (c ++ String " " EmptyString)))))
                = String " " (String " " (b ++ String " " (String " " c)))).
  { rewrite rstrip_before; rewrite rstrip_before;
      rewrite ?rstrip_field, ?Hc'' by exact Hfb;
      try reflexivity; try (apply field_app_nonempty; exact Hb). discriminate. }
  rewrite Hb'.
  rewrite (replace_field " " " " a) by exact Hfa. rewrite replace_two_spaces.
  rewrite (replace_field " " " " b) by exact Hfb. rewrite replace_two_spaces.
  rewrite (replace_field_end " " " " c) by exact Hfc.
  rewrite (replace_field EmptyString ":" a) by exact Hfa. rewrite replace_space.
  rewrite (replace_field EmptyString ":" b) by exact Hfb. rewrite replace_space.
  rewrite (replace_field_end EmptyString ":" c) by exact Hfc. reflexivity.
Qed.

Lemma find_colon_some (a t : string) :
  find ":" (a ++ String ":" t) <> None.
Proof.
  pose proof (SvmFacts.contains_infix a ":" t ltac:(discriminate)) as H.
  unfold PyStr.contains, PyStr.find in H. unfold find.
  change (a ++ ":" ++ t)%string with (a ++ String ":" t)%string in H.
  destruct (String.index 0 ":" (a ++ String ":" t)); [discriminate|discriminate H].
Qed.

(** X23.  The documented ways of writing a sexagesimal value, as a list
    of three fields, with colons, with single blanks and with a unit
    letter after each field, reach the position service as one and the
    same text with colons. *)
Theorem documented_formats_agree {num : Type}
    (position_dd : string -> outcome (num * num))
    (a b c : string) (u1 u2 u3 : ascii) (dec : coordinate) :
  field a -> field b -> field c ->
  isletter u1 = true -> isletter u2 = true -> isletter u3 = true ->
  Forall (fun ra =>
            radec_hmstodd num position_dd ra dec
            = position_dd (with_colons a b c ++ " " ++ hms_string dec)%string)
    [AsList [a; b; c]; AsString (with_colons a b c);
     AsString (with_blanks a b c); AsString (with_units a b c u1 u2 u3)].
Proof.
  intros Ha Hb Hc H1 H2 H3. unfold radec_hmstodd.
  repeat constructor.
  - unfold hms_string, with_colons.
    destruct (find ":" (a ++ String ":" (b ++ String ":" c))) eqn:E; [reflexivity|].
    destruct (find_colon_some a (b ++ String ":" c) E).
  - unfold with_blanks. rewrite hms_blanks by assumption. reflexivity.
  - unfold with_units. rewrite hms_units by assumption. reflexivity.
Qed.

(** *** parse_input *)

Section Input.
Variable open_lines : string -> outcome (list string).
Variable readASNTable_order : string -> bool -> outcome (list string).
Variable buildRootname : string -> outcome string.
Variable irafglob : string -> (string -> outcome string) -> outcome (list string).
Variable parseinput : input_spec -> outcome (list string * string).

Local Abbreviation parse_input :=
  (parse_input open_lines readASNTable_order buildRootname irafglob parseinput).

(** X24.  A Python list of names, which the routine announces as an
    accepted input, never comes back: when the parser has returned, the
    test for wild-cards calls a string method on the list and raises. *)
Theorem list_input_raises (l : list string) (prodonly : bool) :
  exists e, parse_input (Names l) prodonly = ([], Throw e).
Proof.
  unfold Tweak.parse_input.
  destruct (parseinput (Names l)) as [[filelist output]|e]; simpl; eauto.
Qed.

(** X25.  Catalogs are returned only for an @-file whose name holds
    neither '_asn' nor '_asc' and whose first line has more than one
    field; the catalog list then has one entry for each line of the file,
    the fields of the line after the first. *)
Theorem catalogs_of_atfile (input : input_spec) (prodonly : bool)
    (filelist : list string) (catlist : list (list string)) :
  snd (parse_input input prodonly) = Return (filelist, Some catlist) ->
  exists s lines,
    input = Name s
    /\ first_char s = Return "@"%char
    /\ contains "_asn" s = false /\ contains "_asc" s = false
    /\ open_lines (from_second s) = Return lines
    /\ (1 < length (words (List.hd EmptyString lines)))%nat
    /\ catlist = List.map (fun line => List.tl (words line)) lines.
Proof.
  unfold Tweak.parse_input. destruct input as [s|l].
  - destruct (contains "_asn" s) eqn:Easn; simpl.
    { destruct (readASNTable_order s prodonly) as [order|e]; simpl; [|discriminate].
      destruct (rootnames buildRootname order); simpl; discriminate. }
    destruct (contains "_asc" s) eqn:Easc; simpl.
    { destruct (readASNTable_order s prodonly) as [order|e]; simpl; [|discriminate].
      destruct (rootnames buildRootname order); simpl; discriminate. }
    destruct (first_char s) as [c|e] eqn:Ec; simpl; [|discriminate].
    destruct (Ascii.eqb_spec c "@") as [->|Hc]; simpl.
    + destruct (open_lines (from_second s)) as [lines|e] eqn:Eo; simpl; [|discriminate].
      destruct (irafglob s atfile_sci) as [fl|e]; simpl; [|discriminate].
      destruct (1 <? length (words (List.hd EmptyString lines)))%nat eqn:Ew; simpl;
        [|discriminate].
      unfold parse_atfile_cat. rewrite Eo. simpl. intros H. injection H as _ <-.
      exists s, lines. repeat split; try reflexivity; try assumption.
      apply Nat.ltb_lt. exact Ew.
    + destruct (parseinput (Name s)) as [[fl output]|e]; simpl; discriminate.
  - destruct (parseinput (Names l)) as [[fl output]|e]; simpl; discriminate.
Qed.

End Input.

Import RationalModel TweakSamples.

Lemma documented_formats_agree_witness :
  Forall (fun ra =>
            radec_hmstodd Q no_position ra (AsString "-12:34:56.7")
            = no_position (with_colons "01" "23" "45.6" ++ " "
                             ++ hms_string (AsString "-12:34:56.7"))%string)
    [AsList ["01"; "23"; "45.6"]; AsString (with_colons "01" "23" "45.6");
     AsString (with_blanks "01" "23" "45.6");
     AsString (with_units "01" "23" "45.6" "H" "M" "S")].
Proof.
  apply (documented_formats_agree no_position "01" "23" "45.6" "H" "M" "S"
           (AsString "-12:34:56.7")).
  - split; [discriminate|reflexivity].
  - split; [discriminate|reflexivity].
  - split; [discriminate|reflexivity].
  - reflexivity.
  - reflexivity.
  - reflexivity.
Defined.

Lemma catalogs_of_atfile_witness :
  exists s lines,
    Name "@inputs.txt" = Name s
    /\ first_char s = Return "@"%char
    /\ contains "_asn" s = false /\ contains "_asc" s = false
    /\ open_sample (from_second s) = Return lines
    /\ (1 < length (words (List.hd EmptyString lines)))%nat
    /\ [["j8bt06nyq.coo"]; []] = List.map (fun line => List.tl (words line)) lines.
Proof.
  apply (catalogs_of_atfile open_sample no_table same_name glob_sample parse_sample
           (Name "@inputs.txt") false
           ["j8bt06nyq_flt.fits"; "j8bt06nzq_flt.fits"]
           [["j8bt06nyq.coo"]; []]).
  reflexivity.
Defined.

End TweakFacts.

(** ** Facts about the coordinate files *)

Module TweakIOFacts.

Import Py2 Tweak TweakSpec TweakIO.

Lemma outcome_bind_return {A B : Type} (m : outcome A) (k : A -> outcome B) (b : B) :
  m ≫= k = Return b -> exists a, m = Return a /\ k a = Return b.
Proof. destruct m as [a|e]; simpl; intros H; [eauto|discriminate H]. Qed.

Lemma append_at_length {A : Type} (n : nat) (v : A) (outarr outarr' : list (list A)) :
  append_at n v outarr = Return outarr' -> length outarr' = length outarr.
Proof.
  unfold append_at. destruct (outarr !! n); [|discriminate].
  intros H. injection H as <-. apply length_insert.
Qed.

Lemma py_bind_res {A B : Type} (m : py A) (k : A -> py B) :
  snd (m ≫= k) = match snd m with Return a => snd (k a) | Throw e => Throw e end.
Proof.
  destruct m as [o [a|e]]; unfold mbind, py_mbind, py_bind; simpl; [|reflexivity].
  destruct (k a); reflexivity.
Qed.

Lemma py_bind_return {A B : Type} (m : py A) (k : A -> py B) (b : B) :
  snd (m ≫= k) = Return b -> exists a, snd m = Return a /\ snd (k a) = Return b.
Proof.
  rewrite py_bind_res. destruct (snd m) as [a|e]; [eauto|discriminate].
Qed.

Lemma py_bind_throw {A B : Type} (m : py A) (k : A -> py B) :
  (forall a, snd m = Return a -> exists e, snd (k a) = Throw e) ->
  exists e, snd (m ≫= k) = Throw e.
Proof.
  intros H. rewrite py_bind_res. destruct (snd m) as [a|e]; [apply H; reflexivity|eauto].
Qed.

Section Facts.
Context {num : Type}.
Variable open_lines : string -> outcome (list string).
Variable pyfits_open : string -> outcome (list (hdu num)).
Variable py_int : string -> outcome Z.
Variable py_float : string -> outcome num.
Variable position_dd : string -> outcome (num * num).
Variable plot : list (cell num) -> list (cell num) -> list (cell num)
                -> list (cell num) -> py unit.

Local Abbreviation line_columns := (line_columns num py_float position_dd).
Local Abbreviation read_line := (read_line num py_float position_dd).
Local Abbreviation read_lines := (read_lines num py_float position_dd).
Local Abbreviation read_ASCII_cols :=
  (read_ASCII_cols num open_lines py_int py_float position_dd).
Local Abbreviation read_FITS_cols := (read_FITS_cols num pyfits_open).
Local Abbreviation readcols :=
  (readcols num open_lines pyfits_open py_int py_float position_dd).
Local Abbreviation make_vector_plot :=
  (make_vector_plot num open_lines pyfits_open py_int py_float position_dd plot).

(** *** read_ASCII_cols *)

Lemma line_columns_length (lspl : list string) (numcols : nat)
    (pairs : list (Z * nat)) (ra : option string)
    (outarr outarr' : list (list (cell num))) :
  line_columns lspl numcols pairs ra outarr = Return outarr' ->
  length outarr' = length outarr.
Proof.
  revert ra outarr. induction pairs as [|[c n] rest IH]; intros ra outarr; simpl.
  - intros H. injection H as <-. reflexivity.
  - destruct (Nat.eqb numcols 2).
    + intros H. apply outcome_bind_return in H as (v & _ & H).
      apply outcome_bind_return in H as (cval & _ & H).
      apply outcome_bind_return in H as (o1 & Ho1 & H).
      rewrite (IH _ _ H). exact (append_at_length _ _ _ _ Ho1).
    + destruct ra as [ra|].
      * intros H. apply outcome_bind_return in H as (d0 & _ & H).
        apply outcome_bind_return in H as (d1 & _ & H).
        apply outcome_bind_return in H as (d2 & _ & H).
        apply outcome_bind_return in H as ([radd decdd] & _ & H).
        apply outcome_bind_return in H as (o1 & Ho1 & H).
        rewrite (append_at_length _ _ _ _ H). exact (append_at_length _ _ _ _ Ho1).
      * intros H. apply outcome_bind_return in H as (a0 & _ & H).
        apply outcome_bind_return in H as (a1 & _ & H).
        apply outcome_bind_return in H as (a2 & _ & H).
        exact (IH _ _ H).
Qed.

Lemma read_line_length (colnums : list Z) (outarr outarr' : list (list (cell num)))
    (l : string) :
  read_line colnums outarr l = Return outarr' -> length outarr' = length outarr.
Proof.
  unfold TweakIO.read_line. intros H.
  apply outcome_bind_return in H as (c0 & _ & H).
  destruct (Ascii.eqb c0 "#"); [injection H as <-; reflexivity|].
  destruct (_ || _); [injection H as <-; reflexivity|].
  apply outcome_bind_return in H as (n0 & _ & H).
  apply outcome_bind_return in H as (x & _ & H).
  destruct (found_after_start ":" x).
  - apply outcome_bind_return in H as (n1 & _ & H).
    apply outcome_bind_return in H as (y & _ & H).
    apply outcome_bind_return in H as ([radd decdd] & _ & H).
    apply outcome_bind_return in H as (o1 & Ho1 & H).
    rewrite (append_at_length _ _ _ _ H). exact (append_at_length _ _ _ _ Ho1).
  - exact (line_columns_length _ _ _ _ _ _ H).
Qed.

Lemma read_lines_length (colnums : list Z) (lines : list string)
    (outarr outarr' : list (list (cell num))) :
  read_lines colnums lines outarr = Return outarr' -> length outarr' = length outarr.
Proof.
  revert outarr. induction lines as [|l rest IH]; intros outarr; simpl.
  - intros H. injection H as <-. reflexivity.
  - intros H. apply outcome_bind_return in H as (o1 & Ho1 & H).
    rewrite (IH _ H). exact (read_line_length _ _ _ _ Ho1).
Qed.

Lemma read_ASCII_two (infile : string) (cols : option (list colspec))
    (outarr : list (list (cell num))) :
  snd (read_ASCII_cols infile cols) = Return outarr -> length outarr = 2%nat.
Proof.
  unfold TweakIO.read_ASCII_cols. intros H.
  apply py_bind_return in H as (c0 & _ & H).
  apply py_bind_return in H as (colnums & _ & H).
  apply py_bind_return in H as (colnums' & _ & H).
  apply py_bind_return in H as (lines & _ & H).
  simpl in H. exact (read_lines_length _ _ _ _ H).
Qed.

(** X26.  read_ASCII_cols returns two columns, however many columns were
    asked for: values are only ever appended to the first and the second
    list of the result. *)
Theorem ascii_columns_are_two (infile : string) (cols : option (list colspec))
    (outarr : list (list (cell num))) :
  snd (read_ASCII_cols infile cols) = Return outarr ->
  exists xs ys, outarr = [xs; ys].
Proof.
  intros H. apply read_ASCII_two in H.
  destruct outarr as [|xs [|ys [|zs rest]]]; try discriminate H. eauto.
Qed.

(** *** readcols *)

(** X27.  readcols called without column names, with its default
    cols=None, never returns: both readers take cols[0]. *)
Theorem default_columns_raise (infile : string) :
  exists e, snd (readcols infile None) = Throw e.
Proof.
  unfold TweakIO.readcols. destruct (found_after_start ".fits" infile).
  - unfold TweakIO.read_FITS_cols. apply py_bind_throw. intros ftab _.
    destruct (find_table num ftab) as [extn|].
    + apply py_bind_throw. intros c0 Hc0. discriminate Hc0.
    + apply py_bind_throw. intros _ _. eexists. reflexivity.
  - unfold TweakIO.read_ASCII_cols. apply py_bind_throw.
    intros c0 Hc0. discriminate Hc0.
Qed.

(** *** make_vector_plot *)


(** *** write_xy_file *)

Variable exists_ : string -> bool.
Variable format_value : string -> num -> string.

Local Abbreviation write_xy_file := (write_xy_file num exists_ format_value).

Lemma combine_take {A B : Type} (l1 : list A) (l2 : list B) :
  List.combine (take (length l2) l1) l2 = List.combine l1 l2.
Proof.
  revert l1. induction l2 as [|b l2 IH]; intros [|a l1]; simpl; try reflexivity.
  rewrite IH. reflexivity.
Qed.

Lemma item_take_first {A : Type} (l : list A) (n : nat) :
  item (take (S n) l) 0 = item l 0.
Proof. destruct l as [|a l]; reflexivity. Qed.

(** X29.  write_xy_file pairs the groups of columns with the format
    strings: the groups beyond the number of format strings, with the
    default format all but the first group, are never written. *)
Theorem groups_beyond_formats_ignored (outname : string)
    (xydata : list (list (list num))) (append : bool)
    (fmts : string) (formats : list string) :
  write_xy_file outname xydata append (fmts :: formats)
  = write_xy_file outname (take (length (fmts :: formats)) xydata) append
      (fmts :: formats).
Proof.
  unfold TweakIO.write_xy_file.
  rewrite (combine_take xydata (fmts :: formats)).
  cbn [length]. rewrite item_take_first. reflexivity.
Qed.

End Facts.

(** *** get_configobj_root *)

Lemma option_key_first (key : string) :
  option_key key = true <-> exists c, first_char key = Return c /\ islower c = true.
Proof.
  destruct key as [|c rest]; simpl.
  - split; [discriminate|]. intros (c & H & _). discriminate H.
  - split; [eauto|]. intros (c' & H & Hl). injection H as ->. exact Hl.
Qed.

Lemma copy_options_lookup {V : Type} (configobj : list (string * V))
    (acc kwargs : gmap string V) :
  NoDup (List.map fst configobj) ->
  (forall key, In key (List.map fst configobj) -> acc !! key = None) ->
  copy_options configobj acc = Return kwargs ->
  forall key v,
    kwargs !! key = Some v
    <-> (In (key, v) configobj /\ option_key key = true) \/ acc !! key = Some v.
Proof.
  revert acc. induction configobj as [|[k0 v0] rest IH]; intros acc Hnd Hfresh H key v.
  - simpl in H. injection H as <-. simpl. tauto.
  - simpl in Hnd. apply NoDup_cons in Hnd as [Hk0 Hnd].
    rewrite list_elem_of_In in Hk0. simpl in H.
    apply outcome_bind_return in H as (c & Hc & H).
    assert (Hopt : option_key k0 = islower c).
    { destruct k0; [discriminate Hc|]. injection Hc as ->. reflexivity. }
    assert (Hacc0 : acc !! k0 = None) by (apply Hfresh; left; reflexivity).
    assert (Hfresh' : forall key', In key' (List.map fst rest) ->
              (if islower c then <[k0 := v0]> acc else acc) !! key' = None).
    { intros key' Hin. destruct (islower c); [|apply Hfresh; right; exact Hin].
      rewrite lookup_insert_ne by (intros ->; contradiction).
      apply Hfresh. right. exact Hin. }
    rewrite (IH _ Hnd Hfresh' H). clear Hfresh'.
    simpl. destruct (islower c).
    + destruct (decide (k0 = key)) as [->|Hne].
      * rewrite lookup_insert_eq. split.
        -- intros [[Hin _]|Heq].
           ++ exfalso. apply Hk0. apply (List.in_map fst) in Hin. exact Hin.
           ++ injection Heq as <-. left. split; [left; reflexivity|exact Hopt].
        -- intros [[[Heq|Hin] _]|Hacc].
           ++ injection Heq as <-. right. reflexivity.
           ++ exfalso. apply Hk0. apply (List.in_map fst) in Hin. exact Hin.
           ++ rewrite Hacc0 in Hacc. discriminate Hacc.
      * rewrite lookup_insert_ne by exact Hne. split.
        -- intros [[Hin Ho]|Hacc]; [left; split; [right; exact Hin|exact Ho]|right; exact Hacc].
        -- intros [[[Heq|Hin] Ho]|Hacc]; [congruence|left; split; assumption|right; exact Hacc].
    + split.
      * intros [[Hin Ho]|Hacc]; [left; split; [right; exact Hin|exact Ho]|right; exact Hacc].
      * intros [[[Heq|Hin] Ho]|Hacc]; [|left; split; assumption|right; exact Hacc].
        injection Heq as <- <-. rewrite Hopt in Ho. discriminate Ho.
Qed.

Lemma copy_options_returns {V : Type} (configobj : list (string * V))
    (acc : gmap string V) :
  Forall (fun kv => option_key (fst kv) = true) configobj ->
  exists kwargs, copy_options configobj acc = Return kwargs.
Proof.
  revert acc. induction configobj as [|[k0 v0] rest IH]; intros acc H.
  - eexists. reflexivity.
  - inversion H as [|? ? Hk Hrest]; subst. simpl in Hk.
    destruct k0 as [|c k0]; [discriminate Hk|]. simpl. apply IH. exact Hrest.
Qed.

(** X30.  For a configuration with distinct keys get_configobj_root,
    when it returns, returns the dict of exactly those entries whose key
    starts with a lower-case letter, so that no section is left; applied
    to the entries of its result, in whatever order the dict yields them,
    it returns the same dict. *)
Theorem configobj_root_options {V : Type} (configobj : list (string * V))
    (kwargs : gmap string V) :
  NoDup (List.map fst configobj) ->
  get_configobj_root configobj = Return kwargs ->
  (forall key v,
     kwargs !! key = Some v <-> In (key, v) configobj /\ option_key key = true)
  /\ forall entries,
       NoDup (List.map fst entries) ->
       (forall key v, In (key, v) entries <-> kwargs !! key = Some v) ->
       get_configobj_root entries = Return kwargs.
Proof.
  intros Hnd H.
  assert (Hspec : forall key v,
            kwargs !! key = Some v <-> In (key, v) configobj /\ option_key key = true).
  { intros key v. unfold get_configobj_root in H.
    rewrite (copy_options_lookup configobj ∅ kwargs Hnd (fun _ _ => lookup_empty _) H).
    rewrite lookup_empty. split; [intros [Hl|Hr]; [exact Hl|discriminate Hr]|auto]. }
  split; [exact Hspec|]. intros entries Hnd' Hentries.
  destruct (copy_options_returns entries ∅) as [kwargs' Hk'].
  { apply List.Forall_forall. intros [key v] Hin. simpl.
    apply Hentries, Hspec in Hin. apply Hin. }
  unfold get_configobj_root. rewrite Hk'. f_equal. apply map_eq. intros key.
  apply option_eq. intros v.
  rewrite (copy_options_lookup entries ∅ kwargs' Hnd' (fun _ _ => lookup_empty _) Hk').
  rewrite lookup_empty, Hentries. split.
  - intros [[Hl _]|Hr]; [exact Hl|discriminate Hr].
  - intros Hl. left. split; [exact Hl|]. apply Hspec in Hl. apply Hl.
Qed.

Import RationalModel TweakIOSamples.

Lemma ascii_columns_are_two_witness :
  exists xs ys,
    [[Float (Qmake 10 1); Float (Qmake 30 1)];
     [Float (Qmake 20 1); Float (Qmake 40 1)]] = [xs; ys].
Proof.
  apply (ascii_columns_are_two open_match int_of float_of TweakSamples.no_position
           "xy.match" (Some [CInt 1; CInt 2])).
  reflexivity.
Defined.


Lemma configobj_root_options_witness :
  (forall key v,
     sample_options !! key = Some v
     <-> In (key, v) sample_config /\ option_key key = true)
  /\ forall entries,
       NoDup (List.map fst entries) ->
       (forall key v, In (key, v) entries <-> sample_options !! key = Some v) ->
       get_configobj_root entries = Return sample_options.
Proof.
  apply (configobj_root_options sample_config sample_options).
  - refine (bool_decide_unpack _ _). vm_compute. exact I.
  - vm_compute. reflexivity.
Defined.

End TweakIOFacts.
